(** * HL7 / CMS-1500 converter: a shallow embedding of the codec

    The repository holds four converters that share function names:
    - [CMSConverter], src/CMSConverter.tsx: a path-driven encoder and a
      switch-driven decoder;
    - [DynamicConverter], the converter page with the index-driven
      [segmentDefinitions] encoder and the table-driven decoder;
    - [CMS1500ToHL7Converter], the PDF page: the field extractor, its local
      [formatDate] and a switch-driven decoder;
    - [FixedConverter], src/fixed_converter.tsx: the text-form encoder.

    JavaScript strings are modelled by [string], a character standing for a
    code unit below 256.  An object used as a dictionary is a
    [gmap string _]; where the order of [Object.keys] matters the object is
    the list of its entries in insertion order. *)

From Stdlib Require Import ZArith Lia Ascii String List.
From stdpp Require Import gmap strings list fin_maps pretty sorting.

Local Open Scope string_scope.

(** ** JavaScript primitives used by the converters *)
Module JS.

(** [s.split(sep)] for a one-character separator. *)
Fixpoint split (sep : ascii) (s : string) : list string :=
  match s with
  | EmptyString => [""]
  | String c rest =>
      if Ascii.eqb c sep then "" :: split sep rest
      else match split sep rest with
           | cur :: more => String c cur :: more
           | [] => [String c ""]
           end
  end.

(** [l.join(sep)]. *)
Fixpoint join (sep : string) (l : list string) : string :=
  match l with
  | [] => ""
  | [x] => x
  | x :: rest => x ++ sep ++ join sep rest
  end.

Definition chars (s : string) : list ascii := list_ascii_of_string s.

Definition ofChars (l : list ascii) : string := string_of_list_ascii l.

(** White space, as [trim] and [\s] see it (code units below 256). *)
Definition isWhiteSpace (c : ascii) : bool :=
  match nat_of_ascii c with
  | 9 | 10 | 11 | 12 | 13 | 32 | 160 => true
  | _ => false
  end.

Fixpoint dropWhiteSpace (l : list ascii) : list ascii :=
  match l with
  | c :: rest => if isWhiteSpace c then dropWhiteSpace rest else l
  | [] => []
  end.

(** [s.trim()] *)
Definition trim (s : string) : string :=
  ofChars (rev (dropWhiteSpace (rev (dropWhiteSpace (chars s))))).

(** Truthiness of a string: it is not empty. *)
Definition truthy (s : string) : bool :=
  match s with EmptyString => false | _ => true end.

(** [a || b] on strings. *)
Definition orElse (a b : string) : string :=
  if truthy a then a else b.

(** [o[k] || ""] on a dictionary of strings. *)
Definition getOr (o : gmap string string) (k : string) : string :=
  orElse (default "" (o !! k)) "".

(** [a[i] || ""] on an array of strings. *)
Definition nthOr (a : list string) (i : nat) : string :=
  orElse (default "" (a !! i)) "".

(** [\d] *)
Definition isDigit (c : ascii) : bool :=
  (48 <=? nat_of_ascii c)%nat && (nat_of_ascii c <=? 57)%nat.

Definition allDigits (s : string) : bool := forallb isDigit (chars s).

Fixpoint repeatChar (n : nat) (c : ascii) : string :=
  match n with
  | O => ""
  | S k => String c (repeatChar k c)
  end.

(** [s.padStart(n, c)] for a one-character filler. *)
Definition padStart (n : nat) (c : ascii) (s : string) : string :=
  repeatChar (n - String.length s) c ++ s.

(** [s.startsWith(p)] *)
Definition startsWith (p s : string) : bool := String.prefix p s.

(** The template [`field${n}`]. *)
Definition fieldName (n : nat) : string := "field" ++ pretty n.

(** [a.forEach((x, i) => ...)] visits the pairs (index, element). *)
Definition indexed {A} (a : list A) : list (nat * A) := imap pair a.

(** [Array.prototype.sort] is stable; with a consistent comparator its
    result is the stable sorted arrangement, which insertion from the right
    computes.  The comparator returns a number, negative when its first
    argument goes first. *)
Fixpoint insertSorted {A} (cmp : A → A → Z) (x : A) (l : list A) : list A :=
  match l with
  | [] => [x]
  | y :: rest =>
      if (cmp x y <=? 0)%Z then x :: y :: rest
      else y :: insertSorted cmp x rest
  end.

Definition sort {A} (cmp : A → A → Z) (l : list A) : list A :=
  foldr (insertSorted cmp) [] l.

(** Comparison of strings by code units, a collation to run examples with. *)
Definition codeUnitCompare (a b : string) : Z :=
  match String.compare a b with
  | Lt => (-1)%Z
  | Eq => 0%Z
  | Gt => 1%Z
  end.

(** [o[k] = v] on an object created by a literal, as the own properties of
    [o] see it.  The name [__proto__] is the accessor of the prototype:
    assigning an object to it replaces the prototype of [o], assigning a
    string does nothing, and in both cases no property is stored. *)
Definition assign {V} (k : string) (v : V) (o : gmap string V) : gmap string V :=
  if bool_decide (k = "__proto__") then o else <[k := v]> o.

End JS.

(** ** The helpers that src/CMSConverter.tsx and the dynamic page share *)
Module Common.
Import JS.

(** [/^\d{8}$/] *)
Definition eightDigits (s : string) : bool :=
  (String.length s =? 8)%nat && allDigits s.

(** [[-/]] *)
Definition isDateSep (c : ascii) : bool :=
  Ascii.eqb c "-" || Ascii.eqb c "/".

(** [(\d{1,2})] in front of a separator: the group is greedy and, a
    separator not being a digit, giving the second digit back never helps. *)
Definition digits12 (s : string) : option (string * string) :=
  match s with
  | String a (String b rest) =>
      if isDigit a then
        if isDigit b then Some (String a (String b ""), rest)
        else Some (String a "", String b rest)
      else None
  | String a EmptyString => if isDigit a then Some (String a "", "") else None
  | EmptyString => None
  end.

(** [[-/]] at the head of the input. *)
Definition dateSep (s : string) : option string :=
  match s with
  | String c rest => if isDateSep c then Some rest else None
  | EmptyString => None
  end.

(** [/^(\d{1,2})[-/](\d{1,2})[-/](\d{4})$/]: the three groups. *)
Definition matchDate (s : string) : option (string * string * string) :=
  '(month, r1) ← digits12 s;
  r2 ← dateSep r1;
  '(day, r3) ← digits12 r2;
  year ← dateSep r3;
  if (String.length year =? 4)%nat && allDigits year
  then Some (month, day, year) else None.

Definition formatDate (dateStr : string) : string :=
  if truthy dateStr && eightDigits dateStr then dateStr
  else if truthy dateStr then
    match matchDate dateStr with
    | Some (month, day, year) =>
        year ++ padStart 2 "0" month ++ padStart 2 "0" day
    | None => ""
    end
  else "".

(** The [while] loop of [createSegment], seen from the end of the array:
    pop while more than one slot is left and the last one is empty. *)
Fixpoint popTrailing (reversed : list string) : list string :=
  match reversed with
  | EmptyString :: (_ :: _) as rest => popTrailing rest
  | _ => reversed
  end.

Definition trimTrailing (fields : list string) : list string :=
  rev (popTrailing (rev fields)).

Definition createSegment (segmentName : string) (fields : list string) : string :=
  join "|" (segmentName :: trimTrailing fields).

(** A parsed JSON record: its entries in the order of [Object.keys]. *)
Definition Json : Type := list (string * gmap string string).

Definition objKeys (o : Json) : list string := o.*1.

(** [o[k]] *)
Definition objGet (o : Json) (k : string) : option (gmap string string) :=
  (list_to_map o : gmap string (gmap string string)) !! k.

(** The key of the OBX sort: [o[a]?.setId || a]. *)
Definition obxSortKey (o : Json) (a : string) : string :=
  orElse (default "" (objGet o a ≫= (.!! "setId"))) a.

(** The OBX part of [convertToHL7]: the keys that start with OBX, sorted,
    one segment each.  The two pages differ only in how they read a field
    ([getNestedValue(obxData, f)] against [obxData.f || '']), which is the
    same value on a dictionary of strings. *)
Definition obxKeys (localeCompare : string → string → Z) (o : Json) : list string :=
  sort (λ a b, localeCompare (obxSortKey o a) (obxSortKey o b))
       (filter (λ key, startsWith "OBX" key = true) (objKeys o)).

Definition obxFields (obxData : gmap string string) : list string :=
  [ getOr obxData "setId"; getOr obxData "valueType";
    getOr obxData "observationIdentifier"; "";
    getOr obxData "observationValue"; ""; ""; ""; ""; "";
    getOr obxData "observationStatus" ].

Definition obxSegments (localeCompare : string → string → Z) (o : Json) : list string :=
  (λ obxKey, createSegment "OBX" (obxFields (default ∅ (objGet o obxKey))))
    <$> obxKeys localeCompare o.

End Common.

(** ** The dynamic page: index-driven encoder, table-driven decoder *)
Module DynamicConverter.
Import JS Common.

Record FieldDef : Type := mkFieldDef {
  field : string;
  index : nat;
  transform : option (string → string)
}.

Definition plain (f : string) (i : nat) : FieldDef := mkFieldDef f i None.

Definition dated (f : string) (i : nat) : FieldDef := mkFieldDef f i (Some formatDate).

(** [segmentDefinitions], in the order of [Object.entries]. *)
Definition segmentDefinitions : list (string * list FieldDef) :=
  [ ("MSH",
     [ plain "encodingCharacters" 1; plain "sendingApplication" 2;
       plain "sendingFacility" 3; plain "receivingApplication" 4;
       plain "receivingFacility" 5; dated "dateTime" 6;
       plain "messageType" 8; plain "controlId" 9;
       plain "processingId" 10; plain "versionId" 11 ]);
    ("PID",
     [ plain "setId" 1; plain "patientId" 3; plain "patientName" 5;
       dated "dob" 7; plain "gender" 8; plain "address" 11;
       plain "phoneNumber" 13; plain "patientAccountNumber" 18 ]);
    ("PV1",
     [ plain "setId" 1; plain "patientClass" 2; plain "attendingDoctor" 7;
       plain "billingProviderPhone" 19; plain "providerAddress" 44 ]);
    ("PR1",
     [ plain "setId" 1; plain "procedureCode" 3;
       plain "procedureDescription" 4; dated "procedureDate" 5;
       plain "providerName" 11 ]);
    ("IN1",
     [ plain "setId" 1; plain "insurancePlan" 2; plain "otherInsured" 3;
       plain "insuranceId" 4; plain "secondaryInsurancePlan" 5;
       plain "healthBenefitPlan" 6; plain "insuredName" 16;
       dated "insuredDob" 18; plain "insuredAddress" 19;
       plain "insuredPhoneNumber" 20 ]) ].

(** The body of the loop over one segment definition:
    [Array(Math.max(...indexes) + 1).fill('')], then one assignment
    [segmentFields[index] = value] per field.  Every index is at most the
    maximum, so each assignment is in range. *)
Definition segmentFieldsOf (segmentData : gmap string string)
    (fields : list FieldDef) : list string :=
  foldl (λ segmentFields f,
           let value := getOr segmentData (field f) in
           let value := match transform f with
                        | Some t => t value
                        | None => value
                        end in
           <[index f := value]> segmentFields)
        (replicate (S (max_list (index <$> fields))) "")
        fields.

(** The segments of the table: one line per definition whose segment is
    present in the record. *)
Definition definedSegments (data : Json) : list string :=
  omap (λ '(segmentName, fields),
          segmentData ← objGet data segmentName;
          Some (createSegment segmentName (segmentFieldsOf segmentData fields)))
       segmentDefinitions.

(** [convertToHL7], from the parsed record on. *)
Definition convertToHL7 (localeCompare : string → string → Z) (data : Json) : string :=
  join (String "010" "") (definedSegments data ++ obxSegments localeCompare data).

(** The same with the page's [jsonDataRef] cell threaded through: the cell
    is overwritten with the parsed record before anything reads it. *)
Definition convertToHL7Ref (localeCompare : string → string → Z)
    (parsed : Json) (jsonDataRef : Json) : string * Json :=
  let current := parsed in
  (convertToHL7 localeCompare current, current).

(** [segmentFieldMappings] *)
Definition segmentFieldMappings : gmap string (gmap string string) :=
  list_to_map
  [ ("MSH", list_to_map
     [ ("field1", "encodingCharacters"); ("field2", "sendingApplication");
       ("field3", "sendingFacility"); ("field4", "receivingApplication");
       ("field5", "receivingFacility"); ("field6", "dateTime");
       ("field8", "messageType"); ("field9", "controlId");
       ("field10", "processingId"); ("field11", "versionId") ]);
    ("PID", list_to_map
     [ ("field1", "setId"); ("field3", "patientId"); ("field5", "patientName");
       ("field7", "dob"); ("field8", "gender"); ("field11", "address");
       ("field13", "phoneNumber"); ("field18", "patientAccountNumber") ]);
    ("PV1", list_to_map
     [ ("field1", "setId"); ("field2", "patientClass");
       ("field7", "attendingDoctor"); ("field19", "billingProviderPhone");
       ("field44", "providerAddress") ]);
    ("PR1", list_to_map
     [ ("field1", "setId"); ("field3", "procedureCode");
       ("field4", "procedureDescription"); ("field5", "procedureDate");
       ("field11", "providerName") ]);
    ("IN1", list_to_map
     [ ("field1", "setId"); ("field2", "insurancePlan");
       ("field3", "otherInsured"); ("field4", "insuranceId");
       ("field5", "secondaryInsurancePlan"); ("field6", "healthBenefitPlan");
       ("field16", "insuredName"); ("field18", "insuredDob");
       ("field19", "insuredAddress"); ("field20", "insuredPhoneNumber") ]);
    ("OBX", list_to_map
     [ ("field1", "setId"); ("field2", "valueType");
       ("field3", "observationIdentifier"); ("field5", "observationValue");
       ("field11", "observationStatus") ]) ].

(** The key a field is stored under:
    [mappings[`field${index + 1}`] || `field${index + 1}`]. *)
Definition fieldKeyOf (mappings : gmap string string) (index : nat) : string :=
  orElse (default "" (mappings !! fieldName (index + 1))) (fieldName (index + 1)).

(** [fields.forEach((field, index) => segmentData[fieldKey] = field || "")] *)
Definition segmentDataOf (mappings : gmap string string)
    (fields : list string) : gmap string string :=
  foldl (λ segmentData '(index, field),
           assign (fieldKeyOf mappings index) (orElse field "") segmentData)
        ∅ (indexed fields).

(** The segment key: the type, with the set identifier appended for an OBX
    line whose first field is not empty. *)
Definition segmentKeyOf (segmentType : string) (fields : list string) : string :=
  if bool_decide (segmentType = "OBX") && truthy (default "" (fields !! 0%nat))
  then "OBX" ++ default "" (fields !! 0%nat)
  else segmentType.

(** The body of the loop over the lines, for a mapping table [table].  The
    record is the own properties of [jsonOutput], which is what the page
    shows and saves; the loop reads nothing back from it.  A segment type
    that is a name every object inherits has no entry of the form
    [field<N>] in what [segmentFieldMappings[segmentType]] gives, like a
    type absent from the table. *)
Definition decodeLine (table : gmap string (gmap string string))
    (jsonOutput : gmap string (gmap string string)) (line : string)
    : gmap string (gmap string string) :=
  match split "|" line with
  | segmentType :: fields =>
      let mappings := default ∅ (table !! segmentType) in
      assign (segmentKeyOf segmentType fields) (segmentDataOf mappings fields)
             jsonOutput
  | [] => jsonOutput
  end.

(** [hl7.split("\n").filter(line => line.trim())] *)
Definition wireLines (hl7 : string) : list string :=
  filter (λ line, truthy (trim line) = true) (split "010" hl7).

Definition convertHL7ToJsonWith (table : gmap string (gmap string string))
    (hl7 : string) : gmap string (gmap string string) :=
  foldl (decodeLine table) ∅ (wireLines hl7).

Definition convertHL7ToJson (hl7 : string) : gmap string (gmap string string) :=
  convertHL7ToJsonWith segmentFieldMappings hl7.

End DynamicConverter.

(** ** src/CMSConverter.tsx: path-driven encoder, switch-driven decoder *)
Module CMSConverter.
Import JS Common.

(** The values [getNestedValue] walks through. *)
Inductive JsValue : Type :=
| JUndefined
| JString (s : string)
| JFields (o : gmap string string)
| JRecord (o : Json).

Definition jsTruthy (v : JsValue) : bool :=
  match v with
  | JUndefined => false
  | JString s => truthy s
  | JFields _ | JRecord _ => true
  end.

(** [current[key]].  No path of the tables reaches into a string. *)
Definition jsGet (current : JsValue) (key : string) : JsValue :=
  match current with
  | JRecord o => from_option JFields JUndefined (objGet o key)
  | JFields o => from_option JString JUndefined (o !! key)
  | JString _ | JUndefined => JUndefined
  end.

(** [path.split('.').reduce((current, key) => current ? current[key] : '', obj) || ''].
    The paths of the tables end on a string or on nothing. *)
Definition getNestedValue (obj : JsValue) (path : string) : string :=
  match foldl (λ current key, if jsTruthy current then jsGet current key else JString "")
              obj (split "." path) with
  | JString s => orElse s ""
  | _ => ""
  end.

Record FieldMapping : Type := mkFieldMapping {
  path : option string;
  value : option string;
  transform : option (string → string)
}.

Definition at_ (p : string) : FieldMapping := mkFieldMapping (Some p) None None.

Definition date_ (p : string) : FieldMapping := mkFieldMapping (Some p) None (Some formatDate).

Definition blank : FieldMapping := mkFieldMapping None (Some "") None.

(** [hl7Mappings], in the order of [Object.entries]. *)
Definition hl7Mappings : list (string * list FieldMapping) :=
  [ ("MSH",
     [ at_ "MSH.encodingCharacters"; blank; at_ "MSH.sendingApplication";
       at_ "MSH.sendingFacility"; at_ "MSH.receivingApplication";
       at_ "MSH.receivingFacility"; date_ "MSH.dateTime"; blank;
       at_ "MSH.messageType"; at_ "MSH.controlId"; at_ "MSH.processingId";
       at_ "MSH.versionId" ]);
    ("PID",
     [ at_ "PID.setId"; blank; at_ "PID.patientId"; blank;
       at_ "PID.patientName"; blank; date_ "PID.dob"; at_ "PID.gender";
       blank; blank; at_ "PID.address"; blank; at_ "PID.phoneNumber";
       blank; blank; blank; blank; at_ "PID.patientAccountNumber" ]);
    ("PV1",
     [ at_ "PV1.setId"; at_ "PV1.patientClass"; blank; blank; blank; blank;
       at_ "PV1.attendingDoctor"; blank; blank; blank; blank; blank; blank;
       blank; blank; blank; blank; blank; at_ "PV1.providerPhoneNumber" ]);
    ("PR1",
     [ at_ "PR1.setId"; blank; at_ "PR1.procedureCode";
       at_ "PR1.procedureDescription"; date_ "PR1.procedureDate";
       blank; blank; blank; blank; blank; at_ "PR1.providerName" ]);
    ("IN1",
     [ at_ "IN1.setId"; at_ "IN1.insurancePlan"; at_ "IN1.otherInsured";
       at_ "IN1.insuranceId"; at_ "IN1.secondaryInsurancePlan";
       blank; blank; blank; blank; blank; blank; blank; blank; blank; blank;
       at_ "IN1.insuredName"; blank; date_ "IN1.insuredDob";
       at_ "IN1.insuredAddress"; at_ "IN1.insuredPhoneNumber" ]) ].

(** [field.path ? getNestedValue(data, field.path) : field.value || ''],
    then the transform when there is one. *)
Definition fieldValue (data : Json) (f : FieldMapping) : string :=
  let value := match path f with
               | Some p => if truthy p then getNestedValue (JRecord data) p
                           else orElse (default "" (value f)) ""
               | None => orElse (default "" (value f)) ""
               end in
  match transform f with
  | Some t => t value
  | None => value
  end.

Definition standardSegments (data : Json) : list string :=
  (λ '(segmentName, fields), createSegment segmentName (fieldValue data <$> fields))
    <$> hl7Mappings.

(** [convertToHL7], from the parsed record on. *)
Definition convertToHL7 (localeCompare : string → string → Z) (data : Json) : string :=
  join (String "010" "") (standardSegments data ++ obxSegments localeCompare data).

(** An object literal [{ name: fields[i] || "", ... }]. *)
Definition objectOf (fields : list string) (shape : list (string * nat))
    : gmap string string :=
  list_to_map ((λ '(name, i), (name, nthOr fields i)) <$> shape).

(** The cases of the [switch], OBX apart. *)
Definition knownSegments : list (string * list (string * nat)) :=
  [ ("MSH",
     [ ("encodingCharacters", 0); ("sendingApplication", 1);
       ("sendingFacility", 2); ("receivingApplication", 3);
       ("receivingFacility", 4); ("dateTime", 5); ("messageType", 7);
       ("controlId", 8); ("processingId", 9); ("versionId", 10) ]);
    ("PID",
     [ ("setId", 0); ("patientId", 2); ("patientName", 4); ("dob", 6);
       ("gender", 7); ("address", 10); ("phoneNumber", 12);
       ("patientAccountNumber", 17) ]);
    ("PV1",
     [ ("setId", 0); ("patientClass", 1); ("attendingDoctor", 6);
       ("providerPhoneNumber", 18) ]);
    ("PR1",
     [ ("setId", 0); ("procedureCode", 2); ("procedureDescription", 3);
       ("procedureDate", 4); ("providerName", 10) ]);
    ("IN1",
     [ ("setId", 0); ("insurancePlan", 1); ("otherInsured", 2);
       ("insuranceId", 3); ("secondaryInsurancePlan", 4);
       ("insuredName", 15); ("insuredDob", 17); ("insuredAddress", 18);
       ("insuredPhoneNumber", 19) ]) ]%nat.

Definition obxShape : list (string * nat) :=
  [ ("setId", 0); ("valueType", 1); ("observationIdentifier", 2);
    ("observationValue", 4); ("observationStatus", 10) ]%nat.

(** The [default] case:
    [fields.reduce((acc, field, index) => { acc[`field${index}`] = field; ... }, {})]. *)
Definition genericObject (fields : list string) : gmap string string :=
  foldl (λ acc '(index, field), <[fieldName index := field]> acc) ∅ (indexed fields).

(** The key the [switch] stores under. *)
Definition segmentKeyOf (segmentType : string) (fields : list string) : string :=
  if bool_decide (segmentType = "OBX") then
    let setId := orElse (default "" (fields !! 0%nat)) "0" in
    "OBX" ++ (if bool_decide (setId = "0") then "" else setId)
  else segmentType.

(** The object the [switch] stores. *)
Definition segmentObjectOf (segmentType : string) (fields : list string)
    : gmap string string :=
  if bool_decide (segmentType = "OBX") then objectOf fields obxShape
  else match (list_to_map knownSegments : gmap string _) !! segmentType with
       | Some shape => objectOf fields shape
       | None => genericObject fields
       end.

(** The body of the loop over the lines.  The record is the own properties
    of [jsonOutput].  The test [!jsonOutput[segmentType]] also sees what
    the object inherits, but its outcome matters for the type OBX only,
    every other case assigning to [jsonOutput[segmentType]] right after;
    and OBX is no name of [Object.prototype] nor of an object the loop can
    have put in its place, whose names are all of the form [field<N>]. *)
Definition decodeLine (jsonOutput : gmap string (gmap string string))
    (line : string) : gmap string (gmap string string) :=
  match split "|" line with
  | segmentType :: fields =>
      let jsonOutput :=
        match jsonOutput !! segmentType with
        | Some _ => jsonOutput
        | None => assign segmentType ∅ jsonOutput
        end in
      assign (segmentKeyOf segmentType fields) (segmentObjectOf segmentType fields)
             jsonOutput
  | [] => jsonOutput
  end.

Definition wireLines (hl7 : string) : list string :=
  filter (λ line, truthy (trim line) = true) (split "010" hl7).

Definition convertHL7ToJson (hl7 : string) : gmap string (gmap string string) :=
  foldl decodeLine ∅ (wireLines hl7).

End CMSConverter.

(** ** The PDF page: local formatDate, field extractor, switch-driven decoder *)
Module CMS1500ToHL7Converter.
Import JS Common.

(** What the page's functions throw.  [extractDataFromPDF] catches what is
    thrown inside its [try] and throws a new [Error] that carries the
    message of the first; the constructors name the error thrown first. *)
Inductive Failure : Type :=
| TypeError
| NoValidData
| InsufficientData (missingRequiredFields : list string).

Inductive Outcome (A : Type) : Type :=
| Returned (a : A)
| Thrown (e : Failure).
Arguments Returned {A} a.
Arguments Thrown {A} e.

#[export] Instance outcome_bind : MBind Outcome := λ A B k m,
  match m with
  | Returned a => k a
  | Thrown e => Thrown e
  end.

(** The [formatDate] local to this page's [convertToHL7]:
    [const [month, day, year] = dateStr.split("/")], the template
    [`${year}${month.padStart(2, "0")}${day.padStart(2, "0")}`], which
    prints a missing year as [undefined] and throws on a missing day, and
    the default when the result is not eight digits. *)
Definition formatDate (dateStr : string) : Outcome string :=
  match split "/" dateStr with
  | month :: day :: rest =>
      let year := default "undefined" (head rest) in
      let formatted := year ++ padStart 2 "0" month ++ padStart 2 "0" day in
      Returned (if eightDigits formatted then formatted else "20250101")
  | _ => Thrown TypeError
  end.

(** [s.replace(/\s+/g, r)]: every run of white space becomes [r]. *)
Fixpoint replaceRuns (r : ascii) (inRun : bool) (l : list ascii) : list ascii :=
  match l with
  | [] => []
  | c :: rest =>
      if isWhiteSpace c then
        if inRun then replaceRuns r true rest else r :: replaceRuns r true rest
      else c :: replaceRuns r false rest
  end.

Definition replaceWhiteSpaceRuns (r : ascii) (s : string) : string :=
  ofChars (replaceRuns r false (chars s)).

Definition isLetter (c : ascii) : bool :=
  let n := nat_of_ascii c in
  ((65 <=? n) && (n <=? 90) || (97 <=? n) && (n <=? 122))%nat.

(** The class [[a-zA-Z0-9\s.,-/+]]; [,-/] is the range from the comma to
    the slash. *)
Definition isAllowed (c : ascii) : bool :=
  let n := nat_of_ascii c in
  (isLetter c || isDigit c || isWhiteSpace c || (n =? 46) ||
   (44 <=? n) && (n <=? 47) || (n =? 43))%nat.

(** [allText.replace(/\s+/g, " ").replace(/[^a-zA-Z0-9\s.,-/+]/g, " ").trim()] *)
Definition normalize (allText : string) : string :=
  trim (ofChars ((λ c, if isAllowed c then c else " "%char)
                   <$> chars (replaceWhiteSpaceRuns " " allText))).

Definition toLower (c : ascii) : ascii :=
  let n := nat_of_ascii c in
  if ((65 <=? n) && (n <=? 90))%nat then ascii_of_nat (n + 32) else c.

Fixpoint prefixIgnoreCase (p s : list ascii) : bool :=
  match p, s with
  | [], _ => true
  | a :: p', b :: s' => Ascii.eqb (toLower a) (toLower b) && prefixIgnoreCase p' s'
  | _ :: _, [] => false
  end.

Fixpoint containsIgnoreCase (p s : list ascii) : bool :=
  prefixIgnoreCase p s ||
  match s with
  | [] => false
  | _ :: s' => containsIgnoreCase p s'
  end.

(** [/(patient|insured|dob|service|provider)/i.test(text)] *)
Definition mentionsForm (text : string) : bool :=
  existsb (λ word, containsIgnoreCase (chars word) (chars text))
          ["patient"; "insured"; "dob"; "service"; "provider"].

Record FieldExtractor : Type := mkExtractor {
  key : string;
  required : bool;
  fallback : bool
}.

(** [fieldExtractors]: which fields are required and which have a fallback
    pattern; the patterns themselves are named by [Pattern]. *)
Definition fieldExtractors : list FieldExtractor :=
  [ mkExtractor "patientName" true true;
    mkExtractor "insuranceId" true true;
    mkExtractor "dob" false true;
    mkExtractor "providerName" false true;
    mkExtractor "serviceDate" true true;
    mkExtractor "patientAddress" false true;
    mkExtractor "diagnosis" true true;
    mkExtractor "diagnosisDescription" false false;
    mkExtractor "procedureCode" false true;
    mkExtractor "providerAddress" false true;
    mkExtractor "phoneNumber" false true;
    mkExtractor "insurancePlan" false true ].

(** The regular expression of a field: [regex] or [fallback]. *)
Inductive Pattern : Type :=
| Regex (key : string)
| FallbackRegex (key : string).

(** [parseInt(s, 10)]: leading white space, a sign, then the longest run of
    digits; [None] is NaN. *)
Fixpoint digitsValue (acc : Z) (seen : bool) (l : list ascii) : option Z :=
  match l with
  | c :: rest =>
      if isDigit c
      then digitsValue (10 * acc + Z.of_nat (nat_of_ascii c - 48)) true rest
      else if seen then Some acc else None
  | [] => if seen then Some acc else None
  end.

Definition parseInt (s : string) : option Z :=
  match dropWhiteSpace (chars s) with
  | "-"%char :: rest => Z.opp <$> digitsValue 0 false rest
  | "+"%char :: rest => digitsValue 0 false rest
  | l => digitsValue 0 false l
  end.

(** The state of the extraction loop. *)
Record Extraction : Type := mkExtraction {
  extractedData : gmap string string;
  missingRequiredFields : list string;
  requiredFieldsFound : nat
}.

Definition accept (st : Extraction) (fx : FieldExtractor) (v : string) : Extraction :=
  mkExtraction (<[key fx := v]> (extractedData st))
               (missingRequiredFields st)
               (if required fx then S (requiredFieldsFound st)
                else requiredFieldsFound st).

Section Extractor.

(** [text.match(pattern)]: the capture groups [match[1]], [match[2]], ...
    of the first match (a group that took no part reads as empty), or
    nothing.  The regular-expression engine is the platform's. *)
Variable regexMatch : Pattern → string → option (list string).

(** The month, day and year of a date match; the year may be missing. *)
Definition dateOf (groups : list string) : Outcome (string * string * option string) :=
  if truthy (default "" (groups !! 2%nat)) then
    Returned (default "" (groups !! 0%nat), default "" (groups !! 1%nat),
              groups !! 2%nat)
  else
    match split "/" (replaceWhiteSpaceRuns "/" (default "" (groups !! 0%nat))) with
    | p0 :: p1 :: rest => Returned (padStart 2 "0" p0, padStart 2 "0" p1, head rest)
    | _ => Thrown TypeError
    end.

(** The callback of [fieldExtractors.forEach]. *)
Definition extractField (text : string) (st : Extraction) (fx : FieldExtractor)
    : Outcome Extraction :=
  let found :=
    match regexMatch (Regex (key fx)) text with
    | Some groups => Some groups
    | None => if fallback fx then regexMatch (FallbackRegex (key fx)) text else None
    end in
  match found with
  | Some groups =>
      if bool_decide (key fx = "dob") || bool_decide (key fx = "serviceDate") then
        '(month, day, year) ← dateOf groups;
        match year ≫= parseInt with
        | Some parsedYear =>
            if ((1900 <=? parsedYear) && (parsedYear <=? 2025))%Z
            then Returned (accept st fx (month ++ "/" ++ day ++ "/" ++ default "" year))
            else Returned st
        | None => Returned st
        end
      else Returned (accept st fx (trim (default "" (groups !! 0%nat))))
  | None =>
      Returned (if required fx
                then mkExtraction (extractedData st)
                                  (missingRequiredFields st ++ [key fx])
                                  (requiredFieldsFound st)
                else st)
  end.

Fixpoint extractFields (text : string) (st : Extraction) (fxs : list FieldExtractor)
    : Outcome Extraction :=
  match fxs with
  | [] => Returned st
  | fx :: rest => st' ← extractField text st fx; extractFields text st' rest
  end.

(** [if (!extractedData.k) extractedData.k = v] *)
Definition orDefault (k v : string) (d : gmap string string) : gmap string string :=
  if truthy (default "" (d !! k)) then d else <[k := v]> d.

Definition withDefaults (d : gmap string string) : gmap string string :=
  orDefault "insurancePlan" "Unknown Plan"
  (orDefault "phoneNumber" "Unknown"
  (orDefault "providerAddress" "Unknown Provider Address"
  (orDefault "procedureCode" "00000"
  (orDefault "diagnosisDescription" "Illness, unspecified"
  (orDefault "patientAddress" "Unknown Address"
  (orDefault "providerName" "Unknown Provider"
  (orDefault "dob" "01/01/1900" d))))))).

(** [extractDataFromPDF], from the text of the pages on. *)
Definition extractDataFromPDF (allText : string) : Outcome (gmap string string) :=
  let normalizedText := normalize allText in
  if (String.length normalizedText <? 50)%nat || negb (mentionsForm normalizedText)
  then Thrown NoValidData
  else
    st ← extractFields normalizedText (mkExtraction ∅ [] 0) fieldExtractors;
    if (requiredFieldsFound st <? 4)%nat
    then Thrown (InsufficientData (missingRequiredFields st))
    else Returned (withDefaults (extractedData st)).

End Extractor.

(** The cases of this page's [switch]. *)
Definition knownSegments : list (string * list (string * nat)) :=
  [ ("MSH",
     [ ("encodingCharacters", 0); ("sendingApplication", 1);
       ("sendingFacility", 2); ("receivingApplication", 3);
       ("receivingFacility", 4); ("dateTime", 5); ("messageType", 7);
       ("controlId", 8); ("processingId", 9); ("versionId", 10) ]);
    ("PID",
     [ ("setId", 0); ("patientId", 2); ("patientName", 4); ("dob", 6);
       ("gender", 7); ("address", 10) ]);
    ("PV1",
     [ ("setId", 0); ("patientClass", 1); ("attendingDoctor", 7);
       ("providerAddress", 9) ]);
    ("DG1",
     [ ("setId", 0); ("diagnosisCode", 2); ("diagnosisDescription", 3);
       ("codingMethod", 4) ]);
    ("PR1",
     [ ("setId", 0); ("procedureCode", 2); ("procedureDescription", 3);
       ("procedureDate", 4); ("providerName", 10) ]);
    ("IN1",
     [ ("setId", 0); ("insurancePlan", 2); ("insuranceId", 3);
       ("insuredName", 15); ("insuredDob", 16); ("insuredAddress", 17) ]);
    ("OBX",
     [ ("setId", 0); ("valueType", 1); ("observationIdentifier", 2);
       ("observationValue", 4); ("observationStatus", 10) ]) ]%nat.

Definition segmentObjectOf (segmentType : string) (fields : list string)
    : gmap string string :=
  match (list_to_map knownSegments : gmap string _) !! segmentType with
  | Some shape => CMSConverter.objectOf fields shape
  | None => CMSConverter.genericObject fields
  end.

(** The callback of [lines.forEach]: the key is first bound to [{}], then
    to the object of the [switch].  The record is the own properties of
    [jsonOutput]; the callback reads nothing back from it. *)
Definition decodeLine (jsonOutput : gmap string (gmap string string))
    (line : string) : gmap string (gmap string string) :=
  match split "|" line with
  | segmentType :: fields =>
      assign segmentType (segmentObjectOf segmentType fields)
             (assign segmentType ∅ jsonOutput)
  | [] => jsonOutput
  end.

(** [convertHL7ToJson]: every line of [hl7.split("\n")], blank ones too. *)
Definition convertHL7ToJson (hl7 : string) : gmap string (gmap string string) :=
  foldl decodeLine ∅ (split "010" hl7).

(** [${data.k}] in a template: an absent field prints as [undefined]. *)
Definition printed (data : gmap string string) (k : string) : string :=
  default "undefined" (data !! k).

(** [formatDate(data.k)]: on an absent field [split] is read from
    [undefined]. *)
Definition dateField (data : gmap string string) (k : string) : Outcome string :=
  match data !! k with
  | Some dateStr => formatDate dateStr
  | None => Thrown TypeError
  end.

Definition isUpper (c : ascii) : bool :=
  let n := nat_of_ascii c in ((65 <=? n) && (n <=? 90))%nat.

(** [data.diagnosis.match(/^[A-Z]/) ? "ICD10" : "CPT4"] *)
Definition codingMethod (data : gmap string string) : Outcome string :=
  match data !! "diagnosis" with
  | Some (String c _) => Returned (if isUpper c then "ICD10" else "CPT4")
  | Some EmptyString => Returned "CPT4"
  | None => Thrown TypeError
  end.

(** The array [segments] of this page's [convertToHL7]: seven templates
    over the extracted record. *)
Definition segments (data : gmap string string)
    (serviceDate dob method : string) : list string :=
  [ "MSH|^~\&|CMS1500App|XYZ|HL7Receiver|XYZFacility|" ++ serviceDate
      ++ "||ORU^R01|" ++ printed data "insuranceId" ++ "|P|2.5.1";
    "PID|1||" ++ printed data "insuranceId" ++ "^^^MR||"
      ++ printed data "patientName" ++ "||" ++ dob ++ "|M|||"
      ++ printed data "patientAddress" ++ "^^^^"
      ++ printed data "phoneNumber" ++ "|||||||";
    "PV1|1|O||||||" ++ printed data "providerName" ++ "^^^^^^MD|||"
      ++ printed data "providerAddress" ++ "||||||||||||||||||||||||||||||";
    "DG1|1||" ++ printed data "diagnosis" ++ "^"
      ++ printed data "diagnosisDescription" ++ "^" ++ method
      ++ "|||||||||||||";
    "PR1|1||" ++ printed data "procedureCode" ++ "^ min^CPT4|||"
      ++ serviceDate ++ "||||||" ++ printed data "providerName"
      ++ "^^^^^^MD||||";
    "IN1|1||" ++ printed data "insurancePlan" ++ "|||"
      ++ printed data "insuranceId" ++ "||||||||||||||||||||"
      ++ printed data "patientName" ++ "|||" ++ dob ++ "|"
      ++ printed data "patientAddress" ++ "^^^^"
      ++ printed data "phoneNumber";
    "OBX|1|ST|ServiceDate||" ++ serviceDate ++ "||||||F|||||" ].

(** [convertToHL7] of this page: [segments.join("\n")]. *)
Definition convertToHL7 (data : gmap string string) : Outcome string :=
  serviceDate ← dateField data "serviceDate";
  dob ← dateField data "dob";
  method ← codingMethod data;
  Returned (join (String "010" "") (segments data serviceDate dob method)).

(** What [extractDataFromJson] throws before its [catch] wraps it. *)
Inductive FileFailure : Type :=
| MissingSegments
| MissingFields.

(** [s.slice(a, b)] for [0 <= a <= b]. *)
Definition slice (a b : nat) (s : string) : string := String.substring a (b - a) s.

(** [`${s.slice(4, 6)}/${s.slice(6, 8)}/${s.slice(0, 4)}`] *)
Definition slashDate (s : string) : string :=
  slice 4 6 s ++ "/" ++ slice 6 8 s ++ "/" ++ slice 0 4 s.

(** [o.k?.split("^")[i] || d] *)
Definition componentOr (o : gmap string string) (k : string) (i : nat)
    (d : string) : string :=
  orElse (default "" (o !! k ≫= λ s, split "^" s !! i)) d.

(** [extractDataFromJson], from the parsed file on; the file holds an
    object of objects of strings. *)
Definition extractDataFromJson (json : gmap string (gmap string string))
    : FileFailure + gmap string string :=
  match json !! "MSH", json !! "PID" with
  | Some _, Some PID =>
      let data : gmap string string :=
        <["phoneNumber" := componentOr PID "address" 4 "Unknown"]>
        (<["patientAddress" := componentOr PID "address" 0 "Unknown Address"]>
        (<["dob" := if truthy (getOr PID "dob") then slashDate (getOr PID "dob")
                    else "01/01/1900"]>
        (<["insuranceId" := componentOr PID "patientId" 0 "Unknown ID"]>
        (<["patientName" := orElse (getOr PID "patientName") "Unknown Patient"]>
         ∅)))) in
      let data :=
        match json !! "PV1" with
        | Some PV1 =>
            <["providerAddress" :=
                componentOr PV1 "providerAddress" 0 "Unknown Provider Address"]>
            (<["providerName" :=
                 componentOr PV1 "attendingDoctor" 0 "Unknown Provider"]> data)
        | None => data
        end in
      let data :=
        match json !! "DG1" with
        | Some DG1 =>
            <["diagnosisDescription" :=
                orElse (getOr DG1 "diagnosisDescription") "Illness, unspecified"]>
            (<["diagnosis" := orElse (getOr DG1 "diagnosisCode") "00000"]> data)
        | None => data
        end in
      let data :=
        match json !! "PR1" with
        | Some PR1 =>
            <["serviceDate" :=
                if truthy (getOr PR1 "procedureDate")
                then slashDate (getOr PR1 "procedureDate") else "01/01/2025"]>
            (<["procedureCode" := componentOr PR1 "procedureCode" 0 "00000"]> data)
        | None => data
        end in
      let data :=
        match json !! "IN1" with
        | Some IN1 =>
            <["insurancePlan" := orElse (getOr IN1 "insurancePlan") "Unknown Plan"]>
              data
        | None => data
        end in
      if negb (truthy (getOr data "insuranceId"))
         || negb (truthy (getOr data "patientName"))
         || negb (truthy (getOr data "diagnosis"))
         || negb (truthy (getOr data "serviceDate"))
      then inl MissingFields
      else inr data
  | _, _ => inl MissingSegments
  end.

End CMS1500ToHL7Converter.

(** ** src/fixed_converter.tsx: the text-form encoder *)
Module FixedConverter.
Import JS.

(** [data.sex?.charAt(0) || ""] *)
Definition firstCharOr (o : gmap string string) (k : string) : string :=
  match o !! k with
  | Some (String c _) => String c ""
  | _ => ""
  end.

(** [toHl7Format]; [now] is what [new Date().toISOString()] reads from the
    clock. *)
Definition toHl7Format (now : string) (data : gmap string string) : string :=
  join (String "010" "")
    [ "MSH|^~\&|CMS1500App|Hospital|HL7Receiver|HL7Facility|" ++ now
        ++ "||ADT^A01|MSG00001|P|2.5";
      "PID|||" ++ getOr data "insurance_id" ++ "||" ++ getOr data "pt_name"
        ++ "||" ++ getOr data "birth_yy" ++ getOr data "birth_mm"
        ++ getOr data "birth_dd" ++ "|" ++ firstCharOr data "sex" ++ "|||"
        ++ getOr data "pt_city" ++ "^" ++ getOr data "pt_state";
      "IN1|||" ++ getOr data "insurance_name" ++ "||" ++ getOr data "insurance_id";
      "PV1||O|Clinic||||" ++ getOr data "physician_signature" ++ "|||||||||||"
        ++ getOr data "physician_date" ].

(** The callback of [text.split("\n").forEach] in [parseCMS1500Text]:
    [const [key, value] = line.split(":")] binds the first two pieces, an
    absent one as [undefined]; the entry is stored when both are non-empty.
    The encoder reads none of the names an object literal inherits. *)
Definition parseLine (data : gmap string string) (line : string)
    : gmap string string :=
  match split ":" line with
  | key :: value :: _ =>
      if truthy key && truthy value then assign (trim key) (trim value) data
      else data
  | _ => data
  end.

Definition parseCMS1500Text (text : string) : gmap string string :=
  foldl parseLine ∅ (split "010" text).

(** What [handleConvertClick] stores as the message. *)
Definition handleConvertClick (now inputText : string) : string :=
  toHl7Format now (parseCMS1500Text inputText).

End FixedConverter.

(** ** Reading the claims: shapes and checks used in the statements *)
Module Spec.
Import JS Common.

(** The date shape in the words of the specification: one or two digits, a
    separator, one or two digits, a separator, four digits. *)
Definition DateShape (raw month day year : string) : Prop :=
  ∃ s1 s2 : ascii,
    isDateSep s1 = true ∧ isDateSep s2 = true ∧
    allDigits month = true ∧ (1 ≤ String.length month ≤ 2)%nat ∧
    allDigits day = true ∧ (1 ≤ String.length day ≤ 2)%nat ∧
    allDigits year = true ∧ String.length year = 4%nat ∧
    raw = month ++ String s1 (day ++ String s2 year).

(** No character of [s] is [c]. *)
Definition freeOf (c : ascii) (s : string) : bool :=
  forallb (λ x, negb (Ascii.eqb x c)) (chars s).

(** The set identifier of the instance stored under [a]. *)
Definition setIdOf (o : Json) (a : string) : string :=
  getOr (default ∅ (objGet o a)) "setId".

(** [a] comes before [b] in [l]. *)
Definition Before {A} (a b : A) (l : list A) : Prop :=
  ∃ l1 l2 l3, l = (l1 ++ a :: l2 ++ b :: l3)%list.

(** The segment types the switch of src/CMSConverter.tsx knows, with the
    shape of the object it builds. *)
Definition shapeOf (segmentType : string) : option (list (string * nat)) :=
  if bool_decide (segmentType = "OBX") then Some CMSConverter.obxShape
  else (list_to_map CMSConverter.knownSegments : gmap string _) !! segmentType.

(** The same for the switch of the PDF page. *)
Definition pdfShapeOf (segmentType : string) : option (list (string * nat)) :=
  (list_to_map CMS1500ToHL7Converter.knownSegments : gmap string _) !! segmentType.

(** Type token, fields and stored key of a wire line. *)
Definition lineType (line : string) : string :=
  default "" (head (split "|" line)).

Definition lineFields (line : string) : list string :=
  tail (split "|" line).

Definition lineKey (line : string) : string :=
  CMSConverter.segmentKeyOf (lineType line) (lineFields line).

(** The object whose names are those of [shape], all bound to the empty
    string. *)
Definition allEmpty (shape : list (string * nat)) : gmap string string :=
  list_to_map ((λ '(name, _), (name, "")) <$> shape).

(** Neither the pattern of the field nor its fallback matches the text. *)
Definition unmatched (regexMatch : CMS1500ToHL7Converter.Pattern → string → option (list string))
    (text : string) (fx : CMS1500ToHL7Converter.FieldExtractor) : bool :=
  match regexMatch (CMS1500ToHL7Converter.Regex (CMS1500ToHL7Converter.key fx)) text with
  | Some _ => false
  | None =>
      if CMS1500ToHL7Converter.fallback fx then
        match regexMatch (CMS1500ToHL7Converter.FallbackRegex (CMS1500ToHL7Converter.key fx)) text with
        | Some _ => false
        | None => true
        end
      else true
  end.

(** A mapping table of one segment type is well formed when its canonical
    names are pairwise distinct and none of them looks like a generic name
    or is the name of the prototype accessor. *)
Definition wellFormedMappings (mappings : gmap string string) : bool :=
  bool_decide (NoDup (map_to_list mappings).*2)
  && forallb (λ '(_, name), negb (startsWith "field" name)
                            && negb (bool_decide (name = "__proto__")))
             (map_to_list mappings).

(** The segment key of a wire line in the table-driven decoder. *)
Definition dynLineKey (line : string) : string :=
  DynamicConverter.segmentKeyOf (lineType line) (lineFields line).

(** The field map the table-driven decoder builds for a wire line. *)
Definition dynLineData (table : gmap string (gmap string string)) (line : string)
    : gmap string string :=
  DynamicConverter.segmentDataOf (default ∅ (table !! lineType line))
                                 (lineFields line).

(** The value the encoder of the converter page writes for a field
    definition: the field of the segment, or the empty string, through the
    transform when there is one. *)
Definition encodedValue (segmentData : gmap string string)
    (f : DynamicConverter.FieldDef) : string :=
  match DynamicConverter.transform f with
  | Some t => t (getOr segmentData (DynamicConverter.field f))
  | None => getOr segmentData (DynamicConverter.field f)
  end.

(** Every value of the dictionary is free of the character. *)
Definition valuesFreeOf (c : ascii) (o : gmap string string) : bool :=
  forallb (λ '(_, v), freeOf c v) (map_to_list o).

(** No value of the record holds a field separator or a line break. *)
Definition recordSafe (data : Json) : bool :=
  forallb (λ '(_, m), valuesFreeOf "|" m && valuesFreeOf "010" m) data.

(** [rec[k][name]], an absent segment or field read as the empty string. *)
Definition fieldOf (rec : gmap string (gmap string string)) (k name : string)
    : string :=
  default "" (rec !! k ≫= (.!! name)).

(** What the extraction loop takes for the match of a field: that of its
    pattern, else that of its fallback when it has one. *)
Definition matchOf (regexMatch : CMS1500ToHL7Converter.Pattern → string → option (list string))
    (text : string) (fx : CMS1500ToHL7Converter.FieldExtractor)
    : option (list string) :=
  match regexMatch (CMS1500ToHL7Converter.Regex (CMS1500ToHL7Converter.key fx)) text with
  | Some groups => Some groups
  | None =>
      if CMS1500ToHL7Converter.fallback fx
      then regexMatch (CMS1500ToHL7Converter.FallbackRegex (CMS1500ToHL7Converter.key fx)) text
      else None
  end.





(** The text passes the check at the head of [extractDataFromPDF]. *)
Definition looksLikeForm (normalizedText : string) : bool :=
  negb ((String.length normalizedText <? 50)%nat
        || negb (CMS1500ToHL7Converter.mentionsForm normalizedText)).

(** No character of [s] is white space. *)
Definition whiteSpaceFree (s : string) : bool :=
  forallb (λ c, negb (isWhiteSpace c)) (chars s).

(** The seven lines of the PDF page's encoder, each as the list of its
    pieces between field separators. *)
Definition segmentPieces (data : gmap string string)
    (serviceDate dob method : string) : list (list string) :=
  let printed := CMS1500ToHL7Converter.printed in
  [ [ "MSH"; "^~\&"; "CMS1500App"; "XYZ"; "HL7Receiver"; "XYZFacility";
      serviceDate; ""; "ORU^R01"; printed data "insuranceId"; "P"; "2.5.1" ];
    [ "PID"; "1"; ""; printed data "insuranceId" ++ "^^^MR"; "";
      printed data "patientName"; ""; dob; "M"; ""; "";
      printed data "patientAddress" ++ "^^^^" ++ printed data "phoneNumber";
      ""; ""; ""; ""; ""; ""; "" ];
    [ "PV1"; "1"; "O"; ""; ""; ""; ""; "";
      printed data "providerName" ++ "^^^^^^MD"; ""; "";
      printed data "providerAddress"; ""; ""; ""; ""; ""; ""; ""; ""; "";
      ""; ""; ""; ""; ""; ""; ""; ""; ""; ""; ""; ""; ""; ""; ""; ""; "";
      ""; ""; ""; "" ];
    [ "DG1"; "1"; "";
      printed data "diagnosis" ++ "^" ++ printed data "diagnosisDescription"
        ++ "^" ++ method;
      ""; ""; ""; ""; ""; ""; ""; ""; ""; ""; ""; ""; "" ];
    [ "PR1"; "1"; ""; printed data "procedureCode" ++ "^ min^CPT4"; ""; "";
      serviceDate; ""; ""; ""; ""; "";
      printed data "providerName" ++ "^^^^^^MD"; ""; ""; ""; "" ];
    [ "IN1"; "1"; ""; printed data "insurancePlan"; ""; "";
      printed data "insuranceId"; ""; ""; ""; ""; ""; ""; ""; ""; ""; "";
      ""; ""; ""; ""; ""; ""; ""; ""; ""; printed data "patientName"; "";
      ""; dob;
      printed data "patientAddress" ++ "^^^^" ++ printed data "phoneNumber" ];
    [ "OBX"; "1"; "ST"; "ServiceDate"; ""; serviceDate; ""; ""; ""; ""; "";
      "F"; ""; ""; ""; ""; "" ] ].

(** The fields the encoders pass through [formatDate]. *)
Definition isDateField (name : string) : bool :=
  bool_decide (name ∈ ["dateTime"; "dob"; "procedureDate"; "insuredDob"]).

(** The decoder's table for observations. *)
Definition obxMappings : gmap string string :=
  default ∅ (DynamicConverter.segmentFieldMappings !! "OBX").

(** The keys the decoder stores the eleven fields of an observation line
    under, by position. *)
Definition obxKeyNames : list string :=
  [ "setId"; "valueType"; "observationIdentifier"; "field4";
    "observationValue"; "field6"; "field7"; "field8"; "field9"; "field10";
    "observationStatus" ].

(** The canonical field names of an observation. *)
Definition obxNames : list string :=
  [ "setId"; "valueType"; "observationIdentifier"; "observationValue";
    "observationStatus" ].

(** Every populated field of the dictionary is one of [names]. *)
Definition coveredBy (names : list string) (m : gmap string string) : bool :=
  forallb (λ '(name, value), negb (truthy value) || bool_decide (name ∈ names))
          (map_to_list m).

(** Every entry of the record whose key starts with OBX is keyed by OBX
    followed by its own set identifier. *)
Definition obxKeyed (data : Json) : bool :=
  forallb (λ '(k, m), negb (startsWith "OBX" k)
                      || bool_decide (k = "OBX" ++ getOr m "setId")) data.

End Spec.

(** ** Concrete inputs the statements are run on *)
Module Examples.
Import JS Common.

(** Two observations, set identifiers 2 and 10, in that order. *)
Definition twoObservations : Json :=
  [ ("OBX2", {[ "setId" := "2" ]}); ("OBX10", {[ "setId" := "10" ]}) ].

(** The schema of the decoding example: position 1 of MSH is the sending
    application, position 1 of PID the patient identifier. *)
Definition exampleSchema : gmap string (gmap string string) :=
  list_to_map [ ("MSH", {[ "field1" := "sendingApp" ]});
                ("PID", {[ "field1" := "patientId" ]}) ].

(** The wire text of the decoding example, two lines. *)
Definition exampleWire : string := "MSH|a|b" ++ String "010" "PID|x".

(** A message whose observation line is followed by a patient line. *)
Definition observationThenPatient : string :=
  "OBX|1|ST" ++ String "010" "PID|7".

(** The text of a form whose service date is in 2026: a name after
    [2.], an identifier after [1a.], the date, a diagnosis code. *)
Definition quorumText : string :=
  "2. Smith 1a. ABCDEFG 05/16/2026 J45 patient claim form copy".

(** What the patterns of [fieldExtractors] match on [quorumText]: the name
    pattern at [2. Smith], the identifier pattern at [1a. ABCDEFG], the
    service-date pattern at the date and the diagnosis pattern at [J45];
    no other pattern and no fallback matches. *)
Definition quorumMatches (p : CMS1500ToHL7Converter.Pattern) (text : string)
    : option (list string) :=
  if bool_decide (text = quorumText) then
    match p with
    | CMS1500ToHL7Converter.Regex key =>
        if bool_decide (key = "patientName") then Some ["Smith"]
        else if bool_decide (key = "insuranceId") then Some ["ABCDEFG"]
        else if bool_decide (key = "serviceDate") then Some ["05"; "16"; "2026"]
        else if bool_decide (key = "diagnosis") then Some ["J45"]
        else None
    | CMS1500ToHL7Converter.FallbackRegex _ => None
    end
  else None.

(** The text of a form with a name, an identifier, a service date in 2025
    and a diagnosis code. *)
Definition acceptedText : string :=
  "2. Smith 1a. ABCDEFG 05/16/2025 J45 patient claim form copy".

(** What the patterns of [fieldExtractors] match on [acceptedText]: the
    four required fields, nothing else. *)
Definition acceptedMatches (p : CMS1500ToHL7Converter.Pattern) (text : string)
    : option (list string) :=
  if bool_decide (text = acceptedText) then
    match p with
    | CMS1500ToHL7Converter.Regex key =>
        if bool_decide (key = "patientName") then Some ["Smith"]
        else if bool_decide (key = "insuranceId") then Some ["ABCDEFG"]
        else if bool_decide (key = "serviceDate") then Some ["05"; "16"; "2025"]
        else if bool_decide (key = "diagnosis") then Some ["J45"]
        else None
    | CMS1500ToHL7Converter.FallbackRegex _ => None
    end
  else None.

(** The record extracted from [acceptedText]. *)
Definition acceptedRecord : gmap string string :=
  {[ "patientName" := "Smith"; "insuranceId" := "ABCDEFG";
     "serviceDate" := "05/16/2025"; "diagnosis" := "J45";
     "dob" := "01/01/1900"; "providerName" := "Unknown Provider";
     "patientAddress" := "Unknown Address";
     "diagnosisDescription" := "Illness, unspecified";
     "procedureCode" := "00000";
     "providerAddress" := "Unknown Provider Address";
     "phoneNumber" := "Unknown"; "insurancePlan" := "Unknown Plan" ]}.

(** The text of a form whose date of birth is written without separators
    and without a label. *)
Definition unseparatedText : string :=
  "2. Smith 1a. ABCDEFG 05161990 J45 patient claim form copy".

(** What the patterns of the first three fields match on
    [unseparatedText]: the name, the identifier, and for the date of birth
    the fallback only, whose second group is the year and which has no
    third group. *)
Definition unseparatedMatches (p : CMS1500ToHL7Converter.Pattern) (text : string)
    : option (list string) :=
  if bool_decide (text = unseparatedText) then
    match p with
    | CMS1500ToHL7Converter.Regex key =>
        if bool_decide (key = "patientName") then Some ["Smith"]
        else if bool_decide (key = "insuranceId") then Some ["ABCDEFG"]
        else None
    | CMS1500ToHL7Converter.FallbackRegex key =>
        if bool_decide (key = "dob") then Some ["05161990"; "1990"] else None
    end
  else None.

(** The message the encoder of the PDF page builds from
    [acceptedRecord]. *)
Definition acceptedMessage : string :=
  Eval vm_compute in
    match CMS1500ToHL7Converter.convertToHL7 acceptedRecord with
    | CMS1500ToHL7Converter.Returned hl7 => hl7
    | CMS1500ToHL7Converter.Thrown _ => ""
    end.

(** A parsed file with the four segments the extraction needs, all
    empty, and the record extracted from it. *)
Definition minimalFile : gmap string (gmap string string) :=
  {[ "MSH" := ∅; "PID" := ∅; "DG1" := ∅; "PR1" := ∅ ]}.

Definition minimalRecord : gmap string string :=
  {[ "patientName" := "Unknown Patient"; "insuranceId" := "Unknown ID";
     "dob" := "01/01/1900"; "patientAddress" := "Unknown Address";
     "phoneNumber" := "Unknown"; "diagnosis" := "00000";
     "diagnosisDescription" := "Illness, unspecified";
     "procedureCode" := "00000"; "serviceDate" := "01/01/2025" ]}.

(** A parsed file whose date of birth is written with dashes. *)
Definition dashedFile : gmap string (gmap string string) :=
  {[ "MSH" := ∅; "PID" := {[ "dob" := "1990-05-16" ]}; "DG1" := ∅; "PR1" := ∅ ]}.


(** A record with a header and a patient segment. *)
Definition headedRecord : Json :=
  [ ("MSH", {[ "encodingCharacters" := "^~\&"; "sendingApplication" := "App";
               "versionId" := "2.5" ]});
    ("PID", {[ "patientName" := "Smith"; "dob" := "5/16/1990" ]}) ].

(** A record with a patient segment and two observations. *)
Definition patientWithObservations : Json :=
  [ ("PID", {[ "setId" := "1"; "dob" := "5/16/1990" ]});
    ("OBX2", {[ "setId" := "2"; "valueType" := "ST";
                "observationValue" := "7.1"; "observationStatus" := "F" ]});
    ("OBX1", {[ "setId" := "1"; "valueType" := "NM" ]}) ].

End Examples.

(** * Properties *)

(** ** Strings *)
Section StringFacts.
Import JS Spec.

Lemma str_app_cons (c : ascii) (a b : string) : String c a ++ b = String c (a ++ b).
Proof. reflexivity. Qed.

Lemma str_app_nil_l (b : string) : "" ++ b = b.
Proof. reflexivity. Qed.

Lemma str_app_nil_r (s : string) : s ++ "" = s.
Proof. induction s as [|c s IH]; [done|]. by rewrite str_app_cons, IH. Qed.

Lemma str_app_assoc (a b c : string) : (a ++ b) ++ c = a ++ (b ++ c).
Proof. induction a as [|x a IH]; [done|]. by rewrite !str_app_cons, IH. Qed.

Lemma str_length_app (a b : string) :
  String.length (a ++ b) = (String.length a + String.length b)%nat.
Proof. induction a as [|x a IH]; [done|]. rewrite str_app_cons. simpl. by rewrite IH. Qed.

Lemma chars_cons (c : ascii) (s : string) : chars (String c s) = c :: chars s.
Proof. reflexivity. Qed.

Lemma chars_app (a b : string) : chars (a ++ b) = (chars a ++ chars b)%list.
Proof.
  induction a as [|x a IH]; [done|].
  by rewrite str_app_cons, !chars_cons, IH.
Qed.

Lemma length_chars (s : string) : length (chars s) = String.length s.
Proof. induction s as [|c s IH]; [done|]. rewrite chars_cons. simpl. by rewrite IH. Qed.

Lemma allDigits_app (a b : string) :
  allDigits (a ++ b) = allDigits a && allDigits b.
Proof. unfold allDigits. by rewrite chars_app, forallb_app. Qed.

Lemma str_app_inv_r (a b c : string) : a ++ c = b ++ c → a = b.
Proof.
  revert b. induction a as [|x a IH]; intros [|y b] H.
  - done.
  - apply (f_equal String.length) in H. rewrite !str_length_app in H. simpl in H. lia.
  - apply (f_equal String.length) in H. rewrite !str_length_app in H. simpl in H. lia.
  - rewrite !str_app_cons in H. injection H as -> H. f_equal. by apply IH.
Qed.

Lemma truthy_true (s : string) : truthy s = true ↔ s ≠ "".
Proof. destruct s; simpl; split; congruence. Qed.

Lemma orElse_empty (s : string) : orElse s "" = s.
Proof. by destruct s. Qed.

Lemma getOr_lookup (o : gmap string string) (k : string) :
  getOr o k = default "" (o !! k).
Proof. unfold getOr. apply orElse_empty. Qed.

Lemma freeOf_cons (sep c : ascii) (s : string) :
  freeOf sep (String c s) = negb (Ascii.eqb c sep) && freeOf sep s.
Proof. reflexivity. Qed.

Lemma freeOf_app (sep : ascii) (a b : string) :
  freeOf sep (a ++ b) = freeOf sep a && freeOf sep b.
Proof. unfold freeOf. by rewrite chars_app, forallb_app. Qed.

Lemma split_cons_sep (sep : ascii) (s : string) :
  split sep (String sep s) = "" :: split sep s.
Proof. simpl. by rewrite Ascii.eqb_refl. Qed.

Lemma split_not_nil (sep : ascii) (s : string) : split sep s ≠ [].
Proof.
  induction s as [|c s IH]; simpl; [done|].
  destruct (Ascii.eqb c sep); [done|]. by destruct (split sep s).
Qed.

(** Splitting what precedes the first separator off. *)
Lemma split_app_sep (sep : ascii) (a b : string) :
  freeOf sep a = true →
  split sep (a ++ String sep b) = a :: split sep b.
Proof.
  induction a as [|c a IH]; intros H.
  - rewrite str_app_nil_l. apply split_cons_sep.
  - rewrite freeOf_cons in H. apply andb_prop in H as [Hc Ha].
    rewrite str_app_cons. simpl. apply negb_true_iff in Hc. rewrite Hc.
    by rewrite IH.
Qed.

Lemma split_free (sep : ascii) (a : string) :
  freeOf sep a = true → split sep a = [a].
Proof.
  induction a as [|c a IH]; intros H; [done|].
  rewrite freeOf_cons in H. apply andb_prop in H as [Hc Ha].
  simpl. apply negb_true_iff in Hc. by rewrite Hc, IH.
Qed.

(** [split] undoes [join] when no element holds the separator. *)
Lemma split_join (sep : ascii) (l : list string) :
  l ≠ [] → forallb (freeOf sep) l = true →
  split sep (join (String sep "") l) = l.
Proof.
  induction l as [|x l IH]; [done|]. intros _ H.
  simpl in H. apply andb_prop in H as [Hx Hl].
  destruct l as [|y l]; [by apply split_free|].
  change (join (String sep "") (x :: y :: l))
    with (x ++ String sep "" ++ join (String sep "") (y :: l)).
  rewrite str_app_cons, str_app_nil_l, split_app_sep by done.
  by rewrite IH.
Qed.

Lemma freeOf_join (c : ascii) (sep : string) (l : list string) :
  freeOf c sep = true → forallb (freeOf c) l = true →
  freeOf c (join sep l) = true.
Proof.
  intros Hs. induction l as [|x l IH]; [done|]. intros H.
  simpl in H. apply andb_prop in H as [Hx Hl].
  destruct l as [|y l]; [done|].
  change (join sep (x :: y :: l)) with (x ++ sep ++ join sep (y :: l)).
  by rewrite !freeOf_app, Hx, Hs, IH.
Qed.

End StringFacts.

(** ** The date normalizer *)
Section DateFacts.
Import JS Common Spec.

Lemma isDateSep_not_digit (c : ascii) : isDateSep c = true → isDigit c = false.
Proof.
  unfold isDateSep. intros [H|H]%orb_prop; apply Ascii.eqb_eq in H; by subst.
Qed.

Lemma eightDigits_truthy (s : string) : eightDigits s = true → truthy s = true.
Proof. by destruct s. Qed.

Lemma formatDate_eightDigits (s : string) :
  eightDigits s = true → formatDate s = s.
Proof.
  intros H. unfold formatDate. by rewrite H, (eightDigits_truthy _ H).
Qed.

(** What [digits12] returns: one or two digits and the rest. *)
Lemma digits12_Some (s g r : string) :
  digits12 s = Some (g, r) →
  s = g ++ r ∧ allDigits g = true ∧ (1 ≤ String.length g ≤ 2)%nat.
Proof.
  unfold digits12. destruct s as [|a [|b rest]]; [done| |].
  - destruct (isDigit a) eqn:Ha; [|done]. intros [= <- <-].
    unfold allDigits. simpl. rewrite Ha. auto with lia.
  - destruct (isDigit a) eqn:Ha; [|done].
    destruct (isDigit b) eqn:Hb; intros [= <- <-];
      unfold allDigits; simpl; rewrite Ha, ?Hb; auto with lia.
Qed.

Lemma dateSep_Some (s r : string) :
  dateSep s = Some r → ∃ c, isDateSep c = true ∧ s = String c r.
Proof.
  destruct s as [|c s]; [done|]. simpl.
  destruct (isDateSep c) eqn:Hc; [|done]. intros [= <-]. eauto.
Qed.

(** The matcher accepts only the shape of the specification. *)
Lemma matchDate_sound (s month day year : string) :
  matchDate s = Some (month, day, year) → DateShape s month day year.
Proof.
  unfold matchDate. intros H.
  destruct (digits12 s) as [[m r1]|] eqn:H1; [|done]. simpl in H.
  destruct (dateSep r1) as [r2|] eqn:H2; [|done]. simpl in H.
  destruct (digits12 r2) as [[d r3]|] eqn:H3; [|done]. simpl in H.
  destruct (dateSep r3) as [y|] eqn:H4; [|done]. simpl in H.
  destruct ((String.length y =? 4)%nat && allDigits y) eqn:H5; [|done].
  injection H as <- <- <-.
  apply andb_prop in H5 as [Hl Hy]. apply Nat.eqb_eq in Hl.
  apply digits12_Some in H1 as (-> & Dm & Lm).
  apply digits12_Some in H3 as (-> & Dd & Ld).
  apply dateSep_Some in H2 as (c1 & S1 & ->).
  apply dateSep_Some in H4 as (c2 & S2 & ->).
  exists c1, c2. repeat split; done || lia.
Qed.

Lemma digits12_before_sep (g : string) (c : ascii) (r : string) :
  allDigits g = true → (1 ≤ String.length g ≤ 2)%nat → isDateSep c = true →
  digits12 (g ++ String c r) = Some (g, String c r).
Proof.
  intros Hg Hl Hc. apply isDateSep_not_digit in Hc.
  destruct g as [|a [|b [|? ?]]]; simpl in Hl; try lia.
  - unfold allDigits in Hg. simpl in Hg. apply andb_prop in Hg as [Ha _].
    rewrite str_app_cons, str_app_nil_l. simpl. by rewrite Ha, Hc.
  - unfold allDigits in Hg. simpl in Hg.
    apply andb_prop in Hg as [Ha [Hb _]%andb_prop].
    rewrite !str_app_cons, str_app_nil_l. simpl. by rewrite Ha, Hb.
Qed.

(** The matcher accepts every string of that shape, with these groups. *)
Lemma matchDate_complete (s month day year : string) :
  DateShape s month day year → matchDate s = Some (month, day, year).
Proof.
  intros (c1 & c2 & H1 & H2 & Hm & Lm & Hd & Ld & Hy & Ly & ->).
  unfold matchDate. rewrite digits12_before_sep by done. simpl.
  rewrite H1. simpl. rewrite digits12_before_sep by done. simpl.
  rewrite H2. simpl. by rewrite Ly, Hy.
Qed.

Lemma DateShape_not_eightDigits (s month day year : string) :
  DateShape s month day year → eightDigits s = false.
Proof.
  intros (c1 & c2 & H1 & H2 & Hm & Lm & Hd & Ld & Hy & Ly & ->).
  unfold eightDigits. apply andb_false_iff. right.
  unfold allDigits. rewrite chars_app, forallb_app, chars_cons. simpl.
  rewrite (isDateSep_not_digit _ H1). simpl. apply andb_false_r.
Qed.

Lemma padStart_digits (g : string) :
  allDigits g = true → (1 ≤ String.length g ≤ 2)%nat →
  allDigits (padStart 2 "0" g) = true ∧ String.length (padStart 2 "0" g) = 2%nat.
Proof.
  intros Hg Hl. destruct g as [|a [|b [|? ?]]]; simpl in Hl; try lia.
  - unfold padStart. simpl. rewrite str_app_cons, str_app_nil_l. split; [|done].
    unfold allDigits in *. simpl in *. done.
  - unfold padStart. simpl. by rewrite str_app_nil_l.
Qed.

(** Whatever [formatDate] returns is empty or an 8-digit token. *)
Lemma formatDate_range (s : string) :
  formatDate s = "" ∨ eightDigits (formatDate s) = true.
Proof.
  unfold formatDate.
  destruct (truthy s && eightDigits s) eqn:H8.
  { right. by apply andb_prop in H8 as [_ ?]. }
  destruct (truthy s); [|by left].
  destruct (matchDate s) as [[[m d] y]|] eqn:Hm; [|by left].
  right. apply matchDate_sound in Hm
    as (c1 & c2 & _ & _ & Hm & Lm & Hd & Ld & Hy & Ly & _).
  destruct (padStart_digits m Hm Lm) as [Pm Qm].
  destruct (padStart_digits d Hd Ld) as [Pd Qd].
  unfold eightDigits. rewrite !str_length_app, !allDigits_app, Ly, Qm, Qd, Hy, Pm, Pd.
  done.
Qed.

(** C7. Date normalization is idempotent: normalizing a normalized value
    gives it back, for every input string. *)
Theorem formatDate_idempotent (x : string) :
  formatDate (formatDate x) = formatDate x.
Proof.
  destruct (formatDate_range x) as [-> | H]; [done|].
  by apply formatDate_eightDigits.
Qed.

(** The PDF page's local [formatDate] throws when there is no slash. *)
Lemma pdf_formatDate_no_slash (raw : string) :
  freeOf "/" raw = true →
  CMS1500ToHL7Converter.formatDate raw = CMS1500ToHL7Converter.Thrown CMS1500ToHL7Converter.TypeError.
Proof.
  intros H. unfold CMS1500ToHL7Converter.formatDate. by rewrite split_free.
Qed.

Lemma undefined_not_eightDigits (s : string) :
  eightDigits ("undefined" ++ s) = false.
Proof.
  unfold eightDigits. apply andb_false_iff. right.
  by rewrite allDigits_app.
Qed.

(** With one slash there is no year: the text [undefined] is printed for
    it, and the fixed date is returned. *)
Lemma pdf_formatDate_one_slash (month day : string) :
  freeOf "/" month = true → freeOf "/" day = true →
  CMS1500ToHL7Converter.formatDate (month ++ "/" ++ day)
  = CMS1500ToHL7Converter.Returned "20250101".
Proof.
  intros Hm Hd. unfold CMS1500ToHL7Converter.formatDate.
  change (month ++ "/" ++ day) with (month ++ String "/" day).
  rewrite split_app_sep, split_free by done. cbv zeta. cbn [head default].
  by rewrite undefined_not_eightDigits.
Qed.

(** With two slashes or more it reassembles the first three parts, and
    falls back to a fixed date when the result is not an 8-digit token;
    what follows a third slash is dropped. *)
Lemma pdf_formatDate_parts (month day year tail : string) :
  freeOf "/" month = true → freeOf "/" day = true → freeOf "/" year = true →
  tail = "" ∨ (∃ more, tail = "/" ++ more) →
  CMS1500ToHL7Converter.formatDate (month ++ "/" ++ day ++ "/" ++ year ++ tail)
  = CMS1500ToHL7Converter.Returned
      (if eightDigits (year ++ padStart 2 "0" month ++ padStart 2 "0" day)
       then year ++ padStart 2 "0" month ++ padStart 2 "0" day
       else "20250101").
Proof.
  intros Hm Hd Hy Ht. unfold CMS1500ToHL7Converter.formatDate.
  change (month ++ "/" ++ day ++ "/" ++ year ++ tail)
    with (month ++ String "/" (day ++ String "/" (year ++ tail))).
  rewrite !split_app_sep by done.
  destruct Ht as [-> | [more ->]].
  - by rewrite str_app_nil_r, split_free.
  - change ("/" ++ more) with (String "/" more). by rewrite split_app_sep.
Qed.

(** Every string falls under one of the three cases. *)
Lemma slash_cases (s : string) :
  freeOf "/" s = true ∨
  (∃ month day, freeOf "/" month = true ∧ freeOf "/" day = true ∧
                s = month ++ "/" ++ day) ∨
  (∃ month day year tail,
     freeOf "/" month = true ∧ freeOf "/" day = true ∧ freeOf "/" year = true ∧
     (tail = "" ∨ ∃ more, tail = "/" ++ more) ∧
     s = month ++ "/" ++ day ++ "/" ++ year ++ tail).
Proof.
  assert (Hcut : ∀ t, freeOf "/" t = true ∨
            ∃ a rest, freeOf "/" a = true ∧ t = a ++ String "/" rest).
  { induction t as [|x t IH]; [by left|].
    rewrite freeOf_cons. destruct (Ascii.eqb x "/") eqn:E.
    - apply Ascii.eqb_eq in E as ->. right. by exists "", t.
    - destruct IH as [-> | (a & rest & Ha & ->)]; [by left|].
      right. exists (String x a), rest. by rewrite freeOf_cons, E, Ha. }
  destruct (Hcut s) as [H | (month & r1 & Hm & ->)]; [by left|]. right.
  destruct (Hcut r1) as [H | (day & r2 & Hd & ->)]; [left; by exists month, r1|].
  right. exists month, day.
  destruct (Hcut r2) as [H | (year & r3 & Hy & ->)].
  - exists r2, "". rewrite str_app_nil_r. repeat split; auto.
  - exists year, (String "/" r3). repeat split; eauto.
Qed.

(** C6, as the code has it.  The codec's [formatDate] returns an 8-digit
    token unchanged, turns month/day/year with separators among - and /
    into the zero-padded year-month-day token, and returns the empty string
    on every other input; it is total.  The [formatDate] local to the
    encoder of the PDF page is another function, which cuts its input at
    the slashes: it throws a [TypeError] when there is no slash; it returns
    20250101 when there is one slash; with two slashes or more it takes the
    first three parts as month, day and year, whatever their shape, and
    returns year, padded month and padded day when that is an 8-digit
    token, and 20250101 otherwise.  Every string falls under one of the
    three cases, and the empty string is never returned. *)
Theorem formatDate_shapes :
  (∀ raw, eightDigits raw = true → formatDate raw = raw) ∧
  (∀ raw month day year, DateShape raw month day year →
     formatDate raw = year ++ padStart 2 "0" month ++ padStart 2 "0" day) ∧
  (∀ raw, eightDigits raw = false →
     (∀ month day year, ¬ DateShape raw month day year) →
     formatDate raw = "") ∧
  (∀ raw, freeOf "/" raw = true →
     CMS1500ToHL7Converter.formatDate raw
     = CMS1500ToHL7Converter.Thrown CMS1500ToHL7Converter.TypeError) ∧
  (∀ month day, freeOf "/" month = true → freeOf "/" day = true →
     CMS1500ToHL7Converter.formatDate (month ++ "/" ++ day)
     = CMS1500ToHL7Converter.Returned "20250101") ∧
  (∀ month day year tail,
     freeOf "/" month = true → freeOf "/" day = true → freeOf "/" year = true →
     tail = "" ∨ (∃ more, tail = "/" ++ more) →
     CMS1500ToHL7Converter.formatDate (month ++ "/" ++ day ++ "/" ++ year ++ tail)
     = CMS1500ToHL7Converter.Returned
         (if eightDigits (year ++ padStart 2 "0" month ++ padStart 2 "0" day)
          then year ++ padStart 2 "0" month ++ padStart 2 "0" day
          else "20250101")) ∧
  (∀ raw,
     freeOf "/" raw = true ∨
     (∃ month day, freeOf "/" month = true ∧ freeOf "/" day = true ∧
                   raw = month ++ "/" ++ day) ∨
     (∃ month day year tail,
        freeOf "/" month = true ∧ freeOf "/" day = true ∧
        freeOf "/" year = true ∧ (tail = "" ∨ ∃ more, tail = "/" ++ more) ∧
        raw = month ++ "/" ++ day ++ "/" ++ year ++ tail)) ∧
  (∀ raw, CMS1500ToHL7Converter.formatDate raw
          ≠ CMS1500ToHL7Converter.Returned "").
Proof.
  split; [exact formatDate_eightDigits|].
  split; [|split; [|split; [|split; [|split; [|split]]]]].
  - intros raw m d y H. unfold formatDate.
    rewrite (DateShape_not_eightDigits _ _ _ _ H), andb_false_r.
    rewrite (matchDate_complete _ _ _ _ H).
    destruct raw; [|done].
    destruct H as (c1 & c2 & _ & _ & _ & L & _ & _ & _ & _ & E).
    destruct m; [simpl in L; lia|done].
  - intros raw H8 Hno. unfold formatDate. rewrite H8, andb_false_r.
    destruct (truthy raw); [|done].
    destruct (matchDate raw) as [[[m d] y]|] eqn:Hm; [|done].
    by apply matchDate_sound, Hno in Hm.
  - exact pdf_formatDate_no_slash.
  - exact pdf_formatDate_one_slash.
  - exact pdf_formatDate_parts.
  - exact slash_cases.
  - intros raw. unfold CMS1500ToHL7Converter.formatDate.
    destruct (split "/" raw) as [|month [|day rest]]; [done|done|].
    set (formatted := default "undefined" (head rest) ++ _).
    destruct (eightDigits formatted) eqn:E; [|done].
    intros [= H]. by rewrite H in E.
Qed.

End DateFacts.

Section DateExamples.
Import JS Common Spec Examples.

(** C6, the stated claim fails on the [formatDate] of the PDF page, at a
    date the page passes to it: from a JSON file whose patient segment
    has the date of birth 1990-05-16 the extraction builds the date
    -0/5-/1990, which is neither an 8-digit token nor of the accepted
    shape; the codec's [formatDate] gives the empty string for it, the
    page's gives 20250101. *)
Lemma pdf_formatDate_differs :
  (∃ data, CMS1500ToHL7Converter.extractDataFromJson dashedFile = inr data ∧
           data !! "dob" = Some "-0/5-/1990") ∧
  eightDigits "-0/5-/1990" = false ∧
  (∀ month day year, ¬ DateShape "-0/5-/1990" month day year) ∧
  formatDate "-0/5-/1990" = "" ∧
  CMS1500ToHL7Converter.formatDate "-0/5-/1990"
    = CMS1500ToHL7Converter.Returned "20250101".
Proof.
  split; [|split; [done|split; [|done]]].
  - eexists. split; reflexivity.
  - intros m d y H. by apply matchDate_complete in H.
Qed.

End DateExamples.

(** ** The segment builder *)
Section SegmentFacts.
Import JS Common Spec.

(** The loop removes empty slots only, from the end it looks at. *)
Lemma popTrailing_spec (l : list string) :
  (∃ k, l = (replicate k "" ++ popTrailing l)%list) ∧
  (l ≠ [] → popTrailing l ≠ []) ∧
  (head (popTrailing l) = Some "" → length (popTrailing l) = 1%nat).
Proof.
  induction l as [|x l IH]; [by split; [exists 0%nat|]|].
  destruct x as [|c x].
  - destruct l as [|y l].
    + split; [by exists 0%nat|done].
    + change (popTrailing ("" :: y :: l)) with (popTrailing (y :: l)).
      destruct IH as ([k Hk] & Hne & Hhd). split; [|split].
      * exists (S k).
        change ("" :: y :: l = "" :: (replicate k "" ++ popTrailing (y :: l))%list).
        by f_equal.
      * intros _. by apply Hne.
      * done.
  - split; [by exists 0%nat|]. by split.
Qed.

Lemma rev_replicate_empty (k : nat) :
  rev (replicate k "") = replicate k "".
Proof.
  induction k as [|k IH]; [done|]. simpl. rewrite IH.
  clear IH. induction k as [|k IH]; [done|]. simpl. by rewrite IH.
Qed.

Lemma last_rev {A} (l : list A) : last (rev l) = head l.
Proof. destruct l as [|x l]; [done|]. simpl. apply last_snoc. Qed.

Lemma trimTrailing_spec (fields : list string) :
  (∃ k, fields = (trimTrailing fields ++ replicate k "")%list) ∧
  (fields ≠ [] → trimTrailing fields ≠ []) ∧
  (last (trimTrailing fields) = Some "" → length (trimTrailing fields) = 1%nat).
Proof.
  unfold trimTrailing.
  destruct (popTrailing_spec (rev fields)) as ([k Hk] & Hne & Hhd).
  split; [|split].
  - exists k. rewrite <- (rev_involutive fields), Hk at 1.
    by rewrite rev_app_distr, rev_replicate_empty.
  - intros Hf Hr. apply Hne.
    + intros E. apply Hf. by rewrite <- (rev_involutive fields), E.
    + by rewrite <- (rev_involutive (popTrailing _)), Hr.
  - intros Hl. rewrite length_rev. apply Hhd. by rewrite <- last_rev.
Qed.

(** The first slot is never popped. *)
Lemma trimTrailing_head (x : string) (l : list string) :
  trimTrailing (x :: l) !! 0%nat = Some x.
Proof.
  destruct (trimTrailing_spec (x :: l)) as ([k Hk] & Hne & _).
  destruct (trimTrailing (x :: l)) as [|y t]; [by destruct Hne|].
  simpl in Hk. by injection Hk as ->.
Qed.

Lemma trimTrailing_all_empty (fields : list string) :
  fields ≠ [] → (∀ f, f ∈ fields → f = "") → trimTrailing fields = [""].
Proof.
  intros Hne Hall.
  destruct (trimTrailing_spec fields) as ([k Hk] & Hkeep & Hlast).
  specialize (Hkeep Hne).
  assert (Hin : ∀ f, f ∈ trimTrailing fields → f = "").
  { intros f Hf. apply Hall. rewrite Hk. set_solver. }
  destruct (trimTrailing fields) as [|y t] using rev_ind; [done|].
  rewrite last_snoc, length_app in Hlast. simpl in Hlast.
  assert (y = "") as -> by (apply Hin; set_solver).
  destruct t; [done|]. specialize (Hlast eq_refl). simpl in Hlast. lia.
Qed.

(** C2, as the code has it.  [createSegment] joins the type token and the
    kept slots with the separator; the kept slots are the fields without
    their trailing empty ones (interior empties stay), never fewer than one
    slot of a non-empty field list, so that fields that are all empty leave
    one empty slot: the line is the type token followed by one separator,
    and only an empty field list gives the bare token. *)
Theorem createSegment_trims (segmentName : string) (fields : list string) :
  createSegment segmentName fields
    = join "|" (segmentName :: trimTrailing fields) ∧
  (∃ k, fields = (trimTrailing fields ++ replicate k "")%list) ∧
  (fields ≠ [] → trimTrailing fields ≠ []) ∧
  (last (trimTrailing fields) = Some "" → length (trimTrailing fields) = 1%nat) ∧
  createSegment "TYPE" ["A"; ""; ""] = "TYPE|A" ∧
  createSegment "TYPE" [""; "B"; ""] = "TYPE||B" ∧
  (fields ≠ [] → (∀ f, f ∈ fields → f = "") →
     createSegment segmentName fields = segmentName ++ "|") ∧
  createSegment segmentName [] = segmentName.
Proof.
  destruct (trimTrailing_spec fields) as (H1 & H2 & H3).
  repeat split; try done.
  intros Hne Hall. unfold createSegment.
  rewrite trimTrailing_all_empty by done. simpl. by rewrite str_app_nil_r.
Qed.

(** C2, the stated claim fails: three empty fields are not emitted as the
    bare type token, a separator follows it. *)
Lemma createSegment_all_empty_keeps_separator :
  createSegment "TYPE" [""; ""; ""] = "TYPE|" ∧
  createSegment "TYPE" [""; ""; ""] ≠ "TYPE".
Proof. by split. Qed.

End SegmentFacts.

(** ** Sorting and the order of the OBX lines *)
Section SortFacts.
Import JS.
Context {A : Type} (cmp : A → A → Z).

Lemma insertSorted_perm (x : A) (l : list A) : insertSorted cmp x l ≡ₚ x :: l.
Proof.
  induction l as [|y l IH]; simpl; [done|].
  destruct (cmp x y <=? 0)%Z; [done|].
  rewrite IH. apply Permutation_swap.
Qed.

Lemma sort_perm (l : list A) : sort cmp l ≡ₚ l.
Proof.
  induction l as [|x l IH]; simpl; [done|].
  change (foldr (insertSorted cmp) [] l) with (sort cmp l).
  by rewrite insertSorted_perm, IH.
Qed.

Hypothesis cmp_sym : ∀ a b, (cmp a b < 0 ↔ 0 < cmp b a)%Z.
Hypothesis cmp_trans : ∀ a b c, (cmp a b ≤ 0 → cmp b c ≤ 0 → cmp a c ≤ 0)%Z.

Lemma insertSorted_sorted (x : A) (l : list A) :
  StronglySorted (λ a b, (cmp a b ≤ 0)%Z) l →
  StronglySorted (λ a b, (cmp a b ≤ 0)%Z) (insertSorted cmp x l).
Proof.
  induction 1 as [|y l Hs IH Hy]; simpl.
  { by repeat constructor. }
  destruct (cmp x y <=? 0)%Z eqn:E.
  - apply Z.leb_le in E. constructor; [by constructor|].
    constructor; [done|].
    eapply Forall_impl; [exact Hy|]. intros z Hz. by eapply cmp_trans.
  - apply Z.leb_gt in E. constructor; [done|].
    rewrite insertSorted_perm. constructor; [|done].
    assert (cmp y x < 0)%Z by by apply cmp_sym. lia.
Qed.

Lemma sort_sorted (l : list A) :
  StronglySorted (λ a b, (cmp a b ≤ 0)%Z) (sort cmp l).
Proof.
  induction l as [|x l IH]; simpl; [constructor|].
  by apply insertSorted_sorted.
Qed.

End SortFacts.

Section OrderFacts.
Import JS Common Spec Examples.

Lemma elem_of_two_split {A} (a b : A) (l : list A) :
  a ∈ l → b ∈ l → a ≠ b → Before a b l ∨ Before b a l.
Proof.
  intros Ha Hb Hab.
  apply list_elem_of_split in Ha as (l1 & l2 & ->).
  apply elem_of_app in Hb as [Hb|Hb].
  - apply list_elem_of_split in Hb as (k1 & k2 & ->).
    right. exists k1, k2, l2. by rewrite <- app_assoc.
  - apply elem_of_cons in Hb as [->|Hb]; [done|].
    apply list_elem_of_split in Hb as (k1 & k2 & ->).
    left. by exists l1, k1, k2.
Qed.

Lemma sorted_before {A} (R : A → A → Prop) (a b : A) (l : list A) :
  StronglySorted R l → Before a b l → R a b.
Proof.
  intros Hs (l1 & l2 & l3 & ->).
  apply StronglySorted_app_1_r in Hs.
  apply StronglySorted_inv in Hs as [_ Hall].
  rewrite Forall_forall in Hall. apply Hall. set_solver.
Qed.

Lemma codeUnitCompare_sym (a b : string) :
  (codeUnitCompare a b < 0 ↔ 0 < codeUnitCompare b a)%Z.
Proof.
  unfold codeUnitCompare. rewrite (String.compare_antisym a b).
  destruct (String.compare b a); simpl; lia.
Qed.

Lemma codeUnitCompare_le (a b : string) :
  (codeUnitCompare a b ≤ 0)%Z ↔ String.le a b.
Proof.
  unfold codeUnitCompare, String.le, String.leb.
  destruct (String.compare a b); simpl; split; (done || lia).
Qed.

Lemma codeUnitCompare_trans (a b c : string) :
  (codeUnitCompare a b ≤ 0 → codeUnitCompare b c ≤ 0 → codeUnitCompare a c ≤ 0)%Z.
Proof.
  rewrite !codeUnitCompare_le. intros H1 H2. by etrans.
Qed.

Lemma obxSortKey_setId (o : Json) (a : string) (m : gmap string string) (s : string) :
  objGet o a = Some m → m !! "setId" = Some s → s ≠ "" → obxSortKey o a = s.
Proof.
  intros Ho Hm Hs. unfold obxSortKey. rewrite Ho. simpl. rewrite Hm. simpl.
  by destruct s.
Qed.

Lemma obxSortKey_fallback (o : Json) (a : string) :
  setIdOf o a = "" → obxSortKey o a = a.
Proof.
  unfold setIdOf, obxSortKey. rewrite getOr_lookup.
  destruct (objGet o a) as [m|]; simpl; [|done].
  by intros ->.
Qed.

Lemma obxSortKey_cases (o : Json) (a : string) :
  obxSortKey o a = orElse (setIdOf o a) a.
Proof.
  unfold setIdOf, obxSortKey. rewrite getOr_lookup.
  by destruct (objGet o a).
Qed.

(** C3, as the code has it.  Both encoders end with one OBX line per key
    of the record that starts with OBX, and for a collation that is a
    consistent order these lines are sorted by the sort key of their
    instance: its set identifier when that is a non-empty string, its
    segment key otherwise.  When the collation puts 10 before 2, an
    instance with set identifier 10 comes before one with 2. *)
Theorem obx_lines_sorted (localeCompare : string → string → Z)
    (lc_sym : ∀ a b, (localeCompare a b < 0 ↔ 0 < localeCompare b a)%Z)
    (lc_trans : ∀ a b c, (localeCompare a b ≤ 0 → localeCompare b c ≤ 0 →
                          localeCompare a c ≤ 0)%Z)
    (o : Json) :
  let ks := obxKeys localeCompare o in
  let line := λ k, createSegment "OBX" (obxFields (default ∅ (objGet o k))) in
  DynamicConverter.convertToHL7 localeCompare o
    = join (String "010" "") (DynamicConverter.definedSegments o ++ (line <$> ks)) ∧
  CMSConverter.convertToHL7 localeCompare o
    = join (String "010" "") (CMSConverter.standardSegments o ++ (line <$> ks)) ∧
  ks ≡ₚ filter (λ key, startsWith "OBX" key = true) (objKeys o) ∧
  StronglySorted
    (λ a b, (localeCompare (obxSortKey o a) (obxSortKey o b) ≤ 0)%Z) ks ∧
  (∀ a, obxSortKey o a = orElse (setIdOf o a) a) ∧
  ((localeCompare "10" "2" < 0)%Z →
   ∀ a b, a ∈ ks → b ∈ ks → setIdOf o a = "10" → setIdOf o b = "2" →
          Before a b ks).
Proof.
  intros ks line. split; [done|]. split; [done|]. split; [apply sort_perm|].
  assert (Hs : StronglySorted
    (λ a b, (localeCompare (obxSortKey o a) (obxSortKey o b) ≤ 0)%Z) ks).
  { apply (sort_sorted (λ a b, localeCompare (obxSortKey o a) (obxSortKey o b)));
      [intros; apply lc_sym|intros *; apply lc_trans]. }
  split; [done|]. split; [apply obxSortKey_cases|].
  intros H10 a b Ha Hb Sa Sb.
  destruct (elem_of_two_split a b ks Ha Hb) as [?|Hba]; [congruence|done|].
  apply (sorted_before _ _ _ _ Hs) in Hba.
  rewrite !obxSortKey_cases, Sa, Sb in Hba. unfold orElse in Hba. simpl in Hba.
  apply lc_sym in H10. exfalso. lia.
Qed.

Lemma obx_lines_sorted_witness :
  Before "OBX10" "OBX2" (obxKeys codeUnitCompare twoObservations).
Proof.
  pose proof (obx_lines_sorted codeUnitCompare codeUnitCompare_sym
                codeUnitCompare_trans twoObservations) as H.
  simpl in H. destruct H as (_ & _ & _ & _ & _ & H).
  apply H; [reflexivity| | |reflexivity|reflexivity].
  - vm_compute. apply list_elem_of_here.
  - vm_compute. apply list_elem_of_further, list_elem_of_here.
Defined.

(** On that record the two lines come out with 10 first. *)
Example obx_ten_before_two :
  DynamicConverter.convertToHL7 codeUnitCompare twoObservations
    = "OBX|10" ++ String "010" "OBX|2".
Proof. vm_compute. reflexivity. Qed.

(** C3, the stated claim fails: an instance without set identifier is
    placed by its key, so the lines are not in the order of their set
    identifiers; here 1 is emitted before the empty one. *)
Lemma obx_order_not_by_setId :
  let o : Json := [ ("OBX", {[ "valueType" := "ST" ]});
                    ("OBX1", {[ "setId" := "1" ]}) ] in
  obxSegments codeUnitCompare o = [ "OBX|1"; "OBX||ST" ] ∧
  ¬ StronglySorted
      (λ a b, (codeUnitCompare (setIdOf o a) (setIdOf o b) ≤ 0)%Z)
      (obxKeys codeUnitCompare o).
Proof.
  intros o. split; [by vm_compute|].
  replace (obxKeys codeUnitCompare o) with ["OBX1"; "OBX"] by by vm_compute.
  intros H. apply StronglySorted_inv in H as [_ H].
  apply Forall_inv in H. vm_compute in H. by apply H.
Qed.

End OrderFacts.

(** ** The decoders *)
Section DecodeFacts.
Import JS Common Spec Examples.

Lemma trim_truthy_head (c : ascii) (s : string) :
  isWhiteSpace c = false → truthy (trim (String c s)) = true.
Proof.
  intros Hc. unfold trim. rewrite chars_cons.
  change (dropWhiteSpace (c :: chars s))
    with (if isWhiteSpace c then dropWhiteSpace (chars s) else c :: chars s).
  rewrite Hc. change (rev (c :: chars s)) with (rev (chars s) ++ [c])%list.
  assert (H : ∀ l, ∃ l', dropWhiteSpace (l ++ [c]) = (l' ++ [c])%list).
  { induction l as [|x l [l' IH]]; simpl.
    - rewrite Hc. by exists [].
    - destruct (isWhiteSpace x); [by exists l'|by exists (x :: l)]. }
  destruct (H (rev (chars s))) as [l' ->].
  by rewrite rev_app_distr.
Qed.

Lemma filter_single_true {A} (P : A → Prop) `{∀ x, Decision (P x)} (x : A) :
  P x → filter P [x] = [x].
Proof. intros Hx. by rewrite filter_cons_True. Qed.

Lemma indexed_snoc {A} (l : list A) (x : A) :
  indexed (l ++ [x]) = (indexed l ++ [(length l, x)])%list.
Proof. unfold indexed. rewrite imap_app. simpl. by rewrite Nat.add_0_r. Qed.

Lemma fieldName_inj (i j : nat) : fieldName i = fieldName j → i = j.
Proof.
  unfold fieldName. intros H. apply (inj (String.app "field")) in H.
  by apply (inj pretty) in H.
Qed.

Lemma startsWith_fieldName (n : nat) : startsWith "field" (fieldName n) = true.
Proof. unfold startsWith, fieldName. simpl. by destruct (pretty n). Qed.

(** *** Assignment to a property *)

Lemma assign_other {V} (k : string) (v : V) (o : gmap string V) :
  k ≠ "__proto__" → assign k v o = <[k := v]> o.
Proof. intros H. unfold assign. by rewrite bool_decide_eq_false_2. Qed.

Lemma assign_proto {V} (v : V) (o : gmap string V) : assign "__proto__" v o = o.
Proof. reflexivity. Qed.

Lemma lookup_assign_eq {V} (k : string) (v : V) (o : gmap string V) :
  k ≠ "__proto__" → assign k v o !! k = Some v.
Proof. intros H. by rewrite assign_other, lookup_insert_eq. Qed.

Lemma lookup_assign_ne {V} (k k' : string) (v : V) (o : gmap string V) :
  k ≠ k' → assign k v o !! k' = o !! k'.
Proof.
  intros H. unfold assign. case_bool_decide; [done|].
  by rewrite lookup_insert_ne.
Qed.

(** No assignment stores a property named [__proto__]. *)
Lemma lookup_assign_proto {V} (k : string) (v : V) (o : gmap string V) :
  o !! "__proto__" = None → assign k v o !! "__proto__" = None.
Proof.
  intros H. unfold assign. case_bool_decide as E; [done|].
  by rewrite lookup_insert_ne.
Qed.

Lemma fieldName_not_proto (n : nat) : fieldName n ≠ "__proto__".
Proof. unfold fieldName. intros H. discriminate H. Qed.

Lemma OBX_not_proto (x : string) : "OBX" ++ x ≠ "__proto__".
Proof. intros H. discriminate H. Qed.

(** *** The table-driven decoder *)

Lemma segmentDataOf_snoc (mappings : gmap string string)
    (fields : list string) (f : string) :
  DynamicConverter.segmentDataOf mappings (fields ++ [f])
  = assign (DynamicConverter.fieldKeyOf mappings (length fields)) (orElse f "")
           (DynamicConverter.segmentDataOf mappings fields).
Proof.
  unfold DynamicConverter.segmentDataOf. by rewrite indexed_snoc, foldl_app.
Qed.

Lemma fieldKeyOf_unmapped (mappings : gmap string string) (i : nat) :
  mappings !! fieldName (i + 1) = None →
  DynamicConverter.fieldKeyOf mappings i = fieldName (i + 1).
Proof. intros H. unfold DynamicConverter.fieldKeyOf. by rewrite H. Qed.

Lemma fieldKeyOf_cases (mappings : gmap string string) (j : nat) :
  DynamicConverter.fieldKeyOf mappings j = fieldName (j + 1) ∨
  ∃ name, mappings !! fieldName (j + 1) = Some name ∧
          DynamicConverter.fieldKeyOf mappings j = name.
Proof.
  unfold DynamicConverter.fieldKeyOf.
  destruct (mappings !! fieldName (j + 1)) as [[|c name]|]; simpl; eauto.
Qed.

(** A position without schema entry is stored under its generic name,
    provided no schema entry uses a generic name as canonical name. *)
Lemma segmentDataOf_unmapped (mappings : gmap string string)
    (fields : list string) (i : nat) (v : string) :
  (∀ k name, mappings !! k = Some name → startsWith "field" name = false) →
  fields !! i = Some v →
  mappings !! fieldName (i + 1) = None →
  DynamicConverter.segmentDataOf mappings fields !! fieldName (i + 1) = Some v.
Proof.
  intros Hnames. revert i v.
  induction fields as [|f fields IH] using rev_ind; [done|].
  intros i v Hi Hun. rewrite segmentDataOf_snoc.
  destruct (decide (i = length fields)) as [->|Hne].
  - rewrite fieldKeyOf_unmapped by done.
    rewrite lookup_assign_eq by apply fieldName_not_proto.
    rewrite list_lookup_middle in Hi by done. injection Hi as ->.
    by rewrite orElse_empty.
  - rewrite lookup_assign_ne.
    + apply IH; [|done]. rewrite lookup_app_l in Hi; [done|].
      apply lookup_lt_Some in Hi. rewrite length_app in Hi. simpl in Hi. lia.
    + destruct (fieldKeyOf_cases mappings (length fields))
        as [E|(name & Hm & E)]; rewrite E.
      * intros Heq%fieldName_inj. lia.
      * intros ->. apply Hnames in Hm.
        by rewrite startsWith_fieldName in Hm.
Qed.

(** The canonical names of the code's table are not generic names. *)
Lemma segmentFieldMappings_names (segmentType k name : string) :
  default ∅ (DynamicConverter.segmentFieldMappings !! segmentType) !! k = Some name →
  startsWith "field" name = false.
Proof.
  intros H.
  assert (Hall : forallb (λ '(_, m),
                    forallb (λ '(_, n), negb (startsWith "field" n))
                            (map_to_list (m : gmap string string)))
                   (map_to_list DynamicConverter.segmentFieldMappings) = true)
    by by vm_compute.
  destruct (DynamicConverter.segmentFieldMappings !! segmentType) as [m|] eqn:E;
    cbv [from_option id] in H; [|rewrite lookup_empty in H; discriminate H].
  rewrite forallb_forall in Hall.
  apply elem_of_map_to_list, list_elem_of_In, Hall in E.
  rewrite forallb_forall in E.
  apply elem_of_map_to_list, list_elem_of_In, E in H.
  apply negb_true_iff in H. exact H.
Qed.

Lemma dyn_wireLines_bare (t : string) :
  freeOf "010" t = true → truthy (trim t) = true →
  DynamicConverter.wireLines t = [t].
Proof.
  intros Hf Ht. unfold DynamicConverter.wireLines.
  rewrite split_free by done. by apply filter_single_true.
Qed.

Lemma dyn_decodeLine_bare (table : gmap string (gmap string string))
    (out : gmap string (gmap string string)) (t : string) :
  freeOf "|" t = true →
  DynamicConverter.decodeLine table out t = assign t ∅ out.
Proof.
  intros Hf. unfold DynamicConverter.decodeLine. rewrite split_free by done.
  unfold DynamicConverter.segmentKeyOf. simpl. by rewrite andb_false_r.
Qed.

(** *** The switch-driven decoder of src/CMSConverter.tsx *)

Lemma genericObject_snoc (fields : list string) (f : string) :
  CMSConverter.genericObject (fields ++ [f])
  = <[fieldName (length fields) := f]> (CMSConverter.genericObject fields).
Proof.
  unfold CMSConverter.genericObject. by rewrite indexed_snoc, foldl_app.
Qed.

(** The [default] case names a field after its array index, which is one
    less than its wire position. *)
Lemma genericObject_lookup (fields : list string) (i : nat) :
  CMSConverter.genericObject fields !! fieldName i = fields !! i.
Proof.
  induction fields as [|f fields IH] using rev_ind; [done|].
  rewrite genericObject_snoc.
  destruct (decide (i = length fields)) as [->|Hne].
  - by rewrite lookup_insert_eq, list_lookup_middle.
  - rewrite lookup_insert_ne by (intros ?%fieldName_inj; lia).
    rewrite IH. destruct (decide (i < length fields)%nat).
    + by rewrite lookup_app_l.
    + rewrite !lookup_ge_None_2; [done| |lia].
      rewrite length_app. simpl. lia.
Qed.

Lemma objectOf_nil (shape : list (string * nat)) :
  CMSConverter.objectOf [] shape = allEmpty shape.
Proof.
  unfold CMSConverter.objectOf, allEmpty. f_equal.
Qed.

Lemma allEmpty_values (shape : list (string * nat)) (name v : string) :
  allEmpty shape !! name = Some v → v = "".
Proof.
  unfold allEmpty. intros H. apply elem_of_list_to_map_2 in H.
  apply list_elem_of_fmap in H as ([n i] & [= _ ->] & _). done.
Qed.

Lemma shapeOf_None (segmentType : string) (fields : list string) :
  shapeOf segmentType = None →
  CMSConverter.segmentKeyOf segmentType fields = segmentType ∧
  CMSConverter.segmentObjectOf segmentType fields
  = CMSConverter.genericObject fields.
Proof.
  unfold shapeOf, CMSConverter.segmentKeyOf, CMSConverter.segmentObjectOf.
  case_bool_decide; [done|]. by intros ->.
Qed.

Lemma shapeOf_Some (segmentType : string) (fields : list string)
    (shape : list (string * nat)) :
  shapeOf segmentType = Some shape →
  CMSConverter.segmentObjectOf segmentType fields
  = CMSConverter.objectOf fields shape.
Proof.
  unfold shapeOf, CMSConverter.segmentObjectOf.
  case_bool_decide; [by intros [= <-]|]. by intros ->.
Qed.

Lemma segmentKeyOf_bare (segmentType : string) :
  CMSConverter.segmentKeyOf segmentType [] = segmentType.
Proof.
  unfold CMSConverter.segmentKeyOf. by case_bool_decide as H; [rewrite H|].
Qed.

Lemma cms_decodeLine_split (out : gmap string (gmap string string))
    (line segmentType : string) (fields : list string) :
  split "|" line = segmentType :: fields →
  CMSConverter.segmentKeyOf segmentType fields ≠ "__proto__" →
  CMSConverter.decodeLine out line
    !! CMSConverter.segmentKeyOf segmentType fields
  = Some (CMSConverter.segmentObjectOf segmentType fields).
Proof.
  intros H Hk. unfold CMSConverter.decodeLine. rewrite H.
  by rewrite lookup_assign_eq.
Qed.

Lemma cms_decodeLine_bare_unknown (out : gmap string (gmap string string))
    (t : string) :
  freeOf "|" t = true → shapeOf t = None →
  CMSConverter.decodeLine out t = assign t ∅ out.
Proof.
  intros Hf Hs. unfold CMSConverter.decodeLine. rewrite split_free by done.
  destruct (shapeOf_None t [] Hs) as [-> ->].
  change (CMSConverter.genericObject []) with (∅ : gmap string string).
  destruct (out !! t) eqn:E; [done|].
  unfold assign. case_bool_decide; [done|]. by rewrite insert_insert_eq.
Qed.

Lemma cms_wireLines_bare (t : string) :
  freeOf "010" t = true → truthy (trim t) = true →
  CMSConverter.wireLines t = [t].
Proof.
  intros Hf Ht. unfold CMSConverter.wireLines.
  rewrite split_free by done. by apply filter_single_true.
Qed.

End DecodeFacts.

(** ** The table-driven decoder of the converter page *)
Section DynamicDecoder.
Import JS Common Spec Examples.

Lemma split_head_tail (line : string) :
  split "|" line = lineType line :: lineFields line.
Proof.
  unfold lineType, lineFields. pose proof (split_not_nil "|" line).
  by destruct (split "|" line).
Qed.

Lemma NoDup_snd_inj {A B} (l : list (A * B)) (a b : A) (n : B) :
  NoDup l.*2 → (a, n) ∈ l → (b, n) ∈ l → a = b.
Proof.
  induction l as [|[x y] l IH]; simpl; intros Hnd Ha Hb.
  { by apply elem_of_nil in Ha. }
  apply NoDup_cons in Hnd as [Hy Hnd].
  apply elem_of_cons in Ha as [Ea|Ha]; apply elem_of_cons in Hb as [Eb|Hb].
  - congruence.
  - injection Ea as -> ->. destruct Hy. apply list_elem_of_fmap. by exists (b, y).
  - injection Eb as -> ->. destruct Hy. apply list_elem_of_fmap. by exists (a, y).
  - by apply IH.
Qed.

Lemma wellFormedMappings_spec (mappings : gmap string string) :
  wellFormedMappings mappings = true →
  (∀ k1 k2 name, mappings !! k1 = Some name → mappings !! k2 = Some name → k1 = k2) ∧
  (∀ k name, mappings !! k = Some name →
             startsWith "field" name = false ∧ name ≠ "__proto__").
Proof.
  unfold wellFormedMappings. intros [Hnd Hall]%andb_prop.
  apply bool_decide_eq_true_1 in Hnd. rewrite forallb_forall in Hall. split.
  - intros k1 k2 name H1%elem_of_map_to_list H2%elem_of_map_to_list.
    by eapply NoDup_snd_inj.
  - intros k name H%elem_of_map_to_list%list_elem_of_In%Hall.
    apply andb_prop in H as [H1 H2]. split.
    + by apply negb_true_iff in H1.
    + apply negb_true_iff in H2. by apply bool_decide_eq_false_1 in H2.
Qed.

(** No position is stored under the name of the prototype accessor. *)
Lemma fieldKeyOf_not_proto (mappings : gmap string string) (i : nat) :
  wellFormedMappings mappings = true →
  DynamicConverter.fieldKeyOf mappings i ≠ "__proto__".
Proof.
  intros [_ Hgen]%wellFormedMappings_spec.
  destruct (fieldKeyOf_cases mappings i) as [E|(name & Hm & E)]; rewrite E.
  - apply fieldName_not_proto.
  - by destruct (Hgen _ _ Hm).
Qed.

(** Distinct positions are stored under distinct keys. *)
Lemma fieldKeyOf_inj (mappings : gmap string string) (i j : nat) :
  wellFormedMappings mappings = true →
  DynamicConverter.fieldKeyOf mappings i = DynamicConverter.fieldKeyOf mappings j →
  i = j.
Proof.
  intros [Hinj Hgen]%wellFormedMappings_spec.
  destruct (fieldKeyOf_cases mappings i) as [Ei|(ni & Mi & Ei)];
    destruct (fieldKeyOf_cases mappings j) as [Ej|(nj & Mj & Ej)];
    rewrite Ei, Ej; intros E.
  - apply fieldName_inj in E. lia.
  - apply Hgen in Mj as [Mj _].
    rewrite <- E, startsWith_fieldName in Mj. discriminate Mj.
  - apply Hgen in Mi as [Mi _].
    rewrite E, startsWith_fieldName in Mi. discriminate Mi.
  - rewrite <- E in Mj. specialize (Hinj _ _ _ Mi Mj).
    apply fieldName_inj in Hinj. lia.
Qed.

(** Every key of the field map is the key of a position of the line. *)
Lemma segmentDataOf_key (mappings : gmap string string)
    (fields : list string) (k v : string) :
  DynamicConverter.segmentDataOf mappings fields !! k = Some v →
  ∃ i, (i < length fields)%nat ∧ k = DynamicConverter.fieldKeyOf mappings i.
Proof.
  induction fields as [|f fields IH] using rev_ind; [done|].
  rewrite segmentDataOf_snoc, length_app. simpl.
  destruct (decide (DynamicConverter.fieldKeyOf mappings (length fields) = k))
    as [<-|Hne].
  - intros _. exists (length fields). split; [lia|done].
  - rewrite lookup_assign_ne by done. intros (i & Hi & ->)%IH.
    exists i. split; [lia|done].
Qed.

(** Every field is stored, with its raw value, under the key of its
    position. *)
Lemma segmentDataOf_lookup (mappings : gmap string string)
    (fields : list string) (i : nat) (v : string) :
  wellFormedMappings mappings = true →
  fields !! i = Some v →
  DynamicConverter.segmentDataOf mappings fields
    !! DynamicConverter.fieldKeyOf mappings i = Some v.
Proof.
  intros Hwf. revert i v.
  induction fields as [|f fields IH] using rev_ind; [done|].
  intros i v Hi. rewrite segmentDataOf_snoc.
  destruct (decide (i = length fields)) as [->|Hne].
  - rewrite lookup_assign_eq by by apply fieldKeyOf_not_proto.
    rewrite list_lookup_middle in Hi by done. injection Hi as ->.
    by rewrite orElse_empty.
  - rewrite lookup_assign_ne.
    + apply IH. rewrite lookup_app_l in Hi; [done|].
      apply lookup_lt_Some in Hi. rewrite length_app in Hi. simpl in Hi. lia.
    + intros E. apply fieldKeyOf_inj in E; [|done]. lia.
Qed.

Lemma segmentDataOf_size (mappings : gmap string string) (fields : list string) :
  wellFormedMappings mappings = true →
  size (DynamicConverter.segmentDataOf mappings fields) = length fields.
Proof.
  intros Hwf. induction fields as [|f fields IH] using rev_ind; [done|].
  rewrite segmentDataOf_snoc, assign_other by by apply fieldKeyOf_not_proto.
  rewrite length_app, map_size_insert_None, IH; [simpl; lia|].
  destruct (DynamicConverter.segmentDataOf mappings fields
              !! DynamicConverter.fieldKeyOf mappings (length fields))
    as [v|] eqn:E; [|done].
  apply segmentDataOf_key in E as (i & Hi & E).
  apply fieldKeyOf_inj in E; [|done]. lia.
Qed.

(** The tables of the code are well formed, and so is the empty table an
    unknown segment type falls back to. *)
Lemma segmentFieldMappings_wellFormed (segmentType : string) :
  wellFormedMappings
    (default ∅ (DynamicConverter.segmentFieldMappings !! segmentType)) = true.
Proof.
  assert (Hall : forallb (λ '(_, m), wellFormedMappings m)
                   (map_to_list DynamicConverter.segmentFieldMappings) = true)
    by (vm_compute; reflexivity).
  destruct (DynamicConverter.segmentFieldMappings !! segmentType) as [m|] eqn:E;
    cbv [from_option id]; [|vm_compute; reflexivity].
  rewrite forallb_forall in Hall.
  apply elem_of_map_to_list, list_elem_of_In, Hall in E. exact E.
Qed.

Lemma dyn_decodeLine_eq (table : gmap string (gmap string string))
    (out : gmap string (gmap string string)) (line : string) :
  DynamicConverter.decodeLine table out line
  = assign (dynLineKey line) (dynLineData table line) out.
Proof.
  unfold DynamicConverter.decodeLine, dynLineKey, dynLineData.
  by rewrite split_head_tail.
Qed.

Lemma dyn_decode_after (table : gmap string (gmap string string))
    (after : list string) (out : gmap string (gmap string string))
    (k : string) (m : gmap string string) :
  Forall (λ l, dynLineKey l ≠ k) after → out !! k = Some m →
  foldl (DynamicConverter.decodeLine table) out after !! k = Some m.
Proof.
  intros H. revert out. induction H as [|l after Hl _ IH]; intros out Hm; [done|].
  simpl. apply IH. by rewrite dyn_decodeLine_eq, lookup_assign_ne.
Qed.

(** The decoder stores no property named [__proto__]. *)
Lemma dyn_decode_proto (table : gmap string (gmap string string))
    (lines : list string) (out : gmap string (gmap string string)) :
  out !! "__proto__" = None →
  foldl (DynamicConverter.decodeLine table) out lines !! "__proto__" = None.
Proof.
  revert out. induction lines as [|l lines IH]; intros out Hout; [done|].
  simpl. apply IH. rewrite dyn_decodeLine_eq. by apply lookup_assign_proto.
Qed.

Lemma dyn_segmentKeyOf_OBX (fields : list string) :
  DynamicConverter.segmentKeyOf "OBX" fields = "OBX" ++ default "" (fields !! 0%nat).
Proof.
  unfold DynamicConverter.segmentKeyOf.
  by destruct (default "" (fields !! 0%nat)).
Qed.

(** X1.  In the table-driven decoder every field of a wire line is stored
    with its raw wire value, under the canonical name that the table gives
    its 1-based position, or under the generic name of that position when
    the table has no entry for it; the field map has one entry per field,
    so no field is dropped, merged or renamed twice.  The record binds the
    key of the line to this map, unless the key is [__proto__]: such a
    line replaces the prototype of the record and leaves its entries as
    they were. *)
Theorem dynamic_decoder_stores_every_field
    (out : gmap string (gmap string string)) (line : string) (i : nat) (v : string) :
  lineFields line !! i = Some v →
  (dynLineKey line ≠ "__proto__" →
   ∃ m, DynamicConverter.decodeLine DynamicConverter.segmentFieldMappings out line
          !! dynLineKey line = Some m ∧
        m !! DynamicConverter.fieldKeyOf
               (default ∅ (DynamicConverter.segmentFieldMappings !! lineType line)) i
          = Some v ∧
        size m = length (lineFields line) ∧
        (default ∅ (DynamicConverter.segmentFieldMappings !! lineType line)
           !! fieldName (i + 1) = None →
         DynamicConverter.fieldKeyOf
           (default ∅ (DynamicConverter.segmentFieldMappings !! lineType line)) i
         = fieldName (i + 1)) ∧
        (∀ name,
           default ∅ (DynamicConverter.segmentFieldMappings !! lineType line)
             !! fieldName (i + 1) = Some name → name ≠ "" →
           DynamicConverter.fieldKeyOf
             (default ∅ (DynamicConverter.segmentFieldMappings !! lineType line)) i
           = name)) ∧
  (dynLineKey line = "__proto__" →
   DynamicConverter.decodeLine DynamicConverter.segmentFieldMappings out line = out).
Proof.
  intros Hi. split.
  - intros Hk. exists (dynLineData DynamicConverter.segmentFieldMappings line).
    pose proof (segmentFieldMappings_wellFormed (lineType line)) as Hwf.
    split; [by rewrite dyn_decodeLine_eq, lookup_assign_eq|].
    split; [by apply segmentDataOf_lookup|].
    split; [by apply segmentDataOf_size|].
    split; [apply fieldKeyOf_unmapped|].
    intros name Hn Hne. unfold DynamicConverter.fieldKeyOf. rewrite Hn.
    by destruct name.
  - intros Hk. by rewrite dyn_decodeLine_eq, Hk.
Qed.

Lemma dynamic_decoder_stores_every_field_witness :
  ∃ m, DynamicConverter.decodeLine DynamicConverter.segmentFieldMappings ∅ "PID|7||X"
         !! "PID" = Some m ∧
       m !! "patientId" = Some "X" ∧ size m = 3%nat.
Proof.
  destruct (dynamic_decoder_stores_every_field ∅ "PID|7||X" 2 "X" eq_refl)
    as [H _].
  destruct H as (m & H1 & H2 & H3 & _); [discriminate|].
  exists m. split; [exact H1|]. split; [exact H2|exact H3].
Defined.

(** X2.  The record decoded from a wire text binds the key of a line,
    when that key is not [__proto__], to the field map of that line alone
    whenever no later line has the same key: an earlier line with the same
    key is replaced, not merged.  No text gives the record an entry named
    [__proto__]. *)
Theorem dynamic_decoder_last_line_wins
    (table : gmap string (gmap string string)) (hl7 : string)
    (before : list string) (line : string) (after : list string) :
  DynamicConverter.wireLines hl7 = (before ++ line :: after)%list →
  Forall (λ l, dynLineKey l ≠ dynLineKey line) after →
  (dynLineKey line ≠ "__proto__" →
   DynamicConverter.convertHL7ToJsonWith table hl7 !! dynLineKey line
   = Some (dynLineData table line)) ∧
  DynamicConverter.convertHL7ToJsonWith table hl7 !! "__proto__" = None.
Proof.
  intros Hl Hafter. unfold DynamicConverter.convertHL7ToJsonWith. split.
  - intros Hk. rewrite Hl, foldl_app. simpl. apply dyn_decode_after; [done|].
    by rewrite dyn_decodeLine_eq, lookup_assign_eq.
  - by apply dyn_decode_proto.
Qed.

Lemma dynamic_decoder_last_line_wins_witness :
  DynamicConverter.convertHL7ToJsonWith DynamicConverter.segmentFieldMappings
    ("PID|1" ++ String "010" "PID|2") !! "PID"
  = Some (dynLineData DynamicConverter.segmentFieldMappings "PID|2").
Proof.
  apply (dynamic_decoder_last_line_wins DynamicConverter.segmentFieldMappings
           ("PID|1" ++ String "010" "PID|2") ["PID|1"] "PID|2" []).
  - reflexivity.
  - constructor.
  - discriminate.
Defined.

(** X3.  Two observation lines whose set identifiers differ are decoded
    under two different keys, and the record holds the field map of each:
    the second does not overwrite the first. *)
Theorem dynamic_decoder_keeps_both_observations
    (table : gmap string (gmap string string))
    (out : gmap string (gmap string string)) (l1 l2 : string) :
  lineType l1 = "OBX" → lineType l2 = "OBX" →
  default "" (lineFields l1 !! 0%nat) ≠ default "" (lineFields l2 !! 0%nat) →
  dynLineKey l1 ≠ dynLineKey l2 ∧
  DynamicConverter.decodeLine table (DynamicConverter.decodeLine table out l1) l2
    !! dynLineKey l1 = Some (dynLineData table l1) ∧
  DynamicConverter.decodeLine table (DynamicConverter.decodeLine table out l1) l2
    !! dynLineKey l2 = Some (dynLineData table l2).
Proof.
  intros T1 T2 Hne.
  assert (Hk : dynLineKey l1 ≠ dynLineKey l2).
  { unfold dynLineKey. rewrite T1, T2, !dyn_segmentKeyOf_OBX.
    intros E. by apply (inj (String.app "OBX")) in E. }
  assert (Hp : ∀ l, lineType l = "OBX" → dynLineKey l ≠ "__proto__").
  { intros l T. unfold dynLineKey. rewrite T, dyn_segmentKeyOf_OBX.
    apply OBX_not_proto. }
  split; [done|]. rewrite !dyn_decodeLine_eq. split.
  - rewrite lookup_assign_ne by done. by apply lookup_assign_eq, Hp.
  - by apply lookup_assign_eq, Hp.
Qed.

Lemma dynamic_decoder_keeps_both_observations_witness :
  dynLineKey "OBX|1|ST" ≠ dynLineKey "OBX|2|ST".
Proof.
  apply (dynamic_decoder_keeps_both_observations ∅ ∅ "OBX|1|ST" "OBX|2|ST");
    [reflexivity|reflexivity|vm_compute; discriminate].
Defined.

End DynamicDecoder.

(** ** The switch-driven decoders *)
Section SwitchDecoders.
Import JS Common Spec Examples.

Lemma decide_NoDup_names (shapes : list (string * list (string * nat))) :
  forallb (λ '(_, shape), bool_decide (NoDup shape.*1)) shapes = true →
  ∀ t shape, (list_to_map shapes : gmap string _) !! t = Some shape →
             NoDup shape.*1.
Proof.
  intros H t shape Hl. rewrite forallb_forall in H.
  apply elem_of_list_to_map_2, list_elem_of_In, H in Hl.
  by apply bool_decide_eq_true_1 in Hl.
Qed.

Lemma shapeOf_NoDup (t : string) (shape : list (string * nat)) :
  shapeOf t = Some shape → NoDup shape.*1.
Proof.
  unfold shapeOf. case_bool_decide.
  - intros [= <-]. compute_done.
  - apply decide_NoDup_names. vm_compute. reflexivity.
Qed.

Lemma pdfShapeOf_NoDup (t : string) (shape : list (string * nat)) :
  pdfShapeOf t = Some shape → NoDup shape.*1.
Proof. apply decide_NoDup_names. vm_compute. reflexivity. Qed.

(** An object literal holds exactly the names of its shape, each bound to
    the field at its index, or to the empty string. *)
Lemma objectOf_shape (fields : list string) (shape : list (string * nat)) :
  NoDup shape.*1 →
  dom (CMSConverter.objectOf fields shape) = list_to_set shape.*1 ∧
  ∀ name i, (name, i) ∈ shape →
            CMSConverter.objectOf fields shape !! name = Some (nthOr fields i).
Proof.
  intros Hnd. unfold CMSConverter.objectOf.
  assert (E : ((λ '(name, i), (name, nthOr fields i)) <$> shape).*1 = shape.*1).
  { rewrite <- list_fmap_compose. apply list_fmap_ext. by intros ? [??] _. }
  split.
  - by rewrite dom_list_to_map_L, E.
  - intros name i Hin. apply elem_of_list_to_map_1; [by rewrite E|].
    apply list_elem_of_fmap. by exists (name, i).
Qed.

Lemma nthOr_absent_or_empty (fields : list string) (i : nat) :
  fields !! i = None ∨ fields !! i = Some "" → nthOr fields i = "".
Proof. unfold nthOr. by intros [-> | ->]. Qed.

(** A later line with another key leaves the entry alone. *)
Lemma cms_decodeLine_other (out : gmap string (gmap string string))
    (l k : string) (m : gmap string string) :
  lineKey l ≠ k → out !! k = Some m →
  CMSConverter.decodeLine out l !! k = Some m.
Proof.
  intros Hk Hm. unfold CMSConverter.decodeLine, lineKey in *.
  rewrite split_head_tail. rewrite lookup_assign_ne by done.
  destruct (out !! lineType l) eqn:E; [done|].
  rewrite lookup_assign_ne; [done|]. intros E2. rewrite E2 in E. congruence.
Qed.

(** The key of a line of a known type is not [__proto__]. *)
Lemma shapeOf_key (segmentType : string) (fields : list string)
    (shape : list (string * nat)) :
  shapeOf segmentType = Some shape →
  CMSConverter.segmentKeyOf segmentType fields ≠ "__proto__".
Proof.
  unfold shapeOf, CMSConverter.segmentKeyOf.
  case_bool_decide; [intros _; apply OBX_not_proto|].
  intros Hs E. rewrite E in Hs. discriminate Hs.
Qed.

Lemma pdfShapeOf_key (segmentType : string) (shape : list (string * nat)) :
  pdfShapeOf segmentType = Some shape → segmentType ≠ "__proto__".
Proof. unfold pdfShapeOf. intros Hs E. rewrite E in Hs. discriminate Hs. Qed.

(** The decoders store no property named [__proto__]. *)
Lemma cms_decode_proto (lines : list string)
    (out : gmap string (gmap string string)) :
  out !! "__proto__" = None →
  foldl CMSConverter.decodeLine out lines !! "__proto__" = None.
Proof.
  revert out. induction lines as [|l lines IH]; intros out Hout; [done|].
  simpl. apply IH. unfold CMSConverter.decodeLine.
  destruct (split "|" l) as [|t fs]; [done|].
  apply lookup_assign_proto. destruct (out !! t); [done|].
  by apply lookup_assign_proto.
Qed.

Lemma pdf_decode_proto (lines : list string)
    (out : gmap string (gmap string string)) :
  out !! "__proto__" = None →
  foldl CMS1500ToHL7Converter.decodeLine out lines !! "__proto__" = None.
Proof.
  revert out. induction lines as [|l lines IH]; intros out Hout; [done|].
  simpl. apply IH. unfold CMS1500ToHL7Converter.decodeLine.
  destruct (split "|" l) as [|t fs]; [done|].
  by do 2 apply lookup_assign_proto.
Qed.

Lemma cms_decode_after (after : list string)
    (out : gmap string (gmap string string)) (k : string)
    (m : gmap string string) :
  Forall (λ l, lineKey l ≠ k) after → out !! k = Some m →
  foldl CMSConverter.decodeLine out after !! k = Some m.
Proof.
  intros H. revert out. induction H as [|l after Hl _ IH]; intros out Hm; [done|].
  simpl. apply IH. by apply cms_decodeLine_other.
Qed.

Lemma pdf_decodeLine_other (out : gmap string (gmap string string))
    (l k : string) (m : gmap string string) :
  lineType l ≠ k → out !! k = Some m →
  CMS1500ToHL7Converter.decodeLine out l !! k = Some m.
Proof.
  intros Hk Hm. unfold CMS1500ToHL7Converter.decodeLine.
  rewrite split_head_tail. by rewrite !lookup_assign_ne.
Qed.

Lemma pdf_decode_after (after : list string)
    (out : gmap string (gmap string string)) (k : string)
    (m : gmap string string) :
  Forall (λ l, lineType l ≠ k) after → out !! k = Some m →
  foldl CMS1500ToHL7Converter.decodeLine out after !! k = Some m.
Proof.
  intros H. revert out. induction H as [|l after Hl _ IH]; intros out Hm; [done|].
  simpl. apply IH. by apply pdf_decodeLine_other.
Qed.

(** X4.  In the decoder of src/CMSConverter.tsx a line of a segment type
    the switch knows is decoded to a field map that holds exactly the fixed
    canonical names of the type, each bound to the wire field at its index,
    or to the empty string when that field is absent or empty; the decoded
    record holds this map under the key of the line unless a later line
    takes the same key. *)
Theorem switch_decoder_full_shape (hl7 : string) (before : list string)
    (line : string) (after : list string) (shape : list (string * nat)) :
  CMSConverter.wireLines hl7 = (before ++ line :: after)%list →
  shapeOf (lineType line) = Some shape →
  Forall (λ l, lineKey l ≠ lineKey line) after →
  ∃ m, CMSConverter.convertHL7ToJson hl7 !! lineKey line = Some m ∧
       dom m = list_to_set shape.*1 ∧
       (∀ name i, (name, i) ∈ shape →
                  m !! name = Some (nthOr (lineFields line) i)) ∧
       (∀ i, lineFields line !! i = None ∨ lineFields line !! i = Some "" →
             nthOr (lineFields line) i = "").
Proof.
  intros Hl Hs Hafter.
  exists (CMSConverter.objectOf (lineFields line) shape).
  destruct (objectOf_shape (lineFields line) shape
              (shapeOf_NoDup (lineType line) shape Hs)) as [Hd Hn].
  split; [|split; [done|split; [done|apply nthOr_absent_or_empty]]].
  unfold CMSConverter.convertHL7ToJson. rewrite Hl, foldl_app. simpl.
  apply cms_decode_after; [done|]. unfold lineKey.
  rewrite (cms_decodeLine_split _ _ _ _ (split_head_tail line))
    by (by eapply shapeOf_key).
  by rewrite (shapeOf_Some _ _ _ Hs).
Qed.

Lemma switch_decoder_full_shape_witness :
  ∃ m, CMSConverter.convertHL7ToJson observationThenPatient !! "OBX1" = Some m ∧
       dom m = list_to_set CMSConverter.obxShape.*1.
Proof.
  destruct (switch_decoder_full_shape observationThenPatient [] "OBX|1|ST"
              ["PID|7"] CMSConverter.obxShape) as (m & H1 & H2 & _).
  - reflexivity.
  - reflexivity.
  - repeat constructor. vm_compute. discriminate.
  - exists m. split; [exact H1|exact H2].
Defined.

(** X5.  The decoder of the PDF page decodes every line of the text, blank
    ones too; a line of a type its switch knows is decoded to a field map
    with exactly the fixed canonical names of the type, each bound to the
    wire field at its index or to the empty string, and the record holds
    this map under the type unless a later line has the same type. *)
Theorem pdf_decoder_full_shape (hl7 : string) (before : list string)
    (line : string) (after : list string) (shape : list (string * nat)) :
  split "010" hl7 = (before ++ line :: after)%list →
  pdfShapeOf (lineType line) = Some shape →
  Forall (λ l, lineType l ≠ lineType line) after →
  ∃ m, CMS1500ToHL7Converter.convertHL7ToJson hl7 !! lineType line = Some m ∧
       dom m = list_to_set shape.*1 ∧
       (∀ name i, (name, i) ∈ shape →
                  m !! name = Some (nthOr (lineFields line) i)).
Proof.
  intros Hl Hs Hafter.
  exists (CMSConverter.objectOf (lineFields line) shape).
  destruct (objectOf_shape (lineFields line) shape
              (pdfShapeOf_NoDup (lineType line) shape Hs)) as [Hd Hn].
  split; [|done].
  unfold CMS1500ToHL7Converter.convertHL7ToJson. rewrite Hl, foldl_app. simpl.
  apply pdf_decode_after; [done|].
  unfold CMS1500ToHL7Converter.decodeLine at 1.
  rewrite split_head_tail, lookup_assign_eq by (by eapply pdfShapeOf_key).
  unfold CMS1500ToHL7Converter.segmentObjectOf.
  unfold pdfShapeOf in Hs. by rewrite Hs.
Qed.

Lemma pdf_decoder_full_shape_witness :
  ∃ m, CMS1500ToHL7Converter.convertHL7ToJson "DG1|1||J45" !! "DG1" = Some m ∧
       m !! "diagnosisCode" = Some "J45".
Proof.
  destruct (pdf_decoder_full_shape "DG1|1||J45" [] "DG1|1||J45" []
              [ ("setId", 0); ("diagnosisCode", 2); ("diagnosisDescription", 3);
                ("codingMethod", 4) ]%nat) as (m & H1 & _ & H3).
  - reflexivity.
  - reflexivity.
  - constructor.
  - exists m. split; [exact H1|].
    apply (H3 "diagnosisCode" 2%nat). apply list_elem_of_further, list_elem_of_here.
Defined.

End SwitchDecoders.

(** ** Edge behaviour of the decoders *)
Section DecoderEdges.
Import JS Common Spec Examples.

Lemma dropWhiteSpace_all (l : list ascii) :
  forallb isWhiteSpace l = true → dropWhiteSpace l = [].
Proof.
  induction l as [|c l IH]; [done|]. simpl.
  intros [Hc Hl]%andb_prop. rewrite Hc. by apply IH.
Qed.

Lemma trim_all_whitespace (s : string) :
  forallb isWhiteSpace (chars s) = true → trim s = "".
Proof. intros H. unfold trim. rewrite (dropWhiteSpace_all (chars s)) by done. reflexivity. Qed.

(** The pieces of a text made of white space are made of white space. *)
Lemma split_all_whitespace (sep : ascii) (s : string) :
  forallb isWhiteSpace (chars s) = true →
  Forall (λ l, forallb isWhiteSpace (chars l) = true) (split sep s).
Proof.
  induction s as [|c s IH]; [by repeat constructor|].
  rewrite chars_cons. simpl. intros [Hc Hs]%andb_prop.
  specialize (IH Hs). destruct (Ascii.eqb c sep); [by constructor|].
  destruct (split sep s) as [|cur more]; [by repeat constructor; simpl; rewrite Hc|].
  apply Forall_cons in IH as [Hcur Hmore]. constructor; [|done].
  rewrite chars_cons. simpl. by rewrite Hc, Hcur.
Qed.

Lemma filter_blank_lines (lines : list string) :
  Forall (λ l, forallb isWhiteSpace (chars l) = true) lines →
  filter (λ line, truthy (trim line) = true) lines = [].
Proof.
  induction 1 as [|l lines Hl _ IH]; [done|].
  rewrite filter_cons_False; [done|]. by rewrite trim_all_whitespace.
Qed.

(** X6.  A wire text made of white space only, the empty text included,
    decodes to the empty record in the two decoders that discard blank
    lines. *)
Theorem blank_text_decodes_to_empty_record
    (table : gmap string (gmap string string)) (hl7 : string) :
  forallb isWhiteSpace (chars hl7) = true →
  DynamicConverter.convertHL7ToJsonWith table hl7 = ∅ ∧
  CMSConverter.convertHL7ToJson hl7 = ∅.
Proof.
  intros H.
  unfold DynamicConverter.convertHL7ToJsonWith, DynamicConverter.wireLines,
    CMSConverter.convertHL7ToJson, CMSConverter.wireLines.
  by rewrite (filter_blank_lines _ (split_all_whitespace "010" hl7 H)).
Qed.

Lemma blank_text_decodes_to_empty_record_witness :
  DynamicConverter.convertHL7ToJsonWith DynamicConverter.segmentFieldMappings
    (String "010" " ") = ∅.
Proof.
  apply (blank_text_decodes_to_empty_record DynamicConverter.segmentFieldMappings
           (String "010" " ")).
  reflexivity.
Defined.

Lemma split_snoc_sep (sep : ascii) (s : string) :
  split sep (s ++ String sep "") = (split sep s ++ [""])%list.
Proof.
  induction s as [|c s IH].
  - rewrite str_app_nil_l. simpl. by rewrite Ascii.eqb_refl.
  - rewrite str_app_cons. simpl. rewrite IH.
    destruct (Ascii.eqb c sep); [done|].
    pose proof (split_not_nil sep s). by destruct (split sep s).
Qed.

(** X7.  The decoder of the PDF page does not discard blank lines: a text
    that ends with a line break, like the empty text, is decoded with one
    more segment, keyed by the empty string and holding no field. *)
Theorem pdf_decoder_trailing_line_break (hl7 : string) :
  CMS1500ToHL7Converter.convertHL7ToJson (hl7 ++ String "010" "") !! "" = Some ∅ ∧
  CMS1500ToHL7Converter.convertHL7ToJson "" = {[ "" := ∅ ]}.
Proof.
  split; [|compute_done].
  unfold CMS1500ToHL7Converter.convertHL7ToJson.
  rewrite split_snoc_sep, foldl_app. simpl.
  unfold CMS1500ToHL7Converter.decodeLine. rewrite split_head_tail.
  change (lineType "") with "". rewrite lookup_assign_eq by discriminate.
  compute_done.
Qed.

(** X8.  A bare type token, a line without separator, is decoded without
    error by the table-driven decoder, whatever the mapping table: to an
    empty field map under the token, unless the token is [__proto__], which
    replaces the prototype of the record and adds no entry. *)
Theorem dynamic_decoder_bare_token (table : gmap string (gmap string string))
    (t : string) :
  freeOf "|" t = true → freeOf "010" t = true → truthy (trim t) = true →
  (t ≠ "__proto__" →
   DynamicConverter.convertHL7ToJsonWith table t = {[ t := ∅ ]} ∧
   ∀ out, DynamicConverter.decodeLine table out t = <[t := ∅]> out) ∧
  (t = "__proto__" →
   DynamicConverter.convertHL7ToJsonWith table t = ∅ ∧
   ∀ out, DynamicConverter.decodeLine table out t = out).
Proof.
  intros Hf Hn Ht.
  assert (Hc : DynamicConverter.convertHL7ToJsonWith table t = assign t ∅ ∅).
  { unfold DynamicConverter.convertHL7ToJsonWith.
    rewrite dyn_wireLines_bare by done. simpl. by apply dyn_decodeLine_bare. }
  split.
  - intros Hp. split.
    + by rewrite Hc, assign_other, insert_empty.
    + intros out. by rewrite dyn_decodeLine_bare, assign_other.
  - intros ->. split; [exact Hc|]. intros out. by apply dyn_decodeLine_bare.
Qed.

Lemma dynamic_decoder_bare_token_witness :
  DynamicConverter.convertHL7ToJsonWith DynamicConverter.segmentFieldMappings "PV1"
  = {[ "PV1" := ∅ ]}.
Proof.
  destruct (dynamic_decoder_bare_token DynamicConverter.segmentFieldMappings "PV1")
    as [H _]; [reflexivity..|].
  destruct H as [H _]; [discriminate|exact H].
Defined.

(** X9.  In the decoder of src/CMSConverter.tsx a bare type token of a type
    the switch knows is decoded to the map of all the canonical names of
    the type, each bound to the empty string, not to an empty map; a bare
    token of any other type is decoded to an empty map, unless it is
    [__proto__], which replaces the prototype of the record and adds no
    entry. *)
Theorem switch_decoder_bare_token (out : gmap string (gmap string string))
    (t : string) :
  freeOf "|" t = true →
  (∀ shape, shapeOf t = Some shape →
     CMSConverter.decodeLine out t !! t = Some (allEmpty shape) ∧
     dom (allEmpty shape) = list_to_set shape.*1 ∧
     ∀ name v, allEmpty shape !! name = Some v → v = "") ∧
  (shapeOf t = None → t ≠ "__proto__" →
   CMSConverter.decodeLine out t = <[t := ∅]> out) ∧
  (t = "__proto__" → CMSConverter.decodeLine out t = out).
Proof.
  intros Hf. split; [|split].
  - intros shape Hs. split; [|split; [|apply allEmpty_values]].
    + pose proof (cms_decodeLine_split out t t [] (split_free _ _ Hf)
                    (shapeOf_key _ _ _ Hs)) as H.
      rewrite segmentKeyOf_bare in H. rewrite H.
      by rewrite (shapeOf_Some _ _ _ Hs), objectOf_nil.
    + unfold allEmpty. rewrite dom_list_to_map_L. f_equal.
      rewrite <- list_fmap_compose. apply list_fmap_ext. by intros ? [??] _.
  - intros Hs Hp. by rewrite cms_decodeLine_bare_unknown, assign_other.
  - intros ->. by rewrite cms_decodeLine_bare_unknown.
Qed.

Lemma switch_decoder_bare_token_witness :
  CMSConverter.decodeLine ∅ "PV1" !! "PV1"
  = Some (allEmpty [ ("setId", 0); ("patientClass", 1); ("attendingDoctor", 6);
                     ("providerPhoneNumber", 18) ]%nat).
Proof.
  destruct (switch_decoder_bare_token ∅ "PV1" eq_refl) as [H _].
  destruct (H [ ("setId", 0); ("patientClass", 1); ("attendingDoctor", 6);
                ("providerPhoneNumber", 18) ]%nat eq_refl) as [H1 _].
  exact H1.
Defined.

(** A line of type [__proto__] leaves the entries of the record as they
    were, in the two switch-driven decoders. *)
Lemma cms_decodeLine_proto (out : gmap string (gmap string string)) (line : string) :
  lineType line = "__proto__" → CMSConverter.decodeLine out line = out.
Proof.
  intros Ht. unfold CMSConverter.decodeLine. rewrite split_head_tail, Ht.
  change (CMSConverter.segmentKeyOf "__proto__" (lineFields line))
    with "__proto__".
  rewrite !assign_proto. by destruct (out !! "__proto__").
Qed.

Lemma pdf_decodeLine_proto (out : gmap string (gmap string string)) (line : string) :
  lineType line = "__proto__" → CMS1500ToHL7Converter.decodeLine out line = out.
Proof.
  intros Ht. unfold CMS1500ToHL7Converter.decodeLine.
  by rewrite split_head_tail, Ht.
Qed.

(** X10.  For a segment type their switch does not know, the two
    switch-driven decoders store every field with its raw value under the
    generic name made of its 0-based array index, one less than its wire
    position; the object is stored under the type, unless the type is
    [__proto__]: such a line replaces the prototype of the record and
    leaves its entries as they were. *)
Theorem switch_decoders_unknown_type_names
    (out : gmap string (gmap string string)) (line : string) :
  (shapeOf (lineType line) = None → lineType line ≠ "__proto__" →
   ∃ m, CMSConverter.decodeLine out line !! lineType line = Some m ∧
        ∀ i, m !! fieldName i = lineFields line !! i) ∧
  (pdfShapeOf (lineType line) = None → lineType line ≠ "__proto__" →
   ∃ m, CMS1500ToHL7Converter.decodeLine out line !! lineType line = Some m ∧
        ∀ i, m !! fieldName i = lineFields line !! i) ∧
  (lineType line = "__proto__" →
   CMSConverter.decodeLine out line = out ∧
   CMS1500ToHL7Converter.decodeLine out line = out).
Proof.
  split; [|split].
  - intros Hs Hp. exists (CMSConverter.genericObject (lineFields line)).
    split; [|apply genericObject_lookup].
    destruct (shapeOf_None _ (lineFields line) Hs) as [Hk Ho].
    pose proof (cms_decodeLine_split out line _ _ (split_head_tail line)) as H.
    rewrite Hk, Ho in H. by apply H.
  - intros Hs Hp. exists (CMSConverter.genericObject (lineFields line)).
    split; [|apply genericObject_lookup].
    unfold CMS1500ToHL7Converter.decodeLine.
    rewrite split_head_tail, lookup_assign_eq by done.
    unfold CMS1500ToHL7Converter.segmentObjectOf.
    unfold pdfShapeOf in Hs. by rewrite Hs.
  - intros Ht. split; [by apply cms_decodeLine_proto|by apply pdf_decodeLine_proto].
Qed.

Lemma cms_segmentKeyOf_OBX (fields : list string) :
  CMSConverter.segmentKeyOf "OBX" fields
  = "OBX" ++ (if bool_decide (orElse (default "" (fields !! 0%nat)) "0" = "0")
              then "" else default "" (fields !! 0%nat)).
Proof.
  unfold CMSConverter.segmentKeyOf. simpl.
  case_bool_decide as H; [done|]. f_equal.
  by destruct (default "" (fields !! 0%nat)).
Qed.

(** X11.  In the decoder of src/CMSConverter.tsx an observation line whose
    set identifier is absent, empty or 0 is stored under OBX, and any other
    one under OBX followed by its set identifier; decoding the latter also
    leaves an entry OBX without fields in the record when there was none. *)
Theorem switch_decoder_observation_keys
    (out : gmap string (gmap string string)) (line : string) :
  lineType line = "OBX" →
  (default "" (lineFields line !! 0%nat) = "" ∨
   default "" (lineFields line !! 0%nat) = "0" → lineKey line = "OBX") ∧
  (default "" (lineFields line !! 0%nat) ≠ "" →
   default "" (lineFields line !! 0%nat) ≠ "0" →
   lineKey line = "OBX" ++ default "" (lineFields line !! 0%nat) ∧
   lineKey line ≠ "OBX" ∧
   (out !! "OBX" = None → CMSConverter.decodeLine out line !! "OBX" = Some ∅)).
Proof.
  intros Ht. unfold lineKey. rewrite Ht, cms_segmentKeyOf_OBX. split.
  - by intros [-> | ->].
  - intros H1 H2.
    assert (Hk : orElse (default "" (lineFields line !! 0%nat)) "0" ≠ "0").
    { by destruct (default "" (lineFields line !! 0%nat)). }
    rewrite bool_decide_eq_false_2 by done.
    assert (Hne : "OBX" ++ default "" (lineFields line !! 0%nat) ≠ "OBX").
    { intros E. apply H1. change "OBX" with ("OBX" ++ "") in E at 2.
      by apply (inj (String.app "OBX")) in E. }
    split; [done|]. split; [done|].
    intros Ho. unfold CMSConverter.decodeLine.
    rewrite split_head_tail, Ht, Ho, cms_segmentKeyOf_OBX.
    rewrite bool_decide_eq_false_2 by done.
    rewrite lookup_assign_ne by done. by rewrite lookup_assign_eq.
Qed.

Lemma switch_decoder_observation_keys_witness :
  CMSConverter.decodeLine ∅ "OBX|3|ST" !! "OBX" = Some ∅.
Proof.
  destruct (switch_decoder_observation_keys ∅ "OBX|3|ST" eq_refl) as [_ H].
  destruct H as (_ & _ & H); [vm_compute; discriminate..|].
  apply H. reflexivity.
Defined.

End DecoderEdges.

(** ** The encoder of the converter page *)
Section DynamicEncoder.
Import JS Common Spec Examples.

Lemma forallb_trimTrailing (P : string → bool) (fields : list string) :
  forallb P fields = true → forallb P (trimTrailing fields) = true.
Proof.
  destruct (trimTrailing_spec fields) as ([k Hk] & _ & _).
  rewrite Hk at 1. rewrite forallb_app. by intros [? _]%andb_prop.
Qed.

(** A populated slot survives the trimming. *)
Lemma trimTrailing_lookup (fields : list string) (i : nat) (v : string) :
  fields !! i = Some v → v ≠ "" → trimTrailing fields !! i = Some v.
Proof.
  destruct (trimTrailing_spec fields) as ([k Hk] & _ & _).
  intros Hi Hv. rewrite Hk in Hi.
  destruct (decide (i < length (trimTrailing fields))%nat) as [Hlt|Hge].
  - by rewrite lookup_app_l in Hi.
  - rewrite lookup_app_r in Hi by lia.
    apply lookup_replicate in Hi as [-> _]. done.
Qed.

(** Trimming does not change what [a[i] || ""] reads. *)
Lemma nthOr_trimTrailing (fields : list string) (i : nat) :
  nthOr (trimTrailing fields) i = nthOr fields i.
Proof.
  destruct (trimTrailing_spec fields) as ([k Hk] & _ & _).
  unfold nthOr. rewrite Hk at 2.
  destruct (decide (i < length (trimTrailing fields))%nat) as [Hlt|Hge].
  - by rewrite lookup_app_l.
  - rewrite (lookup_ge_None_2 (trimTrailing fields)) by lia.
    rewrite lookup_app_r by lia.
    destruct (replicate k "" !! (i - length (trimTrailing fields))%nat) eqn:E;
      [|done].
    by apply lookup_replicate in E as [-> _].
Qed.

(** X12.  Splitting an emitted line on the separator gives back the type
    token and the fields without their trailing empty ones, provided the
    token and the fields hold no separator: the line loses nothing but
    trailing empties. *)
Theorem createSegment_splits_back (segmentName : string) (fields : list string) :
  freeOf "|" segmentName = true → forallb (freeOf "|") fields = true →
  split "|" (createSegment segmentName fields) = segmentName :: trimTrailing fields ∧
  ∀ i, nthOr (trimTrailing fields) i = nthOr fields i.
Proof.
  intros Hn Hf. split; [|apply nthOr_trimTrailing].
  unfold createSegment. apply split_join; [done|].
  simpl. rewrite Hn. by apply forallb_trimTrailing.
Qed.

Lemma createSegment_splits_back_witness :
  split "|" (createSegment "PID" ["1"; ""; "X"; ""; ""]) = ["PID"; "1"; ""; "X"].
Proof.
  destruct (createSegment_splits_back "PID" ["1"; ""; "X"; ""; ""] eq_refl eq_refl)
    as [H _].
  exact H.
Defined.

Lemma foldl_slots (segmentData : gmap string string)
    (fields : list DynamicConverter.FieldDef) (init : list string) :
  (∀ f, f ∈ fields → (DynamicConverter.index f < length init)%nat) →
  NoDup (DynamicConverter.index <$> fields) →
  let slots := foldl (λ segmentFields f,
                        <[DynamicConverter.index f := encodedValue segmentData f]>
                          segmentFields) init fields in
  length slots = length init ∧
  (∀ f, f ∈ fields → slots !! DynamicConverter.index f
                     = Some (encodedValue segmentData f)) ∧
  (∀ i, i ∉ (DynamicConverter.index <$> fields) → slots !! i = init !! i).
Proof.
  revert init. induction fields as [|f0 fields IH]; intros init Hlt Hnd; simpl.
  { split; [done|]. split; [|done]. intros f Hf. by apply elem_of_nil in Hf. }
  apply NoDup_cons in Hnd as [Hf0 Hnd].
  destruct (IH (<[DynamicConverter.index f0 := encodedValue segmentData f0]> init))
    as (Hlen & Hin & Hout); [|done|].
  { intros f Hf. rewrite length_insert. apply Hlt. by right. }
  rewrite length_insert in Hlen. split; [done|]. split.
  - intros f [->|Hf]%elem_of_cons; [|by apply Hin].
    rewrite Hout by done. apply list_lookup_insert_eq. apply Hlt. by left.
  - intros i Hi. apply not_elem_of_cons in Hi as [Hne Hi].
    rewrite Hout by done. by apply list_lookup_insert_ne.
Qed.

Lemma segmentFieldsOf_slots (segmentData : gmap string string)
    (fields : list DynamicConverter.FieldDef) :
  NoDup (DynamicConverter.index <$> fields) →
  length (DynamicConverter.segmentFieldsOf segmentData fields)
    = S (max_list (DynamicConverter.index <$> fields)) ∧
  (∀ f, f ∈ fields →
        DynamicConverter.segmentFieldsOf segmentData fields
          !! DynamicConverter.index f = Some (encodedValue segmentData f)) ∧
  (∀ i, (i ≤ max_list (DynamicConverter.index <$> fields))%nat →
        i ∉ (DynamicConverter.index <$> fields) →
        DynamicConverter.segmentFieldsOf segmentData fields !! i = Some "").
Proof.
  intros Hnd.
  destruct (foldl_slots segmentData fields
              (replicate (S (max_list (DynamicConverter.index <$> fields))) ""))
    as (Hlen & Hin & Hout); [|done|].
  { intros f Hf. rewrite length_replicate.
    assert (DynamicConverter.index f ≤ max_list (DynamicConverter.index <$> fields))%nat;
      [|lia].
    apply max_list_elem_of_le, list_elem_of_fmap. by exists f. }
  rewrite length_replicate in Hlen.
  split; [exact Hlen|]. split; [exact Hin|].
  intros i Hi Hni. etrans; [exact (Hout i Hni)|].
  apply lookup_replicate. split; [done|lia].
Qed.

(** What the tables of the encoder satisfy: in each definition the indexes
    are pairwise distinct and none is 0; the type is not OBX and holds no
    separator; and the decoder's name for the wire position that follows
    index [i] is never the name of the field placed at index [i]. *)
Lemma segmentDefinitions_facts (segmentName : string)
    (fields : list DynamicConverter.FieldDef) :
  (segmentName, fields) ∈ DynamicConverter.segmentDefinitions →
  NoDup (DynamicConverter.index <$> fields) ∧
  (0%nat ∉ (DynamicConverter.index <$> fields)) ∧
  segmentName ≠ "OBX" ∧ freeOf "|" segmentName = true ∧
  ∀ f, f ∈ fields →
       DynamicConverter.fieldKeyOf
         (default ∅ (DynamicConverter.segmentFieldMappings !! segmentName))
         (DynamicConverter.index f)
       ≠ DynamicConverter.field f.
Proof.
  intros Hin.
  assert (Hall : forallb (λ '(name, fs),
      bool_decide (NoDup (DynamicConverter.index <$> fs))
      && bool_decide (0%nat ∉ (DynamicConverter.index <$> fs))
      && bool_decide (name ≠ "OBX") && freeOf "|" name
      && forallb (λ f, bool_decide
           (DynamicConverter.fieldKeyOf
              (default ∅ (DynamicConverter.segmentFieldMappings !! name))
              (DynamicConverter.index f) ≠ DynamicConverter.field f)) fs)
    DynamicConverter.segmentDefinitions = true) by (vm_compute; reflexivity).
  rewrite forallb_forall in Hall.
  apply list_elem_of_In, Hall in Hin. clear Hall.
  apply andb_prop in Hin as [[[[H1 H2]%andb_prop H3]%andb_prop H4]%andb_prop H5].
  apply bool_decide_eq_true_1 in H1, H2, H3.
  repeat split; try done.
  intros f Hf. rewrite forallb_forall in H5.
  apply list_elem_of_In, H5 in Hf. by apply bool_decide_eq_true_1 in Hf.
Qed.

(** X13.  In the encoder of the converter page the value of each field
    definition, after its transform, sits at the array slot of its index;
    slot 0 and every slot no definition names are empty, and the array has
    one slot more than the largest index.  The type token is joined in
    front of slot 0, so a field with index i is emitted at wire position
    i + 1. *)
Theorem defined_segment_slots (segmentName : string)
    (fields : list DynamicConverter.FieldDef)
    (segmentData : gmap string string) :
  (segmentName, fields) ∈ DynamicConverter.segmentDefinitions →
  length (DynamicConverter.segmentFieldsOf segmentData fields)
    = S (max_list (DynamicConverter.index <$> fields)) ∧
  DynamicConverter.segmentFieldsOf segmentData fields !! 0%nat = Some "" ∧
  (∀ f, f ∈ fields →
        DynamicConverter.segmentFieldsOf segmentData fields
          !! DynamicConverter.index f = Some (encodedValue segmentData f)) ∧
  (∀ i, (i ≤ max_list (DynamicConverter.index <$> fields))%nat →
        i ∉ (DynamicConverter.index <$> fields) →
        DynamicConverter.segmentFieldsOf segmentData fields !! i = Some "").
Proof.
  intros (Hnd & H0 & _)%segmentDefinitions_facts.
  destruct (segmentFieldsOf_slots segmentData fields Hnd) as (Hlen & Hin & Hout).
  split; [done|]. split; [|by split].
  apply Hout; [lia|done].
Qed.

Lemma defined_segment_slots_witness :
  DynamicConverter.segmentFieldsOf {[ "setId" := "1" ]}
    [ DynamicConverter.plain "setId" 1; DynamicConverter.plain "procedureCode" 3;
      DynamicConverter.plain "procedureDescription" 4;
      DynamicConverter.dated "procedureDate" 5;
      DynamicConverter.plain "providerName" 11 ] !! 0%nat = Some "".
Proof.
  destruct (defined_segment_slots "PR1"
    [ DynamicConverter.plain "setId" 1; DynamicConverter.plain "procedureCode" 3;
      DynamicConverter.plain "procedureDescription" 4;
      DynamicConverter.dated "procedureDate" 5;
      DynamicConverter.plain "providerName" 11 ] {[ "setId" := "1" ]})
    as (_ & H & _).
  - do 3 apply list_elem_of_further. apply list_elem_of_here.
  - exact H.
Defined.

End DynamicEncoder.

(** ** From the encoder to the decoder: the lines survive the wire *)
Section WireFacts.
Import JS Common Spec Examples.

Lemma allDigits_freeOf (c : ascii) (s : string) :
  isDigit c = false → allDigits s = true → freeOf c s = true.
Proof.
  intros Hc. unfold allDigits, freeOf.
  induction (chars s) as [|x l IH]; [done|]. simpl.
  intros [Hx Hl]%andb_prop. rewrite IH by done. rewrite andb_true_r.
  apply negb_true_iff, Ascii.eqb_neq. intros ->. congruence.
Qed.

Lemma formatDate_freeOf (c : ascii) (s : string) :
  isDigit c = false → freeOf c (formatDate s) = true.
Proof.
  intros Hc. destruct (formatDate_range s) as [-> | H]; [done|].
  apply allDigits_freeOf; [done|].
  unfold eightDigits in H. by apply andb_prop in H as [_ ?].
Qed.

Lemma getOr_freeOf (c : ascii) (m : gmap string string) (k : string) :
  valuesFreeOf c m = true → freeOf c (getOr m k) = true.
Proof.
  intros H. rewrite getOr_lookup. destruct (m !! k) as [v|] eqn:E; [|done].
  unfold valuesFreeOf in H. rewrite forallb_forall in H.
  by apply elem_of_map_to_list, list_elem_of_In, H in E.
Qed.

(** The transforms of the table are the date normalizer. *)
Lemma segmentDefinitions_transform (segmentName : string)
    (fields : list DynamicConverter.FieldDef) (f : DynamicConverter.FieldDef) :
  (segmentName, fields) ∈ DynamicConverter.segmentDefinitions → f ∈ fields →
  DynamicConverter.transform f = None ∨
  DynamicConverter.transform f = Some formatDate.
Proof.
  unfold DynamicConverter.segmentDefinitions. intros Hin Hf.
  repeat (apply elem_of_cons in Hin as [Hin|Hin];
          [injection Hin as -> ->;
           repeat (apply elem_of_cons in Hf as [->|Hf]; [by eauto|]);
           by apply elem_of_nil in Hf|]).
  by apply elem_of_nil in Hin.
Qed.

Lemma encodedValue_freeOf (c : ascii) (segmentName : string)
    (fields : list DynamicConverter.FieldDef) (f : DynamicConverter.FieldDef)
    (segmentData : gmap string string) :
  (segmentName, fields) ∈ DynamicConverter.segmentDefinitions → f ∈ fields →
  isDigit c = false → valuesFreeOf c segmentData = true →
  freeOf c (encodedValue segmentData f) = true.
Proof.
  intros Hin Hf Hc Hv. unfold encodedValue.
  destruct (segmentDefinitions_transform _ _ _ Hin Hf) as [-> | ->].
  - by apply getOr_freeOf.
  - by apply formatDate_freeOf.
Qed.

Lemma foldl_slots_Forall (P : string → Prop) (segmentData : gmap string string)
    (fields : list DynamicConverter.FieldDef) (init : list string) :
  Forall P init → (∀ f, f ∈ fields → P (encodedValue segmentData f)) →
  Forall P (foldl (λ segmentFields f,
                     <[DynamicConverter.index f := encodedValue segmentData f]>
                       segmentFields) init fields).
Proof.
  revert init. induction fields as [|f0 fields IH]; intros init Hi Hf; [done|].
  simpl. apply IH.
  - apply Forall_insert; [done|]. apply Hf. by left.
  - intros f ?. apply Hf. by right.
Qed.

Lemma segmentFieldsOf_freeOf (c : ascii) (segmentName : string)
    (fields : list DynamicConverter.FieldDef) (segmentData : gmap string string) :
  (segmentName, fields) ∈ DynamicConverter.segmentDefinitions →
  isDigit c = false → valuesFreeOf c segmentData = true →
  forallb (freeOf c) (DynamicConverter.segmentFieldsOf segmentData fields) = true.
Proof.
  intros Hin Hc Hv. apply forallb_forall. intros x Hx%list_elem_of_In.
  revert x Hx. apply Forall_forall.
  apply (foldl_slots_Forall (λ x, freeOf c x = true) segmentData fields).
  - apply Forall_forall. by intros x [-> _]%elem_of_replicate.
  - intros f Hf. by eapply encodedValue_freeOf.
Qed.

Lemma createSegment_freeOf (c : ascii) (segmentName : string)
    (fields : list string) :
  freeOf c "|" = true → freeOf c segmentName = true →
  forallb (freeOf c) fields = true →
  freeOf c (createSegment segmentName fields) = true.
Proof.
  intros Hs Hn Hf. unfold createSegment. apply freeOf_join; [done|].
  simpl. rewrite Hn. by apply forallb_trimTrailing.
Qed.

(** An emitted line starts with the first character of its type token. *)
Lemma createSegment_head (c : ascii) (n : string) (fields : list string) :
  ∃ rest, createSegment (String c n) fields = String c rest.
Proof.
  unfold createSegment. destruct (trimTrailing fields) as [|x l].
  - by exists n.
  - exists (n ++ "|" ++ join "|" (x :: l)). reflexivity.
Qed.

Lemma createSegment_truthy (c : ascii) (n : string) (fields : list string) :
  isWhiteSpace c = false → truthy (trim (createSegment (String c n) fields)) = true.
Proof.
  intros Hc. destruct (createSegment_head c n fields) as [rest ->].
  by apply trim_truthy_head.
Qed.

Lemma filter_all {A} (P : A → Prop) `{∀ x, Decision (P x)} (l : list A) :
  Forall P l → filter P l = l.
Proof.
  induction 1 as [|x l Hx _ IH]; [done|].
  by rewrite filter_cons_True, IH.
Qed.

(** Lines without line break that are not blank come back from the text
    they are joined into. *)
Lemma wireLines_join (lines : list string) :
  forallb (freeOf "010") lines = true →
  forallb (λ l, truthy (trim l)) lines = true →
  DynamicConverter.wireLines (join (String "010" "") lines) = lines.
Proof.
  intros Hf Ht. unfold DynamicConverter.wireLines.
  destruct lines as [|l lines]; [done|].
  rewrite split_join by done. apply filter_all.
  rewrite forallb_forall in Ht. apply Forall_forall.
  intros x Hx%list_elem_of_In. by apply Ht.
Qed.

End WireFacts.

(** ** Encoding a record and decoding it again, on the converter page *)
Section RecordFacts.
Import JS Common Spec Examples.
Context (localeCompare : string → string → Z).

Lemma recordSafe_get (data : Json) (k : string) (m : gmap string string) (c : ascii) :
  recordSafe data = true → objGet data k = Some m →
  c = "|"%char ∨ c = "010"%char → valuesFreeOf c m = true.
Proof.
  intros Hs Hg Hc. unfold recordSafe in Hs. rewrite forallb_forall in Hs.
  unfold objGet in Hg.
  apply elem_of_list_to_map_2, list_elem_of_In, Hs in Hg.
  apply andb_prop in Hg as [H1 H2]. by destruct Hc as [-> | ->].
Qed.

Lemma valuesFreeOf_empty (c : ascii) : valuesFreeOf c ∅ = true.
Proof. unfold valuesFreeOf. by rewrite map_to_list_empty. Qed.

Lemma recordSafe_default (data : Json) (k : string) (c : ascii) :
  recordSafe data = true → c = "|"%char ∨ c = "010"%char →
  valuesFreeOf c (default ∅ (objGet data k)) = true.
Proof.
  intros Hs Hc. destruct (objGet data k) as [m|] eqn:E; simpl.
  - by eapply recordSafe_get.
  - apply valuesFreeOf_empty.
Qed.

Lemma obxFields_freeOf (c : ascii) (m : gmap string string) :
  valuesFreeOf c m = true → forallb (freeOf c) (obxFields m) = true.
Proof.
  intros H. unfold obxFields. simpl. by rewrite !getOr_freeOf.
Qed.

(** The names of the encoder's table, and what they share. *)
Lemma segmentDefinitions_names (segmentName : string)
    (fields : list DynamicConverter.FieldDef) :
  (segmentName, fields) ∈ DynamicConverter.segmentDefinitions →
  startsWith "OBX" segmentName = false ∧ freeOf "010" segmentName = true ∧
  ∃ c n, segmentName = String c n ∧ isWhiteSpace c = false.
Proof.
  intros Hin.
  assert (Hall : forallb (λ name,
      negb (startsWith "OBX" name) && freeOf "010" name
      && match name with String c _ => negb (isWhiteSpace c) | _ => false end)
    DynamicConverter.segmentDefinitions.*1 = true) by (vm_compute; reflexivity).
  rewrite forallb_forall in Hall.
  assert (Hn : segmentName ∈ DynamicConverter.segmentDefinitions.*1).
  { apply list_elem_of_fmap. by exists (segmentName, fields). }
  apply list_elem_of_In, Hall in Hn. clear Hall.
  apply andb_prop in Hn as [[H1 H2]%andb_prop H3].
  apply negb_true_iff in H1. split; [done|]. split; [done|].
  destruct segmentName as [|c n]; [done|]. exists c, n.
  by apply negb_true_iff in H3.
Qed.

Lemma segmentDefinitions_not_proto (segmentName : string)
    (fields : list DynamicConverter.FieldDef) :
  (segmentName, fields) ∈ DynamicConverter.segmentDefinitions →
  segmentName ≠ "__proto__".
Proof.
  intros Hin.
  assert (Hall : Forall (λ name, name ≠ "__proto__")
                   DynamicConverter.segmentDefinitions.*1) by compute_done.
  rewrite Forall_forall in Hall. apply Hall.
  apply list_elem_of_fmap. by exists (segmentName, fields).
Qed.

(** A line of a defined segment, as the decoder splits it. *)
Lemma definedLine_split (data : Json) (segmentName : string)
    (fields : list DynamicConverter.FieldDef) (segmentData : gmap string string) :
  (segmentName, fields) ∈ DynamicConverter.segmentDefinitions →
  valuesFreeOf "|" segmentData = true →
  split "|" (createSegment segmentName
               (DynamicConverter.segmentFieldsOf segmentData fields))
  = segmentName :: trimTrailing (DynamicConverter.segmentFieldsOf segmentData fields).
Proof.
  intros Hin Hv.
  destruct (segmentDefinitions_facts _ _ Hin) as (_ & _ & _ & Hn & _).
  unfold createSegment. apply split_join; [done|]. simpl. rewrite Hn.
  apply forallb_trimTrailing. by eapply segmentFieldsOf_freeOf.
Qed.

Lemma lineParts (line t : string) (fs : list string) :
  split "|" line = t :: fs → lineType line = t ∧ lineFields line = fs.
Proof. unfold lineType, lineFields. by intros ->. Qed.

Lemma definedLine_key (data : Json) (segmentName : string)
    (fields : list DynamicConverter.FieldDef) (segmentData : gmap string string) :
  (segmentName, fields) ∈ DynamicConverter.segmentDefinitions →
  valuesFreeOf "|" segmentData = true →
  dynLineKey (createSegment segmentName
                (DynamicConverter.segmentFieldsOf segmentData fields))
  = segmentName.
Proof.
  intros Hin Hv.
  destruct (lineParts _ _ _ (definedLine_split data _ _ _ Hin Hv)) as [Ht Hf].
  destruct (segmentDefinitions_facts _ _ Hin) as (_ & _ & Hne & _ & _).
  unfold dynLineKey, DynamicConverter.segmentKeyOf. rewrite Ht.
  by rewrite bool_decide_eq_false_2.
Qed.

(** An observation line, as the decoder splits it, and its key. *)
Lemma obxLine_split (m : gmap string string) :
  valuesFreeOf "|" m = true →
  split "|" (createSegment "OBX" (obxFields m))
  = "OBX" :: trimTrailing (obxFields m).
Proof.
  intros Hv. unfold createSegment. apply split_join; [done|].
  change (forallb (freeOf "|") ("OBX" :: trimTrailing (obxFields m)))
    with (forallb (freeOf "|") (trimTrailing (obxFields m))).
  apply forallb_trimTrailing. by apply obxFields_freeOf.
Qed.

Lemma obxLine_key (m : gmap string string) :
  valuesFreeOf "|" m = true →
  dynLineKey (createSegment "OBX" (obxFields m)) = "OBX" ++ getOr m "setId".
Proof.
  intros Hv. destruct (lineParts _ _ _ (obxLine_split m Hv)) as [Ht Hf].
  unfold dynLineKey. rewrite Ht, Hf, dyn_segmentKeyOf_OBX.
  unfold obxFields. by rewrite trimTrailing_head.
Qed.

(** Every line of the encoder is the line of a present defined segment or
    of an observation key. *)
Lemma definedSegments_elem (data : Json) (line : string) :
  line ∈ DynamicConverter.definedSegments data →
  ∃ segmentName fields segmentData,
    (segmentName, fields) ∈ DynamicConverter.segmentDefinitions ∧
    objGet data segmentName = Some segmentData ∧
    line = createSegment segmentName
             (DynamicConverter.segmentFieldsOf segmentData fields).
Proof.
  unfold DynamicConverter.definedSegments.
  intros ([name fields] & Hin & H)%list_elem_of_omap.
  destruct (objGet data name) as [m|] eqn:E; simpl in H; [|done].
  injection H as <-. by exists name, fields, m.
Qed.

Lemma obxSegments_elem (data : Json) (line : string) :
  line ∈ obxSegments localeCompare data →
  ∃ k, k ∈ obxKeys localeCompare data ∧
       line = createSegment "OBX" (obxFields (default ∅ (objGet data k))).
Proof.
  unfold obxSegments. intros (k & -> & Hk)%list_elem_of_fmap. by exists k.
Qed.

(** The lines of a safe record come back from the wire text. *)
Lemma encoded_lines (data : Json) :
  recordSafe data = true →
  DynamicConverter.wireLines (DynamicConverter.convertToHL7 localeCompare data)
  = (DynamicConverter.definedSegments data ++ obxSegments localeCompare data)%list.
Proof.
  intros Hs. unfold DynamicConverter.convertToHL7. apply wireLines_join.
  - apply forallb_forall. intros line [Hl|Hl]%list_elem_of_In%elem_of_app.
    + apply definedSegments_elem in Hl as (name & fields & m & Hin & Hg & ->).
      destruct (segmentDefinitions_names _ _ Hin) as (_ & Hn & _).
      apply createSegment_freeOf; [done|done|].
      eapply segmentFieldsOf_freeOf; [done|done|].
      eapply recordSafe_get; eauto.
    + apply obxSegments_elem in Hl as (k & _ & ->).
      apply createSegment_freeOf; [done|done|].
      apply obxFields_freeOf. apply recordSafe_default; auto.
  - apply forallb_forall. intros line [Hl|Hl]%list_elem_of_In%elem_of_app.
    + apply definedSegments_elem in Hl as (name & fields & m & Hin & Hg & ->).
      destruct (segmentDefinitions_names _ _ Hin) as (_ & _ & c & n & -> & Hc).
      by apply createSegment_truthy.
    + apply obxSegments_elem in Hl as (k & _ & ->).
      by apply createSegment_truthy.
Qed.

End RecordFacts.

(** ** Round trips on the converter page *)
Section RoundTrips.
Import JS Common Spec Examples.
Context (localeCompare : string → string → Z).

Lemma startsWith_OBX_app (x : string) : startsWith "OBX" ("OBX" ++ x) = true.
Proof. unfold startsWith. simpl. by destruct x. Qed.

(** The key of every line the encoder emits for an observation starts with
    OBX, so it is not the key of a defined segment. *)
Lemma obx_lines_keys (data : Json) (k : string) :
  recordSafe data = true → startsWith "OBX" k = false →
  Forall (λ l, dynLineKey l ≠ k) (obxSegments localeCompare data).
Proof.
  intros Hs Hk. apply Forall_forall. intros l (k' & _ & ->)%obxSegments_elem.
  rewrite obxLine_key by (apply recordSafe_default; auto).
  intros <-. by rewrite startsWith_OBX_app in Hk.
Qed.

Lemma omap_defined_keys (data : Json) (k : string)
    (defs : list (string * list DynamicConverter.FieldDef)) :
  recordSafe data = true →
  (∀ d, d ∈ defs → d ∈ DynamicConverter.segmentDefinitions) →
  k ∉ defs.*1 →
  Forall (λ l, dynLineKey l ≠ k)
    (omap (λ '(segmentName, fields),
             segmentData ← objGet data segmentName;
             Some (createSegment segmentName
                     (DynamicConverter.segmentFieldsOf segmentData fields)))
          defs).
Proof.
  intros Hs Hsub Hk. apply Forall_forall.
  intros l ([name fields] & Hin & H)%list_elem_of_omap.
  destruct (objGet data name) as [m|] eqn:E; simpl in H; [|done].
  injection H as <-.
  rewrite (definedLine_key data) by (eauto using recordSafe_get).
  intros <-. apply Hk. apply list_elem_of_fmap. by exists (name, fields).
Qed.

(** What the decoded record holds under the type of a defined segment that
    is present in a safe record: the field map of its own line. *)
Lemma defined_segment_decoded (data : Json) (segmentName : string)
    (fields : list DynamicConverter.FieldDef) (segmentData : gmap string string) :
  (segmentName, fields) ∈ DynamicConverter.segmentDefinitions →
  objGet data segmentName = Some segmentData →
  recordSafe data = true →
  DynamicConverter.convertHL7ToJson
    (DynamicConverter.convertToHL7 localeCompare data) !! segmentName
  = Some (DynamicConverter.segmentDataOf
            (default ∅ (DynamicConverter.segmentFieldMappings !! segmentName))
            (trimTrailing (DynamicConverter.segmentFieldsOf segmentData fields))).
Proof.
  intros Hin Hg Hs.
  assert (Hv : valuesFreeOf "|" segmentData = true) by (eauto using recordSafe_get).
  destruct (segmentDefinitions_names _ _ Hin) as (Hobx & _ & _).
  assert (Hnd : NoDup DynamicConverter.segmentDefinitions.*1) by compute_done.
  pose proof Hin as Hsplit.
  apply list_elem_of_split in Hsplit as (d1 & d2 & Hd).
  rewrite Hd, fmap_app, fmap_cons in Hnd.
  apply NoDup_app in Hnd as (_ & _ & Hnd). apply NoDup_cons in Hnd as [Hnot _].
  simpl in Hnot.
  unfold DynamicConverter.convertHL7ToJson, DynamicConverter.convertHL7ToJsonWith.
  rewrite encoded_lines by done.
  unfold DynamicConverter.definedSegments. rewrite Hd, omap_app.
  change (omap ?g ((segmentName, fields) :: d2))
    with (match (m ← objGet data segmentName;
                 Some (createSegment segmentName
                         (DynamicConverter.segmentFieldsOf m fields))) with
          | Some y => y :: omap g d2
          | None => omap g d2
          end).
  rewrite Hg. simpl mbind. cbv iota.
  rewrite <- app_assoc, foldl_app. simpl foldl at 1.
  pose proof (definedLine_key data _ _ _ Hin Hv) as Hkey.
  destruct (lineParts _ _ _ (definedLine_split data _ _ _ Hin Hv)) as [Ht Hf].
  rewrite foldl_app.
  apply dyn_decode_after; [by apply obx_lines_keys|].
  apply dyn_decode_after.
  - apply omap_defined_keys; [done| |done].
    intros d Hd2. rewrite Hd. apply elem_of_app. right. by right.
  - rewrite dyn_decodeLine_eq, Hkey.
    rewrite lookup_assign_eq by (by eapply segmentDefinitions_not_proto).
    unfold dynLineData. by rewrite Ht, Hf.
Qed.

(** X14.  On the converter page, encoding a record and decoding the text
    does not give a field of a defined segment back under its own name: a
    field with index i is emitted at wire position i + 1, where the
    decoder's table has another name or none, so that a value that is not
    empty comes back under the name of the next position, a canonical or a
    generic one. *)
Theorem defined_segment_comes_back_shifted (data : Json) (segmentName : string)
    (fields : list DynamicConverter.FieldDef) (segmentData : gmap string string)
    (f : DynamicConverter.FieldDef) :
  (segmentName, fields) ∈ DynamicConverter.segmentDefinitions → f ∈ fields →
  objGet data segmentName = Some segmentData →
  recordSafe data = true →
  encodedValue segmentData f ≠ "" →
  ∃ m, DynamicConverter.convertHL7ToJson
         (DynamicConverter.convertToHL7 localeCompare data) !! segmentName
       = Some m ∧
       m !! DynamicConverter.fieldKeyOf
              (default ∅ (DynamicConverter.segmentFieldMappings !! segmentName))
              (DynamicConverter.index f)
       = Some (encodedValue segmentData f) ∧
       DynamicConverter.fieldKeyOf
         (default ∅ (DynamicConverter.segmentFieldMappings !! segmentName))
         (DynamicConverter.index f)
       ≠ DynamicConverter.field f.
Proof.
  intros Hin Hf Hg Hs Hv. eexists. split; [by apply defined_segment_decoded|].
  destruct (segmentDefinitions_facts _ _ Hin) as (Hnd & _ & _ & _ & Hne).
  split; [|by apply Hne].
  apply segmentDataOf_lookup; [apply segmentFieldMappings_wellFormed|].
  apply trimTrailing_lookup; [|done].
  by apply segmentFieldsOf_slots.
Qed.

(** *** Observations *)

(** Reading the field map of a line at the key of a position gives the
    field of that position, or the empty string past the end. *)
Lemma segmentDataOf_read (mappings : gmap string string)
    (fields : list string) (i : nat) :
  wellFormedMappings mappings = true →
  default "" (DynamicConverter.segmentDataOf mappings fields
                !! DynamicConverter.fieldKeyOf mappings i)
  = nthOr fields i.
Proof.
  intros Hwf. unfold nthOr. destruct (fields !! i) as [v|] eqn:E.
  - rewrite (segmentDataOf_lookup _ _ _ _ Hwf E). simpl. by rewrite orElse_empty.
  - destruct (DynamicConverter.segmentDataOf mappings fields
                !! DynamicConverter.fieldKeyOf mappings i) as [v|] eqn:E2; [|done].
    apply segmentDataOf_key in E2 as (j & Hj & E2).
    apply fieldKeyOf_inj in E2; [|done]. subst j.
    apply lookup_ge_None in E. lia.
Qed.

Lemma segmentDataOf_other (mappings : gmap string string)
    (fields : list string) (name : string) :
  (∀ i, (i < length fields)%nat → name ≠ DynamicConverter.fieldKeyOf mappings i) →
  DynamicConverter.segmentDataOf mappings fields !! name = None.
Proof.
  intros H. destruct (_ !! name) as [v|] eqn:E; [|done].
  apply segmentDataOf_key in E as (i & Hi & ->). by destruct (H i Hi).
Qed.

Lemma obxKey_at (i : nat) :
  (i < 11)%nat →
  DynamicConverter.fieldKeyOf obxMappings i = default "" (obxKeyNames !! i).
Proof.
  intros Hi. do 11 (destruct i as [|i]; [vm_compute; reflexivity|]). lia.
Qed.

Lemma coveredBy_other (names : list string) (m : gmap string string) (name : string) :
  coveredBy names m = true → name ∉ names → default "" (m !! name) = "".
Proof.
  intros Hc Hn. destruct (m !! name) as [v|] eqn:E; [|done]. simpl.
  unfold coveredBy in Hc. rewrite forallb_forall in Hc.
  apply elem_of_map_to_list, list_elem_of_In, Hc in E.
  apply orb_prop in E as [E|E].
  - by destruct v.
  - by apply bool_decide_eq_true_1 in E.
Qed.

(** What an observation instance reads at the key of each position is the
    field the encoder puts at that position. *)
Lemma obx_position (m : gmap string string) (i : nat) :
  coveredBy obxNames m = true → (i < 11)%nat →
  default "" (m !! DynamicConverter.fieldKeyOf obxMappings i)
  = nthOr (obxFields m) i.
Proof.
  intros Hc Hi. rewrite obxKey_at by done.
  assert (Hg : ∀ n, n ∉ obxNames → default "" (m !! n) = "")
    by (intros; by eapply coveredBy_other).
  assert (Hs : ∀ n, default "" (m !! n) = orElse (getOr m n) "")
    by (intros; by rewrite orElse_empty, getOr_lookup).
  destruct i as [|i]; [exact (Hs "setId")|].
  destruct i as [|i]; [exact (Hs "valueType")|].
  destruct i as [|i]; [exact (Hs "observationIdentifier")|].
  destruct i as [|i]; [apply (Hg "field4"); compute_done|].
  destruct i as [|i]; [exact (Hs "observationValue")|].
  destruct i as [|i]; [apply (Hg "field6"); compute_done|].
  destruct i as [|i]; [apply (Hg "field7"); compute_done|].
  destruct i as [|i]; [apply (Hg "field8"); compute_done|].
  destruct i as [|i]; [apply (Hg "field9"); compute_done|].
  destruct i as [|i]; [apply (Hg "field10"); compute_done|].
  destruct i as [|i]; [exact (Hs "observationStatus")|].
  lia.
Qed.

Lemma obxNames_positions (name : string) :
  name ∈ obxNames →
  ∃ i, (i < 11)%nat ∧ name = DynamicConverter.fieldKeyOf obxMappings i.
Proof.
  unfold obxNames. intros H.
  apply elem_of_cons in H as [->|H];
    [exists 0%nat; split; [lia|vm_compute; reflexivity]|].
  apply elem_of_cons in H as [->|H];
    [exists 1%nat; split; [lia|vm_compute; reflexivity]|].
  apply elem_of_cons in H as [->|H];
    [exists 2%nat; split; [lia|vm_compute; reflexivity]|].
  apply elem_of_cons in H as [->|H];
    [exists 4%nat; split; [lia|vm_compute; reflexivity]|].
  apply elem_of_cons in H as [->|H];
    [exists 10%nat; split; [lia|vm_compute; reflexivity]|].
  by apply elem_of_nil in H.
Qed.

(** The field map decoded from the line of an observation reads like the
    instance itself, absent fields read as empty. *)
Lemma obx_entry (m : gmap string string) (name : string) :
  coveredBy obxNames m = true →
  default "" (DynamicConverter.segmentDataOf obxMappings
                (trimTrailing (obxFields m)) !! name)
  = default "" (m !! name).
Proof.
  intros Hc.
  assert (Hwf : wellFormedMappings obxMappings = true)
    by apply segmentFieldMappings_wellFormed.
  destruct (decide (name ∈ (DynamicConverter.fieldKeyOf obxMappings <$> seq 0 11)))
    as [Hin|Hout].
  - apply list_elem_of_fmap in Hin as (i & -> & Hi).
    apply elem_of_seq in Hi as [_ Hi]. simpl in Hi.
    by rewrite segmentDataOf_read, nthOr_trimTrailing, obx_position.
  - assert (Hno : ¬ ∃ i, (i < 11)%nat ∧
                         name = DynamicConverter.fieldKeyOf obxMappings i).
    { intros (i & Hi & ->). apply Hout, list_elem_of_fmap. exists i.
      split; [done|]. apply elem_of_seq. lia. }
    clear Hout. rewrite segmentDataOf_other.
    + symmetry. apply (coveredBy_other obxNames); [done|].
      intros Hin%obxNames_positions. by destruct Hno.
    + intros i Hi ->. apply Hno. exists i. split; [|done].
      destruct (trimTrailing_spec (obxFields m)) as ([k Hk] & _ & _).
      apply (f_equal length) in Hk. rewrite length_app in Hk.
      change (length (obxFields m)) with 11%nat in Hk. lia.
Qed.

(** X15.  On the converter page an observation instance survives encoding
    and decoding up to empty entries: when the record is safe, its keys are
    distinct, every OBX entry is keyed by OBX followed by its own set
    identifier and the populated fields of the instance are canonical
    observation fields, the decoded record reads, under the key of the
    instance, the same value as the instance for every field name, an
    absent field being read as the empty string. *)
Theorem observation_comes_back (data : Json) (k : string)
    (m : gmap string string) :
  NoDup (objKeys data) → recordSafe data = true → obxKeyed data = true →
  (k, m) ∈ data → startsWith "OBX" k = true → coveredBy obxNames m = true →
  ∀ name,
    fieldOf (DynamicConverter.convertHL7ToJson
               (DynamicConverter.convertToHL7 localeCompare data)) k name
    = default "" (m !! name).
Proof.
  intros Hnd Hs Hk Hin Hobx Hc name.
  assert (Hget : ∀ k' m', (k', m') ∈ data → objGet data k' = Some m').
  { intros k' m' H. unfold objGet. by apply elem_of_list_to_map_1. }
  assert (Hkey : ∀ k' m', (k', m') ∈ data → startsWith "OBX" k' = true →
            dynLineKey (createSegment "OBX"
                          (obxFields (default ∅ (objGet data k')))) = k').
  { intros k' m' H Hst. rewrite (Hget _ _ H). simpl.
    rewrite obxLine_key by (eapply recordSafe_get; eauto).
    unfold obxKeyed in Hk. rewrite forallb_forall in Hk.
    apply list_elem_of_In, Hk in H. apply orb_prop in H as [H|H].
    - by rewrite Hst in H.
    - by apply bool_decide_eq_true_1 in H. }
  assert (Hks : obxKeys localeCompare data
                ≡ₚ filter (λ key, startsWith "OBX" key = true) (objKeys data))
    by apply sort_perm.
  assert (Hkin : k ∈ obxKeys localeCompare data).
  { rewrite Hks. apply list_elem_of_filter. split; [done|].
    apply list_elem_of_fmap. by exists (k, m). }
  assert (Hknd : NoDup (obxKeys localeCompare data)).
  { rewrite Hks. by apply NoDup_filter. }
  apply list_elem_of_split in Hkin as (ks1 & ks2 & Hsplit).
  rewrite Hsplit in Hknd.
  apply NoDup_app in Hknd as (_ & _ & Hknd). apply NoDup_cons in Hknd as [Hnot _].
  unfold fieldOf, DynamicConverter.convertHL7ToJson,
    DynamicConverter.convertHL7ToJsonWith.
  rewrite encoded_lines by done. unfold obxSegments.
  rewrite Hsplit, fmap_app, fmap_cons, !app_assoc, foldl_app. simpl foldl.
  rewrite (dyn_decode_after _ _ _ k
             (DynamicConverter.segmentDataOf obxMappings (trimTrailing (obxFields m)))).
  - simpl. by apply obx_entry.
  - apply Forall_forall. intros l (k' & -> & Hk')%list_elem_of_fmap.
    assert (Hk'in : k' ∈ obxKeys localeCompare data).
    { rewrite Hsplit. apply elem_of_app. right. by right. }
    rewrite Hks in Hk'in. apply list_elem_of_filter in Hk'in as [Hst Hk'in].
    apply list_elem_of_fmap in Hk'in as ([k'' m'] & Heq & Hm').
    simpl in Heq. subst k''. cbv beta.
    rewrite (Hkey _ _ Hm' Hst). by intros ->.
  - rewrite dyn_decodeLine_eq. rewrite (Hkey _ _ Hin Hobx).
    rewrite lookup_assign_eq by (intros ->; discriminate Hobx).
    f_equal. unfold dynLineData. rewrite (Hget _ _ Hin). simpl.
    destruct (lineParts _ _ _ (obxLine_split m
                (recordSafe_get _ _ _ "|" Hs (Hget _ _ Hin) (or_introl eq_refl))))
      as [-> ->].
    reflexivity.
Qed.

End RoundTrips.

Section RoundTripExamples.
Import JS Common Spec Examples.

Lemma defined_segment_comes_back_shifted_witness :
  ∃ m, DynamicConverter.convertHL7ToJson
         (DynamicConverter.convertToHL7 codeUnitCompare patientWithObservations)
         !! "PID" = Some m ∧
       m !! "field2" = Some "1".
Proof.
  destruct (defined_segment_comes_back_shifted codeUnitCompare
    patientWithObservations "PID"
    [ DynamicConverter.plain "setId" 1; DynamicConverter.plain "patientId" 3;
      DynamicConverter.plain "patientName" 5; DynamicConverter.dated "dob" 7;
      DynamicConverter.plain "gender" 8; DynamicConverter.plain "address" 11;
      DynamicConverter.plain "phoneNumber" 13;
      DynamicConverter.plain "patientAccountNumber" 18 ]
    {[ "setId" := "1"; "dob" := "5/16/1990" ]}
    (DynamicConverter.plain "setId" 1)) as (m & H1 & H2 & _).
  - apply list_elem_of_further, list_elem_of_here.
  - apply list_elem_of_here.
  - vm_compute. reflexivity.
  - vm_compute. reflexivity.
  - vm_compute. discriminate.
  - exists m. split; [exact H1|exact H2].
Defined.

Lemma observation_comes_back_witness :
  fieldOf (DynamicConverter.convertHL7ToJson
             (DynamicConverter.convertToHL7 codeUnitCompare patientWithObservations))
          "OBX2" "observationValue"
  = "7.1".
Proof.
  refine (observation_comes_back codeUnitCompare patientWithObservations "OBX2"
            {[ "setId" := "2"; "valueType" := "ST";
               "observationValue" := "7.1"; "observationStatus" := "F" ]}
            _ _ _ _ _ _ "observationValue").
  - refine (bool_decide_unpack _ _). vm_compute. exact I.
  - vm_compute. reflexivity.
  - vm_compute. reflexivity.
  - apply list_elem_of_further, list_elem_of_here.
  - reflexivity.
  - vm_compute. reflexivity.
Defined.

End RoundTripExamples.

(** ** The extraction loop of the PDF page *)
Section ExtractorFacts.
Import JS Common Spec Examples.
Import CMS1500ToHL7Converter.
Context (regexMatch : Pattern → string → option (list string)).

Lemma matchOf_unmatched (text : string) (fx : FieldExtractor) :
  unmatched regexMatch text fx = bool_decide (matchOf regexMatch text fx = None).
Proof.
  unfold unmatched, matchOf.
  destruct (regexMatch (Regex _) text); [done|].
  destruct (fallback fx); [|done].
  by destruct (regexMatch (FallbackRegex _) text).
Qed.

Lemma extractField_matchOf (text : string) (st : Extraction) (fx : FieldExtractor) :
  extractField regexMatch text st fx
  = match matchOf regexMatch text fx with
    | Some groups =>
        if bool_decide (key fx = "dob") || bool_decide (key fx = "serviceDate") then
          '(month, day, year) ← dateOf groups;
          match year ≫= parseInt with
          | Some parsedYear =>
              if ((1900 <=? parsedYear) && (parsedYear <=? 2025))%Z
              then Returned (accept st fx (month ++ "/" ++ day ++ "/" ++ default "" year))
              else Returned st
          | None => Returned st
          end
        else Returned (accept st fx (trim (default "" (groups !! 0%nat))))
    | None =>
        Returned (if required fx
                  then mkExtraction (extractedData st)
                                    (missingRequiredFields st ++ [key fx])
                                    (requiredFieldsFound st)
                  else st)
    end.
Proof. reflexivity. Qed.

(** One step of the loop: the list of missing fields grows by the key of a
    required field nothing matched, and the record and the count change
    only together. *)
Lemma extractField_step (text : string) (st st1 : Extraction) (fx : FieldExtractor) :
  extractField regexMatch text st fx = Returned st1 →
  missingRequiredFields st1
  = (missingRequiredFields st
     ++ (if required fx && unmatched regexMatch text fx then [key fx] else []))%list ∧
  (extractedData st1 = extractedData st ∧
   requiredFieldsFound st1 = requiredFieldsFound st
   ∨ ∃ v, st1 = accept st fx v).
Proof.
  rewrite extractField_matchOf, matchOf_unmatched.
  destruct (matchOf regexMatch text fx) as [groups|].
  - rewrite (bool_decide_eq_false_2 (Some groups = None)) by done.
    rewrite andb_false_r, app_nil_r.
    destruct (bool_decide _ || bool_decide _).
    + destruct (dateOf groups) as [[[month day] year]|e]; [|discriminate].
      simpl. destruct (year ≫= parseInt) as [parsedYear|].
      * destruct ((1900 <=? parsedYear)%Z && (parsedYear <=? 2025)%Z);
          intros [= <-]; eauto.
      * intros [= <-]; eauto.
    + intros [= <-]; eauto.
  - rewrite (bool_decide_eq_true_2 (None = None)) by done. rewrite andb_true_r.
    intros [= <-]. destruct (required fx); simpl; [eauto|].
    rewrite app_nil_r. eauto.
Qed.

(** The loop throws nothing but a [TypeError]. *)
Lemma extractFields_thrown (text : string) (fxs : list FieldExtractor)
    (st : Extraction) (e : Failure) :
  extractFields regexMatch text st fxs = Thrown e → e = TypeError.
Proof.
  revert st. induction fxs as [|fx fxs IH]; intros st; simpl; [discriminate|].
  destruct (extractField regexMatch text st fx) as [st1|e1] eqn:E.
  - apply IH.
  - simpl. intros [= <-]. revert E. rewrite extractField_matchOf.
    destruct (matchOf regexMatch text fx) as [groups|]; [|discriminate].
    destruct (bool_decide _ || bool_decide _); [|discriminate].
    unfold dateOf. destruct (truthy _).
    + simpl. destruct (_ ≫= parseInt) as [py|];
        [destruct ((1900 <=? py)%Z && (py <=? 2025)%Z)|]; discriminate.
    + destruct (split _ _) as [|p0 [|p1 rest]]; simpl.
      * congruence.
      * congruence.
      * destruct (head rest ≫= parseInt) as [py|];
          [destruct ((1900 <=? py)%Z && (py <=? 2025)%Z)|]; discriminate.
Qed.

Lemma extractFields_missing (text : string) (fxs : list FieldExtractor)
    (st st' : Extraction) :
  extractFields regexMatch text st fxs = Returned st' →
  missingRequiredFields st'
  = (missingRequiredFields st
     ++ (key <$> List.filter (λ fx, required fx && unmatched regexMatch text fx) fxs))%list.
Proof.
  revert st. induction fxs as [|fx fxs IH]; intros st; simpl.
  { intros [= <-]. by rewrite app_nil_r. }
  destruct (extractField regexMatch text st fx) as [st1|e] eqn:E; [|discriminate].
  simpl. intros H%IH. rewrite H.
  apply extractField_step in E as [-> _]. rewrite <- app_assoc. f_equal.
  by destruct (required fx && unmatched regexMatch text fx).
Qed.

(** The count of required fields found is at most the number of required
    fields bound in the record, and the record only grows. *)
Lemma extractFields_found (text : string) (fxs : list FieldExtractor)
    (st st' : Extraction) :
  extractFields regexMatch text st fxs = Returned st' →
  (requiredFieldsFound st'
   ≤ requiredFieldsFound st
     + length (List.filter
                 (λ fx, required fx
                        && bool_decide (is_Some (extractedData st' !! key fx))) fxs))%nat ∧
  (∀ k, is_Some (extractedData st !! k) → is_Some (extractedData st' !! k)).
Proof.
  revert st. induction fxs as [|fx fxs IH]; intros st; simpl.
  { intros [= <-]. split; [lia|done]. }
  destruct (extractField regexMatch text st fx) as [st1|e] eqn:E; [|discriminate].
  simpl. intros [Hn Hk]%IH.
  apply extractField_step in E as [_ [[Hd Hf]|[v ->]]].
  - rewrite Hd, Hf in *. split; [|done].
    destruct (required fx && _); simpl; lia.
  - split.
    + simpl in Hn.
      destruct (required fx) eqn:R; simpl; [|lia].
      rewrite bool_decide_eq_true_2; [simpl; lia|].
      apply Hk. simpl. by rewrite lookup_insert_eq.
    + intros k Hs. apply Hk. simpl.
      destruct (decide (key fx = k)) as [->|Hne];
        [by rewrite lookup_insert_eq|by rewrite lookup_insert_ne].
Qed.

Lemma orDefault_lookup (k v : string) (d : gmap string string) (k' : string) :
  truthy v = true →
  (is_Some (d !! k') → is_Some (orDefault k v d !! k')) ∧
  (truthy (default "" (d !! k')) = true →
   truthy (default "" (orDefault k v d !! k')) = true) ∧
  (k' = k → is_Some (orDefault k v d !! k')
            ∧ truthy (default "" (orDefault k v d !! k')) = true).
Proof.
  intros Hv. unfold orDefault.
  destruct (truthy (default "" (d !! k))) eqn:T.
  - split; [done|]. split; [done|]. intros ->. split; [|done].
    destruct (d !! k); [done|discriminate T].
  - destruct (decide (k = k')) as [->|Hne].
    + rewrite lookup_insert_eq. simpl. by rewrite T.
    + rewrite lookup_insert_ne by done. repeat split; try done.
Qed.

Lemma withDefaults_lookup (d : gmap string string) (k : string) :
  (is_Some (d !! k) → is_Some (withDefaults d !! k)) ∧
  (k ∈ [ "dob"; "providerName"; "patientAddress"; "diagnosisDescription";
         "procedureCode"; "providerAddress"; "phoneNumber"; "insurancePlan" ] →
   is_Some (withDefaults d !! k)
   ∧ truthy (default "" (withDefaults d !! k)) = true).
Proof.
  unfold withDefaults.
  destruct (orDefault_lookup "dob" "01/01/1900" d k eq_refl) as (? & ? & ?).
  set (d1 := orDefault "dob" _ d) in *.
  destruct (orDefault_lookup "providerName" "Unknown Provider" d1 k eq_refl)
    as (? & ? & ?).
  set (d2 := orDefault "providerName" _ d1) in *.
  destruct (orDefault_lookup "patientAddress" "Unknown Address" d2 k eq_refl)
    as (? & ? & ?).
  set (d3 := orDefault "patientAddress" _ d2) in *.
  destruct (orDefault_lookup "diagnosisDescription" "Illness, unspecified" d3 k
              eq_refl) as (? & ? & ?).
  set (d4 := orDefault "diagnosisDescription" _ d3) in *.
  destruct (orDefault_lookup "procedureCode" "00000" d4 k eq_refl) as (? & ? & ?).
  set (d5 := orDefault "procedureCode" _ d4) in *.
  destruct (orDefault_lookup "providerAddress" "Unknown Provider Address" d5 k
              eq_refl) as (? & ? & ?).
  set (d6 := orDefault "providerAddress" _ d5) in *.
  destruct (orDefault_lookup "phoneNumber" "Unknown" d6 k eq_refl) as (? & ? & ?).
  set (d7 := orDefault "phoneNumber" _ d6) in *.
  destruct (orDefault_lookup "insurancePlan" "Unknown Plan" d7 k eq_refl)
    as (? & ? & ?).
  set (d8 := orDefault "insurancePlan" _ d7) in *.
  split; [tauto|].
  intros Hk. repeat (apply elem_of_cons in Hk as [Hk|Hk]; [tauto|]).
  by apply elem_of_nil in Hk.
Qed.

(** All four required fields satisfy a test that four required fields of
    the table satisfy. *)
Lemma required_all_found (q : FieldExtractor → bool) :
  (4 ≤ length (List.filter (λ fx, required fx && q fx) fieldExtractors))%nat →
  ∀ fx, fx ∈ fieldExtractors → required fx = true → q fx = true.
Proof.
  unfold fieldExtractors. simpl.
  destruct (q (mkExtractor "patientName" true true)) eqn:Q1;
    destruct (q (mkExtractor "insuranceId" true true)) eqn:Q2;
    destruct (q (mkExtractor "serviceDate" true true)) eqn:Q3;
    destruct (q (mkExtractor "diagnosis" true true)) eqn:Q4;
    simpl; intros Hn; try lia.
  intros fx Hin.
  repeat (apply elem_of_cons in Hin as [->|Hin];
          [first [intros _; assumption | discriminate]|]).
  by apply elem_of_nil in Hin.
Qed.

Lemma optional_keys (fx : FieldExtractor) :
  fx ∈ fieldExtractors → required fx = false →
  key fx ∈ [ "dob"; "providerName"; "patientAddress"; "diagnosisDescription";
             "procedureCode"; "providerAddress"; "phoneNumber"; "insurancePlan" ].
Proof.
  unfold fieldExtractors. intros Hin.
  repeat (apply elem_of_cons in Hin as [->|Hin];
          [first [discriminate | intros _; compute_done]|]).
  by apply elem_of_nil in Hin.
Qed.

(** X16.  When the extraction from a form fails for want of required
    fields, the list it carries names, in the order of the table, the
    required fields that neither their pattern nor their fallback matched
    in the normalised text; a required date that a pattern matched and the
    year check rejected is not in the list. *)
Theorem quorum_failure_list (allText : string) (missing : list string) :
  extractDataFromPDF regexMatch allText = Thrown (InsufficientData missing) →
  missing
  = key <$> List.filter (λ fx, required fx
                               && unmatched regexMatch (normalize allText) fx)
                        fieldExtractors.
Proof.
  unfold extractDataFromPDF.
  destruct (_ || _); [discriminate|].
  destruct (extractFields _ _ _ _) as [st|e] eqn:E; simpl.
  - destruct (_ <? 4)%nat; [|discriminate]. intros [= <-].
    by apply extractFields_missing in E.
  - apply extractFields_thrown in E as ->. discriminate.
Qed.

(** X17.  A record the extraction returns binds each of the twelve fields
    of the table, and binds each field that is not required to a non-empty
    string. *)
Theorem extraction_binds_every_field (allText : string)
    (d : gmap string string) (fx : FieldExtractor) :
  extractDataFromPDF regexMatch allText = Returned d →
  fx ∈ fieldExtractors →
  is_Some (d !! key fx) ∧
  (required fx = false → truthy (default "" (d !! key fx)) = true).
Proof.
  unfold extractDataFromPDF.
  destruct (_ || _); [discriminate|].
  destruct (extractFields _ _ _ _) as [st|e] eqn:E; simpl; [|discriminate].
  destruct (requiredFieldsFound st <? 4)%nat eqn:Hq; [discriminate|].
  intros [= <-] Hin. apply Nat.ltb_ge in Hq.
  apply extractFields_found in E as [Hn _].
  change (requiredFieldsFound (mkExtraction ∅ [] 0)) with 0%nat in Hn.
  rewrite Nat.add_0_l in Hn.
  pose proof (required_all_found _ (Nat.le_trans _ _ _ Hq Hn) fx Hin) as Hreq.
  destruct (withDefaults_lookup (extractedData st) (key fx)) as [Hkeep Hdef].
  destruct (required fx) eqn:R.
  - split; [|discriminate]. apply Hkeep.
    exact (bool_decide_eq_true_1 _ (Hreq eq_refl)).
  - split; [|intros _]; by apply Hdef, optional_keys.
Qed.

(** X18.  When the text passes the check at the head of the extraction and
    the date of birth is matched without a third group by a first group
    that holds neither white space nor a slash, the extraction throws a
    [TypeError]: the day is read from a one-element array. *)
Theorem date_without_separator_throws (allText : string) (groups : list string) :
  looksLikeForm (normalize allText) = true →
  matchOf regexMatch (normalize allText) (mkExtractor "dob" false true) = Some groups →
  truthy (default "" (groups !! 2%nat)) = false →
  whiteSpaceFree (default "" (groups !! 0%nat)) = true →
  freeOf "/" (default "" (groups !! 0%nat)) = true →
  extractDataFromPDF regexMatch allText = Thrown TypeError.
Proof.
  intros Hform Hm Hy Hw Hs. unfold extractDataFromPDF.
  unfold looksLikeForm in Hform. apply negb_true_iff in Hform. rewrite Hform.
  assert (Hrun : replaceWhiteSpaceRuns "/" (default "" (groups !! 0%nat))
                 = default "" (groups !! 0%nat)).
  { unfold replaceWhiteSpaceRuns, whiteSpaceFree in *.
    generalize dependent (default "" (groups !! 0%nat)). clear.
    intros s Hw _. rewrite <- (string_of_list_ascii_of_string s) at 2.
    unfold ofChars, chars in *. f_equal.
    induction (list_ascii_of_string s) as [|c l IH]; [done|].
    simpl in *. apply andb_prop in Hw as [Hc Hl].
    apply negb_true_iff in Hc. rewrite Hc. f_equal. by apply IH. }
  unfold fieldExtractors.
  set (rest := [mkExtractor "providerName" _ _; _; _; _; _; _; _; _; _]).
  set (text := normalize allText) in *.
  change (extractFields regexMatch text (mkExtraction ∅ [] 0)
            (mkExtractor "patientName" true true
             :: mkExtractor "insuranceId" true true
             :: mkExtractor "dob" false true :: rest))
    with (st1 ← extractField regexMatch text (mkExtraction ∅ [] 0)
                  (mkExtractor "patientName" true true);
          st2 ← extractField regexMatch text st1
                  (mkExtractor "insuranceId" true true);
          st3 ← extractField regexMatch text st2 (mkExtractor "dob" false true);
          extractFields regexMatch text st3 rest).
  assert (Hplain : ∀ st fx, key fx ≠ "dob" → key fx ≠ "serviceDate" →
            ∃ st', extractField regexMatch text st fx = Returned st').
  { intros st fx H1 H2. rewrite extractField_matchOf.
    rewrite !bool_decide_eq_false_2 by done. simpl.
    destruct (matchOf regexMatch text fx); eauto. }
  destruct (Hplain (mkExtraction ∅ [] 0) (mkExtractor "patientName" true true))
    as [st1 ->]; [done|done|]. simpl.
  destruct (Hplain st1 (mkExtractor "insuranceId" true true))
    as [st2 ->]; [done|done|]. simpl.
  rewrite extractField_matchOf, Hm. simpl.
  unfold dateOf. rewrite Hy, Hrun, (split_free "/" _ Hs). reflexivity.
Qed.

End ExtractorFacts.

Section ExtractorExamples.
Import JS Common Spec Examples.
Import CMS1500ToHL7Converter.

Lemma quorum_failure_list_witness :
  extractDataFromPDF quorumMatches quorumText = Thrown (InsufficientData []) ∧
  key <$> List.filter (λ fx, required fx
                             && unmatched quorumMatches (normalize quorumText) fx)
                      fieldExtractors = [].
Proof.
  assert (H : extractDataFromPDF quorumMatches quorumText
              = Thrown (InsufficientData [])) by (vm_compute; reflexivity).
  split; [exact H|].
  symmetry. exact (quorum_failure_list quorumMatches quorumText [] H).
Defined.

Lemma extraction_binds_every_field_witness :
  is_Some (acceptedRecord !! "dob") ∧
  (false = false → truthy (default "" (acceptedRecord !! "dob")) = true).
Proof.
  apply (extraction_binds_every_field acceptedMatches acceptedText acceptedRecord
           (mkExtractor "dob" false true)).
  - reflexivity.
  - do 2 apply list_elem_of_further. apply list_elem_of_here.
Defined.

Lemma date_without_separator_throws_witness :
  extractDataFromPDF unseparatedMatches unseparatedText = Thrown TypeError.
Proof.
  apply (date_without_separator_throws unseparatedMatches unseparatedText
           ["05161990"; "1990"]).
  - vm_compute. reflexivity.
  - vm_compute. reflexivity.
  - reflexivity.
  - reflexivity.
  - reflexivity.
Defined.

End ExtractorExamples.

(** ** The text form: src/fixed_converter.tsx *)
Section TextForm.
Import JS Common Spec Examples.
Import FixedConverter.

Lemma split_parts_free (sep : ascii) (s : string) :
  Forall (λ p, freeOf sep p = true) (split sep s).
Proof.
  induction s as [|c s IH]; simpl; [by repeat constructor|].
  destruct (Ascii.eqb c sep) eqn:E; [by constructor|].
  pose proof (split_not_nil sep s) as Hne.
  destruct (split sep s) as [|cur more]; [done|].
  inversion_clear IH as [|? ? Hcur Hmore]. constructor; [|done].
  by rewrite freeOf_cons, E, Hcur.
Qed.

Lemma split_keeps_free (c sep : ascii) (s : string) :
  freeOf c s = true → Forall (λ p, freeOf c p = true) (split sep s).
Proof.
  induction s as [|x s IH]; simpl; [by repeat constructor|].
  rewrite freeOf_cons. intros [Hx Hs]%andb_prop. specialize (IH Hs).
  destruct (Ascii.eqb x sep); [by constructor|].
  destruct (split sep s) as [|cur more];
    [constructor; [by rewrite freeOf_cons, Hx|done]|].
  inversion_clear IH as [|? ? Hcur Hmore]. constructor; [|done].
  by rewrite freeOf_cons, Hx, Hcur.
Qed.

Lemma dropWhiteSpace_forallb (p : ascii → bool) (l : list ascii) :
  forallb p l = true → forallb p (dropWhiteSpace l) = true.
Proof.
  induction l as [|c l IH]; simpl; [done|].
  intros [Hc Hl]%andb_prop. destruct (isWhiteSpace c); [by apply IH|].
  simpl. by rewrite Hc, Hl.
Qed.

Lemma forallb_rev {A} (p : A → bool) (l : list A) :
  forallb p (rev l) = forallb p l.
Proof.
  induction l as [|x l IH]; simpl; [done|].
  rewrite forallb_app, IH. simpl. rewrite andb_true_r. apply andb_comm.
Qed.

Lemma trim_freeOf (c : ascii) (s : string) :
  freeOf c s = true → freeOf c (trim s) = true.
Proof.
  unfold freeOf, trim, ofChars, chars. intros H.
  rewrite list_ascii_of_string_of_list_ascii, forallb_rev.
  apply dropWhiteSpace_forallb. rewrite forallb_rev.
  by apply dropWhiteSpace_forallb.
Qed.

(** No value the parser stores holds a line break. *)
Lemma parseCMS1500Text_values (text key value : string) :
  parseCMS1500Text text !! key = Some value → freeOf "010" value = true.
Proof.
  unfold parseCMS1500Text.
  pose proof (split_parts_free "010" text) as Hl. revert Hl.
  assert (H0 : ∀ k v, (∅ : gmap string string) !! k = Some v → freeOf "010" v = true)
    by (intros k v H; rewrite lookup_empty in H; discriminate H).
  revert key value. generalize dependent (∅ : gmap string string).
  induction (split "010" text) as [|line lines IH]; intros data Hdata key value Hl.
  { apply Hdata. }
  inversion_clear Hl as [|? ? Hline Hlines]. simpl. apply IH; [|done].
  intros k v. unfold parseLine.
  pose proof (split_keeps_free "010" ":" line Hline) as Hparts.
  destruct (split ":" line) as [|k0 [|v0 rest]]; [apply Hdata|apply Hdata|].
  destruct (truthy k0 && truthy v0); [|apply Hdata].
  unfold assign. case_bool_decide; [apply Hdata|].
  destruct (decide (trim k0 = k)) as [->|Hne].
  - rewrite lookup_insert_eq. intros [= <-]. apply trim_freeOf.
    inversion_clear Hparts as [|? ? _ Hrest]. by inversion_clear Hrest.
  - rewrite lookup_insert_ne by done. apply Hdata.
Qed.

(** X19.  The text-form encoder reads the clock: on the same data two of
    its runs give the same message exactly when the clock reads the
    same. *)
Theorem toHl7Format_agrees_with_clock (data : gmap string string)
    (now1 now2 : string) :
  toHl7Format now1 data = toHl7Format now2 data ↔ now1 = now2.
Proof.
  split; [|by intros ->]. unfold toHl7Format.
  set (rest := [_; _; _]). intros H.
  change (join (String "010" "") (?x :: rest)) with
    (x ++ String "010" "" ++ join (String "010" "") rest) in H.
  rewrite !str_app_assoc in H.
  apply (inj (String.app _)) in H. by apply str_app_inv_r in H.
Qed.

(** X20.  The parser of the text form drops what follows a second colon:
    when the key and the value hold no colon, the line with more text
    after a further colon is parsed like the line without it. *)
Theorem parseLine_drops_after_second_colon (data : gmap string string)
    (key value rest : string) :
  freeOf ":" key = true → freeOf ":" value = true →
  parseLine data (key ++ ":" ++ value ++ ":" ++ rest)
  = parseLine data (key ++ ":" ++ value).
Proof.
  intros Hk Hv. unfold parseLine.
  change (":" ++ value ++ ":" ++ rest) with (String ":" (value ++ String ":" rest)).
  change (":" ++ value) with (String ":" value).
  rewrite !(split_app_sep ":" key) by done.
  rewrite (split_app_sep ":" value) by done.
  by rewrite (split_free ":" value).
Qed.

Lemma parseLine_drops_after_second_colon_witness :
  parseLine ∅ "time: 10:30" = {[ "time" := "10" ]}.
Proof.
  rewrite (parseLine_drops_after_second_colon ∅ "time" " 10" "30");
    reflexivity.
Defined.

(** X21.  Whatever text is typed into the form, the message
    [handleConvertClick] builds has exactly four lines when the clock
    string holds no line break: no value of the parsed text can add a
    line. *)
Theorem message_has_four_lines (now inputText : string) :
  freeOf "010" now = true →
  length (split "010" (handleConvertClick now inputText)) = 4%nat.
Proof.
  intros Hnow. unfold handleConvertClick, toHl7Format.
  set (data := parseCMS1500Text inputText).
  assert (Hget : ∀ k, freeOf "010" (getOr data k) = true).
  { intros k. rewrite getOr_lookup. destruct (data !! k) as [v|] eqn:E; [|done].
    by apply parseCMS1500Text_values in E. }
  assert (Hfirst : ∀ k, freeOf "010" (firstCharOr data k) = true).
  { intros k. unfold firstCharOr. destruct (data !! k) as [[|c v]|] eqn:E; try done.
    apply parseCMS1500Text_values in E. rewrite freeOf_cons in E.
    apply andb_prop in E as [E _]. by rewrite freeOf_cons, E. }
  rewrite split_join; [done|done|].
  simpl forallb. rewrite !freeOf_app, !Hget, !Hfirst, Hnow. reflexivity.
Qed.

Lemma message_has_four_lines_witness :
  length (split "010"
            (handleConvertClick "2025-05-16T10:00:00.000Z"
               ("pt_name: Smith" ++ String "010" "sex: Male"))) = 4%nat.
Proof. apply message_has_four_lines. reflexivity. Defined.

End TextForm.

(** ** Round trips of the mapped converter: src/CMSConverter.tsx *)
Section MappedConverter.
Import JS Common Spec Examples.
Context (localeCompare : string → string → Z).

Lemma valuesFreeOf_lookup (c : ascii) (m : gmap string string) (k v : string) :
  valuesFreeOf c m = true → m !! k = Some v → freeOf c v = true.
Proof.
  intros H E. unfold valuesFreeOf in H. rewrite forallb_forall in H.
  by apply elem_of_map_to_list, list_elem_of_In, H in E.
Qed.

(** [getNestedValue] on a two-step path reads the field of the segment. *)
Lemma getNestedValue_path (data : Json) (segmentName name : string) :
  freeOf "." segmentName = true → freeOf "." name = true →
  CMSConverter.getNestedValue (CMSConverter.JRecord data)
    (segmentName ++ "." ++ name)
  = getOr (default ∅ (objGet data segmentName)) name.
Proof.
  intros Hs Hn. unfold CMSConverter.getNestedValue.
  change ("." ++ name) with (String "." name).
  rewrite (split_app_sep "." segmentName name Hs), (split_free "." name Hn).
  cbn [foldl CMSConverter.jsTruthy CMSConverter.jsGet].
  rewrite !getOr_lookup.
  destruct (objGet data segmentName) as [o|].
  - change (default ∅ (Some o)) with o.
    cbn [from_option CMSConverter.jsTruthy CMSConverter.jsGet].
    destruct (o !! name) as [v|]; [apply orElse_empty|reflexivity].
  - change (default ∅ None) with (∅ : gmap string string).
    rewrite lookup_empty. reflexivity.
Qed.

(** Whatever the path, [getNestedValue] gives the empty string or a value
    of the record. *)
Lemma getNestedValue_freeOf (c : ascii) (data : Json) (path : string) :
  recordSafe data = true → c = "|"%char ∨ c = "010"%char →
  freeOf c (CMSConverter.getNestedValue (CMSConverter.JRecord data) path) = true.
Proof.
  intros Hs Hc. unfold CMSConverter.getNestedValue.
  set (safe := λ v : CMSConverter.JsValue,
         match v with
         | CMSConverter.JUndefined => True
         | CMSConverter.JString s => freeOf c s = true
         | CMSConverter.JFields o => valuesFreeOf c o = true
         | CMSConverter.JRecord o => recordSafe o = true
         end).
  assert (H : safe (foldl (λ current key,
                if CMSConverter.jsTruthy current
                then CMSConverter.jsGet current key
                else CMSConverter.JString "")
              (CMSConverter.JRecord data) (split "." path))).
  { assert (H0 : safe (CMSConverter.JRecord data)) by exact Hs.
    revert H0. generalize (CMSConverter.JRecord data).
    induction (split "." path) as [|key keys IH]; intros v Hv; [done|].
    simpl. apply IH. destruct v as [|s|o|o]; simpl; try done.
    - by destruct (truthy s).
    - destruct (o !! key) as [x|] eqn:E; simpl; [|done].
      by eapply valuesFreeOf_lookup.
    - destruct (objGet o key) as [m|] eqn:E; simpl; [|done].
      by eapply recordSafe_get. }
  destruct (foldl _ _ _) as [|s|o|o]; try done.
  simpl in H. unfold orElse. by destruct (truthy s).
Qed.

(** Every entry of the table is a path, a dated path or a blank. *)
Lemma hl7Mappings_forms (segmentName : string)
    (fields : list CMSConverter.FieldMapping) (f : CMSConverter.FieldMapping) :
  (segmentName, fields) ∈ CMSConverter.hl7Mappings → f ∈ fields →
  f = CMSConverter.blank ∨
  ∃ p, f = CMSConverter.at_ p ∨ f = CMSConverter.date_ p.
Proof.
  unfold CMSConverter.hl7Mappings. intros Hin Hf.
  repeat (apply elem_of_cons in Hin as [[= -> ->]|Hin];
    [repeat (apply elem_of_cons in Hf as [->|Hf];
       [first [by left | right; eexists; by left | right; eexists; by right]|]);
     by apply elem_of_nil in Hf|]).
  by apply elem_of_nil in Hin.
Qed.

Lemma fieldValue_freeOf (c : ascii) (data : Json) (segmentName : string)
    (fields : list CMSConverter.FieldMapping) (f : CMSConverter.FieldMapping) :
  recordSafe data = true → c = "|"%char ∨ c = "010"%char →
  (segmentName, fields) ∈ CMSConverter.hl7Mappings → f ∈ fields →
  freeOf c (CMSConverter.fieldValue data f) = true.
Proof.
  intros Hs Hc Hin Hf.
  destruct (hl7Mappings_forms _ _ _ Hin Hf) as [->|[p [->| ->]]];
    unfold CMSConverter.fieldValue; simpl.
  - done.
  - destruct (truthy p); [|done]. by apply getNestedValue_freeOf.
  - apply formatDate_freeOf. by destruct Hc as [-> | ->].
Qed.

Lemma hl7Mappings_names (segmentName : string)
    (fields : list CMSConverter.FieldMapping) :
  (segmentName, fields) ∈ CMSConverter.hl7Mappings →
  segmentName ≠ "OBX" ∧ startsWith "OBX" segmentName = false ∧
  freeOf "|" segmentName = true ∧ freeOf "010" segmentName = true ∧
  ∃ c n, segmentName = String c n ∧ isWhiteSpace c = false.
Proof.
  unfold CMSConverter.hl7Mappings. intros Hin.
  repeat (apply elem_of_cons in Hin as [[= -> ->]|Hin];
          [repeat split; try done; by eexists _, _|]).
  by apply elem_of_nil in Hin.
Qed.

(** A standard line, as the decoder splits it, and its key. *)
Lemma standardLine_split (data : Json) (segmentName : string)
    (fields : list CMSConverter.FieldMapping) :
  recordSafe data = true →
  (segmentName, fields) ∈ CMSConverter.hl7Mappings →
  split "|" (createSegment segmentName (CMSConverter.fieldValue data <$> fields))
  = segmentName :: trimTrailing (CMSConverter.fieldValue data <$> fields).
Proof.
  intros Hs Hin. destruct (hl7Mappings_names _ _ Hin) as (_ & _ & Hp & _).
  unfold createSegment. apply split_join; [done|].
  cbn [forallb]. rewrite Hp. cbn [andb].
  apply forallb_trimTrailing, forallb_forall.
  intros v (f & -> & Hf)%list_elem_of_In%list_elem_of_fmap.
  eapply fieldValue_freeOf; eauto.
Qed.

Lemma standardLine_key (data : Json) (segmentName : string)
    (fields : list CMSConverter.FieldMapping) :
  recordSafe data = true →
  (segmentName, fields) ∈ CMSConverter.hl7Mappings →
  lineKey (createSegment segmentName (CMSConverter.fieldValue data <$> fields))
  = segmentName.
Proof.
  intros Hs Hin.
  destruct (lineParts _ _ _ (standardLine_split data _ _ Hs Hin)) as [Ht Hf].
  destruct (hl7Mappings_names _ _ Hin) as (Hne & _).
  unfold lineKey, CMSConverter.segmentKeyOf. rewrite Ht.
  by rewrite bool_decide_eq_false_2.
Qed.

Lemma cms_obxLine_key (m : gmap string string) :
  valuesFreeOf "|" m = true →
  startsWith "OBX" (lineKey (createSegment "OBX" (obxFields m))) = true.
Proof.
  intros Hv. destruct (lineParts _ _ _ (obxLine_split m Hv)) as [Ht Hf].
  unfold lineKey. rewrite Ht, cms_segmentKeyOf_OBX. apply startsWith_OBX_app.
Qed.

(** The lines the decoder sees are the lines the encoder emitted. *)
Lemma cms_encoded_lines (data : Json) :
  recordSafe data = true →
  CMSConverter.wireLines (CMSConverter.convertToHL7 localeCompare data)
  = (CMSConverter.standardSegments data ++ obxSegments localeCompare data)%list.
Proof.
  intros Hs. unfold CMSConverter.convertToHL7.
  change CMSConverter.wireLines with DynamicConverter.wireLines.
  apply wireLines_join.
  - apply forallb_forall. intros line [Hl|Hl]%list_elem_of_In%elem_of_app.
    + apply list_elem_of_fmap in Hl as ([name fields] & -> & Hin).
      destruct (hl7Mappings_names _ _ Hin) as (_ & _ & _ & Hn & _).
      apply createSegment_freeOf; [done|done|].
      apply forallb_forall.
      intros v (f & -> & Hf)%list_elem_of_In%list_elem_of_fmap.
      eapply fieldValue_freeOf; eauto.
    + apply obxSegments_elem in Hl as (k & _ & ->).
      apply createSegment_freeOf; [done|done|].
      apply obxFields_freeOf, recordSafe_default; auto.
  - apply forallb_forall. intros line [Hl|Hl]%list_elem_of_In%elem_of_app.
    + apply list_elem_of_fmap in Hl as ([name fields] & -> & Hin).
      destruct (hl7Mappings_names _ _ Hin) as (_ & _ & _ & _ & c & n & -> & Hc).
      by apply createSegment_truthy.
    + apply obxSegments_elem in Hl as (k & _ & ->).
      by apply createSegment_truthy.
Qed.

(** What the decoder reads back for a field of a standard segment is what
    the encoder wrote at the position the decoder reads that field from. *)
Lemma standard_field_at (data : Json) (segmentName : string)
    (shape : list (string * nat)) (fields : list CMSConverter.FieldMapping)
    (name : string) (i : nat) :
  recordSafe data = true →
  (segmentName, shape) ∈ CMSConverter.knownSegments →
  (segmentName, fields) ∈ CMSConverter.hl7Mappings →
  (name, i) ∈ shape →
  fieldOf (CMSConverter.convertHL7ToJson
             (CMSConverter.convertToHL7 localeCompare data)) segmentName name
  = nthOr (CMSConverter.fieldValue data <$> fields) i.
Proof.
  intros Hs Hshape Hin Hname.
  assert (Hnd : NoDup CMSConverter.hl7Mappings.*1) by compute_done.
  assert (Hknd : NoDup CMSConverter.knownSegments.*1) by compute_done.
  destruct (hl7Mappings_names _ _ Hin) as (Hne & Hst & _).
  assert (Hsh : shapeOf segmentName = Some shape).
  { unfold shapeOf. rewrite bool_decide_eq_false_2 by done.
    by apply elem_of_list_to_map_1. }
  unfold fieldOf, CMSConverter.convertHL7ToJson.
  rewrite cms_encoded_lines by done. unfold CMSConverter.standardSegments.
  apply list_elem_of_split in Hin as (l1 & l2 & Hsplit).
  rewrite Hsplit in Hnd |- *.
  rewrite fmap_app, NoDup_app in Hnd. destruct Hnd as (_ & _ & Hnd).
  rewrite fmap_cons in Hnd. apply NoDup_cons in Hnd as [Hnot _].
  rewrite fmap_app, fmap_cons, <- app_assoc, foldl_app. simpl foldl.
  assert (Hin : (segmentName, fields) ∈ CMSConverter.hl7Mappings).
  { rewrite Hsplit. apply elem_of_app. right. left. }
  rewrite (cms_decode_after _ _ segmentName
             (CMSConverter.objectOf
                (trimTrailing (CMSConverter.fieldValue data <$> fields)) shape)).
  - simpl. destruct (objectOf_shape
                       (trimTrailing (CMSConverter.fieldValue data <$> fields))
                       shape (shapeOf_NoDup _ _ Hsh)) as [_ Hl].
    rewrite (Hl _ _ Hname). simpl. apply nthOr_trimTrailing.
  - apply Forall_app. split.
    + apply Forall_forall. intros l ([n fs] & -> & Hl)%list_elem_of_fmap.
      rewrite standardLine_key; [|done|].
      * intros ->. apply Hnot, list_elem_of_fmap. by exists (segmentName, fs).
      * rewrite Hsplit. apply elem_of_app. right. by right.
    + apply Forall_forall. intros l (k & _ & ->)%obxSegments_elem.
      intros Hk. pose proof (cms_obxLine_key (default ∅ (objGet data k))) as Hobx.
      rewrite Hk, Hst in Hobx. discriminate Hobx.
      apply recordSafe_default; auto.
  - pose proof (cms_decodeLine_split
      (foldl CMSConverter.decodeLine ∅
         ((λ '(segmentName, fields),
             createSegment segmentName (CMSConverter.fieldValue data <$> fields))
            <$> l1))
      _ _ _ (standardLine_split data _ _ Hs Hin) (shapeOf_key _ _ _ Hsh)) as Hd.
    rewrite (shapeOf_Some _ _ _ Hsh) in Hd.
    unfold CMSConverter.segmentKeyOf in Hd.
    by rewrite bool_decide_eq_false_2 in Hd.
Qed.

(** The positions the encoder writes the fields of PID, PV1, PR1 and IN1 at
    are the positions the decoder reads them from. *)
Lemma hl7Mappings_aligned (segmentName : string) (shape : list (string * nat))
    (name : string) (i : nat) :
  (segmentName, shape) ∈ CMSConverter.knownSegments → segmentName ≠ "MSH" →
  (name, i) ∈ shape →
  ∃ fields, (segmentName, fields) ∈ CMSConverter.hl7Mappings ∧
    fields !! i
    = Some (if isDateField name
            then CMSConverter.date_ (segmentName ++ "." ++ name)
            else CMSConverter.at_ (segmentName ++ "." ++ name)) ∧
    freeOf "." segmentName = true ∧ freeOf "." name = true.
Proof.
  unfold CMSConverter.knownSegments. intros Hin Hne Hname.
  apply elem_of_cons in Hin as [[= -> ->]|Hin]; [done|].
  repeat (apply elem_of_cons in Hin as [[= -> ->]|Hin];
    [eexists; split;
      [unfold CMSConverter.hl7Mappings;
       first [ apply list_elem_of_here
             | apply list_elem_of_further, list_elem_of_here
             | do 2 apply list_elem_of_further; apply list_elem_of_here
             | do 3 apply list_elem_of_further; apply list_elem_of_here
             | do 4 apply list_elem_of_further; apply list_elem_of_here ]|];
     repeat (apply elem_of_cons in Hname as [[= -> ->]|Hname];
             [repeat split; reflexivity|]);
     by apply elem_of_nil in Hname|]).
  by apply elem_of_nil in Hin.
Qed.

(** X22.  In src/CMSConverter.tsx the fields of the segments PID, PV1, PR1
    and IN1 survive encoding and decoding: for a record none of whose
    values holds a field separator or a line break, every field the
    decoder knows for such a segment reads, in the decoded record, the
    value of that field in the record, passed through [formatDate] for the
    date fields, an absent field being read as the empty string. *)
Theorem standard_segment_comes_back (data : Json) (segmentName : string)
    (shape : list (string * nat)) (name : string) (i : nat) :
  recordSafe data = true →
  (segmentName, shape) ∈ CMSConverter.knownSegments → segmentName ≠ "MSH" →
  (name, i) ∈ shape →
  fieldOf (CMSConverter.convertHL7ToJson
             (CMSConverter.convertToHL7 localeCompare data)) segmentName name
  = if isDateField name
    then formatDate (getOr (default ∅ (objGet data segmentName)) name)
    else getOr (default ∅ (objGet data segmentName)) name.
Proof.
  intros Hs Hin Hne Hname.
  destruct (hl7Mappings_aligned _ _ _ _ Hin Hne Hname)
    as (fields & Hf & Hi & Hd1 & Hd2).
  rewrite (standard_field_at data segmentName shape fields name i) by done.
  unfold nthOr. rewrite list_lookup_fmap, Hi. cbn [fmap option_fmap option_map default].
  rewrite orElse_empty.
  assert (Ht : truthy (segmentName ++ "." ++ name) = true).
  { destruct segmentName; [|done]. done. }
  destruct (isDateField name); unfold CMSConverter.fieldValue;
    cbn [CMSConverter.path CMSConverter.transform CMSConverter.date_ CMSConverter.at_];
    rewrite Ht; by rewrite getNestedValue_path.
Qed.

(** X23.  In src/CMSConverter.tsx the header does not survive: the encoder
    writes a blank after the encoding characters, which the decoder does
    not skip.  For a record none of whose values holds a field separator
    or a line break, the decoded sending application is always empty, each
    of the next three fields reads the field before it, the decoded date
    reads the receiving facility, the message type is always empty, and the
    control and processing identifiers read the message type and the
    control identifier; the version identifier of the record is never read
    back. *)
Theorem header_comes_back_shifted (data : Json) :
  recordSafe data = true →
  let decoded := CMSConverter.convertHL7ToJson
                   (CMSConverter.convertToHL7 localeCompare data) in
  let header := default ∅ (objGet data "MSH") in
  fieldOf decoded "MSH" "encodingCharacters" = getOr header "encodingCharacters" ∧
  fieldOf decoded "MSH" "sendingApplication" = "" ∧
  fieldOf decoded "MSH" "sendingFacility" = getOr header "sendingApplication" ∧
  fieldOf decoded "MSH" "receivingApplication" = getOr header "sendingFacility" ∧
  fieldOf decoded "MSH" "receivingFacility" = getOr header "receivingApplication" ∧
  fieldOf decoded "MSH" "dateTime" = getOr header "receivingFacility" ∧
  fieldOf decoded "MSH" "messageType" = "" ∧
  fieldOf decoded "MSH" "controlId" = getOr header "messageType" ∧
  fieldOf decoded "MSH" "processingId" = getOr header "controlId" ∧
  fieldOf decoded "MSH" "versionId" = getOr header "processingId".
Proof.
  intros Hs decoded header.
  assert (Hread : ∀ name i,
            (name, i) ∈ (default ("", []) (head CMSConverter.knownSegments)).2 →
            fieldOf decoded "MSH" name
            = default "" (CMSConverter.fieldValue data
                            <$> (default ("", []) (head CMSConverter.hl7Mappings)).2 !! i)).
  { intros name i Hname.
    rewrite <- (orElse_empty (default "" _)), <- list_lookup_fmap.
    apply (standard_field_at data "MSH"
             (default ("", []) (head CMSConverter.knownSegments)).2
             (default ("", []) (head CMSConverter.hl7Mappings)).2 name i Hs);
      [apply list_elem_of_here|apply list_elem_of_here|exact Hname]. }
  assert (Hpath : ∀ name, freeOf "." name = true →
            CMSConverter.fieldValue data (CMSConverter.at_ ("MSH" ++ "." ++ name))
            = getOr header name).
  { intros name Hn. unfold CMSConverter.fieldValue.
    cbn [CMSConverter.path CMSConverter.transform CMSConverter.at_].
    change (truthy ("MSH" ++ "." ++ name)) with true. cbn iota.
    by apply getNestedValue_path. }
  repeat split.
  - rewrite (Hread _ 0%nat) by compute_done. apply (Hpath "encodingCharacters" eq_refl).
  - rewrite (Hread _ 1%nat) by compute_done. reflexivity.
  - rewrite (Hread _ 2%nat) by compute_done. apply (Hpath "sendingApplication" eq_refl).
  - rewrite (Hread _ 3%nat) by compute_done. apply (Hpath "sendingFacility" eq_refl).
  - rewrite (Hread _ 4%nat) by compute_done. apply (Hpath "receivingApplication" eq_refl).
  - rewrite (Hread _ 5%nat) by compute_done. apply (Hpath "receivingFacility" eq_refl).
  - rewrite (Hread _ 7%nat) by compute_done. reflexivity.
  - rewrite (Hread _ 8%nat) by compute_done. apply (Hpath "messageType" eq_refl).
  - rewrite (Hread _ 9%nat) by compute_done. apply (Hpath "controlId" eq_refl).
  - rewrite (Hread _ 10%nat) by compute_done. apply (Hpath "processingId" eq_refl).
Qed.

End MappedConverter.

Section MappedExamples.
Import JS Common Spec Examples.

Lemma standard_segment_comes_back_witness :
  fieldOf (CMSConverter.convertHL7ToJson
             (CMSConverter.convertToHL7 codeUnitCompare headedRecord))
          "PID" "dob"
  = "19900516".
Proof.
  refine (standard_segment_comes_back codeUnitCompare headedRecord "PID"
            [ ("setId", 0); ("patientId", 2); ("patientName", 4); ("dob", 6);
              ("gender", 7); ("address", 10); ("phoneNumber", 12);
              ("patientAccountNumber", 17) ]%nat "dob" 6 _ _ _ _).
  - reflexivity.
  - apply list_elem_of_further, list_elem_of_here.
  - discriminate.
  - do 3 apply list_elem_of_further. apply list_elem_of_here.
Defined.

Lemma header_comes_back_shifted_witness :
  fieldOf (CMSConverter.convertHL7ToJson
             (CMSConverter.convertToHL7 codeUnitCompare headedRecord))
          "MSH" "sendingApplication" = "" ∧
  fieldOf (CMSConverter.convertHL7ToJson
             (CMSConverter.convertToHL7 codeUnitCompare headedRecord))
          "MSH" "sendingFacility" = "App".
Proof.
  destruct (header_comes_back_shifted codeUnitCompare headedRecord)
    as (_ & H2 & H3 & _).
  - reflexivity.
  - split; [exact H2|exact H3].
Defined.

End MappedExamples.

(** ** The PDF page: the encoder and the extraction from a JSON file *)
Section FilePipeline.
Import JS Common Spec Examples.
Import CMS1500ToHL7Converter.

Lemma truthy_orElse (a d : string) : truthy d = true → truthy (orElse a d) = true.
Proof. intros H. unfold orElse. by destruct (truthy a) eqn:E. Qed.

Lemma truthy_componentOr (o : gmap string string) (k : string) (i : nat) (d : string) :
  truthy d = true → truthy (componentOr o k i d) = true.
Proof. apply truthy_orElse. Qed.

Lemma truthy_slashDate (s : string) : truthy (slashDate s) = true.
Proof. unfold slashDate. by destruct (slice 4 6 s). Qed.

Lemma truthy_dateOr (s d : string) :
  truthy d = true → truthy (if truthy s then slashDate s else d) = true.
Proof. intros H. destruct (truthy s); [apply truthy_slashDate|done]. Qed.

Lemma getOr_at (m : gmap string string) (k v : string) :
  m !! k = Some v → getOr m k = v.
Proof. intros H. rewrite getOr_lookup, H. reflexivity. Qed.

Lemma getOr_absent (m : gmap string string) (k : string) :
  m !! k = None → getOr m k = "".
Proof. intros H. rewrite getOr_lookup, H. reflexivity. Qed.

Ltac known_lookup m k H :=
  first [ eassert (H : m !! k = Some _) by reflexivity
        | assert (H : m !! k = None) by reflexivity ].

Ltac known_getOr H :=
  first [ rewrite (getOr_at _ _ _ H) | rewrite (getOr_absent _ _ H) ].

Ltac required_fields :=
  match goal with
  | |- context [if _ then inl MissingFields else inr ?D] =>
      let data := fresh "data" in
      let H1 := fresh in let H2 := fresh in let H3 := fresh in let H4 := fresh in
      set (data := D);
      known_lookup data "insuranceId" H1; known_lookup data "patientName" H2;
      known_lookup data "diagnosis" H3; known_lookup data "serviceDate" H4;
      known_getOr H1; known_getOr H2; known_getOr H3; known_getOr H4;
      rewrite ?truthy_componentOr, ?truthy_orElse, ?truthy_dateOr by reflexivity;
      cbn [negb orb truthy]
  end.

(** The extraction from a JSON file accepts a file that has the four
    segments it reads the required fields from, and then every field it
    binds is non-empty. *)
Lemma extractDataFromJson_returns (json : gmap string (gmap string string))
    (header PID DG1 PR1 : gmap string string) :
  json !! "MSH" = Some header → json !! "PID" = Some PID →
  json !! "DG1" = Some DG1 → json !! "PR1" = Some PR1 →
  ∃ data, extractDataFromJson json = inr data ∧
    map_Forall (λ _ v, truthy v = true) data ∧
    data !! "patientName"
      = Some (orElse (getOr PID "patientName") "Unknown Patient") ∧
    data !! "insuranceId" = Some (componentOr PID "patientId" 0 "Unknown ID") ∧
    data !! "dob"
      = Some (if truthy (getOr PID "dob") then slashDate (getOr PID "dob")
              else "01/01/1900") ∧
    data !! "patientAddress"
      = Some (componentOr PID "address" 0 "Unknown Address") ∧
    data !! "phoneNumber" = Some (componentOr PID "address" 4 "Unknown") ∧
    data !! "diagnosis" = Some (orElse (getOr DG1 "diagnosisCode") "00000") ∧
    data !! "diagnosisDescription"
      = Some (orElse (getOr DG1 "diagnosisDescription") "Illness, unspecified") ∧
    data !! "procedureCode"
      = Some (componentOr PR1 "procedureCode" 0 "00000") ∧
    data !! "serviceDate"
      = Some (if truthy (getOr PR1 "procedureDate")
              then slashDate (getOr PR1 "procedureDate") else "01/01/2025") ∧
    data !! "providerName"
      = (PV1 ← json !! "PV1";
         Some (componentOr PV1 "attendingDoctor" 0 "Unknown Provider")) ∧
    data !! "providerAddress"
      = (PV1 ← json !! "PV1";
         Some (componentOr PV1 "providerAddress" 0 "Unknown Provider Address")) ∧
    data !! "insurancePlan"
      = (IN1 ← json !! "IN1";
         Some (orElse (getOr IN1 "insurancePlan") "Unknown Plan")).
Proof.
  intros Hh Hp Hd Hr. unfold extractDataFromJson. rewrite Hh, Hp, Hd, Hr.
  lazy zeta. generalize (json !! "PV1"), (json !! "IN1").
  intros [PV1|] [IN1|];
    required_fields;
    (eexists; split; [reflexivity|]; split;
     [ repeat (apply map_Forall_insert_2;
               [first [ by apply truthy_componentOr | by apply truthy_orElse
                      | by apply truthy_dateOr ]|]);
       apply map_Forall_empty
     | repeat split; reflexivity ]).
Qed.

Lemma extractDataFromJson_rejects (json : gmap string (gmap string string)) :
  (json !! "MSH" = None ∨ json !! "PID" = None →
   extractDataFromJson json = inl MissingSegments) ∧
  (is_Some (json !! "MSH") → is_Some (json !! "PID") →
   json !! "DG1" = None ∨ json !! "PR1" = None →
   extractDataFromJson json = inl MissingFields).
Proof.
  unfold extractDataFromJson. split.
  - intros [-> | H]; [done|]. rewrite H. by destruct (json !! "MSH").
  - intros [header ->] [PID ->] [H|H]; rewrite H.
    + lazy zeta. generalize (json !! "PV1"), (json !! "PR1"), (json !! "IN1").
      intros [PV1|] [PR1|] [IN1|]; required_fields; reflexivity.
    + lazy zeta. generalize (json !! "PV1"), (json !! "DG1"), (json !! "IN1").
      intros [PV1|] [DG1|] [IN1|]; required_fields; reflexivity.
Qed.


Lemma json_extraction_segments (json : gmap string (gmap string string))
    (data : gmap string string) :
  extractDataFromJson json = inr data →
  ∃ header PID DG1 PR1,
    json !! "MSH" = Some header ∧ json !! "PID" = Some PID ∧
    json !! "DG1" = Some DG1 ∧ json !! "PR1" = Some PR1.
Proof.
  intros H. destruct (extractDataFromJson_rejects json) as [Hseg Hfld].
  destruct (json !! "MSH") as [header|] eqn:Eh;
    [|rewrite Hseg in H by auto; discriminate H].
  destruct (json !! "PID") as [PID|] eqn:Ep;
    [|rewrite Hseg in H by auto; discriminate H].
  destruct (json !! "DG1") as [DG1|] eqn:Ed;
    [|rewrite Hfld in H by eauto; discriminate H].
  destruct (json !! "PR1") as [PR1|] eqn:Er;
    [|rewrite Hfld in H by eauto; discriminate H].
  by exists header, PID, DG1, PR1.
Qed.

Ltac settle :=
  repeat split; intros;
  repeat match goal with
         | H : is_Some None |- _ => by destruct H
         | H : _ ∧ _ |- _ => destruct H
         | H : _ ∨ _ |- _ => destruct H
         | H : ∃ _, _ |- _ => destruct H
         end;
  try discriminate; eauto.

(** X24.  The extraction from a JSON file returns a record exactly when
    the file has the segments MSH, PID, DG1 and PR1, whatever they hold; it
    reports missing segments exactly when MSH or PID is absent, and missing
    fields in the remaining case. *)
Theorem json_extraction_accepts (json : gmap string (gmap string string)) :
  ((∃ data, extractDataFromJson json = inr data)
   ↔ is_Some (json !! "MSH") ∧ is_Some (json !! "PID")
     ∧ is_Some (json !! "DG1") ∧ is_Some (json !! "PR1")) ∧
  (extractDataFromJson json = inl MissingSegments
   ↔ json !! "MSH" = None ∨ json !! "PID" = None) ∧
  (extractDataFromJson json = inl MissingFields
   ↔ is_Some (json !! "MSH") ∧ is_Some (json !! "PID")
     ∧ (json !! "DG1" = None ∨ json !! "PR1" = None)).
Proof.
  destruct (extractDataFromJson_rejects json) as [Hseg Hfld].
  pose proof (extractDataFromJson_returns json) as Hret.
  destruct (json !! "MSH") as [header|]; [|rewrite Hseg by auto; settle].
  destruct (json !! "PID") as [PID|]; [|rewrite Hseg by auto; settle].
  destruct (json !! "DG1") as [DG1|]; [|rewrite Hfld by eauto; settle].
  destruct (json !! "PR1") as [PR1|]; [|rewrite Hfld by eauto; settle].
  destruct (Hret header PID DG1 PR1 eq_refl eq_refl eq_refl eq_refl)
    as (data & -> & _).
  settle.
Qed.

(** The date pattern of the encoder finds a month and a day in every text
    with a slash. *)
Lemma split_two (sep : ascii) (a rest : string) :
  ∃ x y l, split sep (a ++ String sep rest) = x :: y :: l.
Proof.
  induction a as [|c a (x & y & l & IH)].
  - rewrite str_app_nil_l, split_cons_sep.
    pose proof (split_not_nil sep rest).
    destruct (split sep rest) as [|y l]; [done|]. by exists "", y, l.
  - rewrite str_app_cons. simpl. rewrite IH.
    destruct (Ascii.eqb c sep); eauto.
Qed.

Lemma formatDate_slash (a rest : string) :
  ∃ r, formatDate (a ++ "/" ++ rest) = Returned r.
Proof.
  unfold formatDate. change ("/" ++ rest) with (String "/" rest).
  destruct (split_two "/" a rest) as (x & y & l & ->). eauto.
Qed.

Lemma split_at_first (c : ascii) (s : string) :
  freeOf c s = false → ∃ a rest, s = a ++ String c rest.
Proof.
  induction s as [|x s IH]; [discriminate|].
  rewrite freeOf_cons. destruct (Ascii.eqb x c) eqn:E.
  - apply Ascii.eqb_eq in E as ->. intros _. by exists "", s.
  - simpl. intros (a & rest & ->)%IH. by exists (String x a), rest.
Qed.

(** X29.  The date formatter local to the encoder of the PDF page throws a
    [TypeError] exactly on the strings without a slash (the day is then
    undefined), and on every other string returns an eight-digit token: a
    string with one slash gives 20250101; a string with two slashes or
    more gives the first three parts rearranged as year, padded month and
    padded day when that is eight digits, and 20250101 otherwise.  Every
    string with a slash is of one of these two forms. *)
Theorem pdf_formatDate_outcomes (dateStr : string) :
  (freeOf "/" dateStr = true → formatDate dateStr = Thrown TypeError) ∧
  (freeOf "/" dateStr = false →
   ∃ formatted, formatDate dateStr = Returned formatted
                ∧ eightDigits formatted = true) ∧
  (∀ month day, freeOf "/" month = true → freeOf "/" day = true →
     dateStr = month ++ "/" ++ day →
     formatDate dateStr = Returned "20250101") ∧
  (∀ month day year tail,
     freeOf "/" month = true → freeOf "/" day = true → freeOf "/" year = true →
     tail = "" ∨ (∃ more, tail = "/" ++ more) →
     dateStr = month ++ "/" ++ day ++ "/" ++ year ++ tail →
     formatDate dateStr
     = Returned
         (if eightDigits (year ++ padStart 2 "0" month ++ padStart 2 "0" day)
          then year ++ padStart 2 "0" month ++ padStart 2 "0" day
          else "20250101")) ∧
  (freeOf "/" dateStr = false →
   (∃ month day, freeOf "/" month = true ∧ freeOf "/" day = true ∧
                 dateStr = month ++ "/" ++ day) ∨
   (∃ month day year tail,
      freeOf "/" month = true ∧ freeOf "/" day = true ∧
      freeOf "/" year = true ∧ (tail = "" ∨ ∃ more, tail = "/" ++ more) ∧
      dateStr = month ++ "/" ++ day ++ "/" ++ year ++ tail)).
Proof.
  split; [apply pdf_formatDate_no_slash|]. split; [|split; [|split]].
  - unfold formatDate. intros (a & rest & ->)%split_at_first.
    destruct (split_two "/" a rest) as (month & day & l & ->).
    eexists. split; [reflexivity|].
    set (formatted := default "undefined" (head l) ++ _).
    destruct (eightDigits formatted) eqn:E; [exact E|reflexivity].
  - intros month day Hm Hd ->. by apply pdf_formatDate_one_slash.
  - intros month day year tail Hm Hd Hy Ht ->. by apply pdf_formatDate_parts.
  - intros Hf. destruct (slash_cases dateStr) as [H|H]; [|exact H].
    rewrite H in Hf. discriminate Hf.
Qed.

Lemma formatDate_dateOr (s d : string) :
  (∃ r, formatDate d = Returned r) →
  ∃ r, formatDate (if truthy s then slashDate s else d) = Returned r.
Proof.
  intros H. destruct (truthy s); [|done]. apply formatDate_slash.
Qed.

(** X25.  A record the extraction from a JSON file returns holds no empty
    field, and the encoder of the page does not throw on it. *)
Theorem json_record_encodes (json : gmap string (gmap string string))
    (data : gmap string string) :
  extractDataFromJson json = inr data →
  (∀ k v, data !! k = Some v → v ≠ "") ∧
  ∃ hl7, convertToHL7 data = Returned hl7.
Proof.
  intros H.
  destruct (json_extraction_segments json data H) as (header & PID & DG1 & PR1 & Eh & Ep & Ed & Er).
  destruct (extractDataFromJson_returns json header PID DG1 PR1 Eh Ep Ed Er)
    as (data0 & E0 & Hall & _ & _ & Hdob & _ & _ & Hdiag & _ & _ & Hsd & _).
  rewrite E0 in H. injection H as <-. split.
  - intros k v Hk. apply truthy_true. exact (Hall k v Hk).
  - unfold convertToHL7, dateField, codingMethod. rewrite Hsd, Hdob, Hdiag.
    destruct (formatDate_dateOr (getOr PR1 "procedureDate") "01/01/2025")
      as [sd ->]; [by eexists|].
    destruct (formatDate_dateOr (getOr PID "dob") "01/01/1900")
      as [bd ->]; [by eexists|].
    destruct (orElse (getOr DG1 "diagnosisCode") "00000"); eexists; reflexivity.
Qed.

(** *** From the encoder through the decoder to the extraction *)

Lemma split_pieces (line : string) (pieces : list string) :
  line = join "|" pieces → pieces ≠ [] → forallb (freeOf "|") pieces = true →
  split "|" line = pieces.
Proof. intros -> Hne Hf. by apply split_join. Qed.

Lemma printed_freeOf (c : ascii) (data : gmap string string) (k : string) :
  valuesFreeOf c data = true → c = "|"%char ∨ c = "010"%char →
  freeOf c (printed data k) = true.
Proof.
  intros Hv Hc. unfold printed. destruct (data !! k) as [v|] eqn:E.
  - by eapply valuesFreeOf_lookup.
  - by destruct Hc as [-> | ->].
Qed.

Lemma dateField_freeOf (c : ascii) (data : gmap string string) (k r : string) :
  dateField data k = Returned r → isDigit c = false → freeOf c r = true.
Proof.
  unfold dateField, formatDate. intros H Hc.
  destruct (data !! k) as [dateStr|]; [|discriminate H].
  destruct (split "/" dateStr) as [|month [|day rest]]; try discriminate H.
  injection H as <-.
  destruct (eightDigits _) eqn:E.
  - apply andb_prop in E as [_ E]. by apply allDigits_freeOf.
  - by apply allDigits_freeOf.
Qed.

Lemma codingMethod_values (data : gmap string string) (method : string) :
  codingMethod data = Returned method → method = "ICD10" ∨ method = "CPT4".
Proof.
  unfold codingMethod. destruct (data !! "diagnosis") as [[|c v]|];
    [| |discriminate]; intros [= <-]; [by right|].
  destruct (isUpper c); auto.
Qed.

(** Decoding lines is decoding their pieces. *)
Lemma pdf_decode_pieces (lines : list string) (pieces : list (list string))
    (out : gmap string (gmap string string)) :
  split "|" <$> lines = pieces →
  foldl decodeLine out lines
  = foldl (λ (out : gmap string (gmap string string)) (parts : list string),
             match parts with
             | segmentType :: fields =>
                 assign segmentType (segmentObjectOf segmentType fields)
                   (assign segmentType ∅ out)
             | [] => out
             end) out pieces.
Proof.
  intros <-. revert out. induction lines as [|line lines IH]; intros out; [done|].
  rewrite fmap_cons. cbn [foldl]. rewrite <- IH. reflexivity.
Qed.

Section Templates.
Variables (data : gmap string string) (serviceDate dob method : string).
Hypothesis (Hp : valuesFreeOf "|" data = true) (Hn : valuesFreeOf "010" data = true).
Hypothesis (Psd : freeOf "|" serviceDate = true) (Nsd : freeOf "010" serviceDate = true).
Hypothesis (Pbd : freeOf "|" dob = true) (Nbd : freeOf "010" dob = true).
Hypothesis (Pm : freeOf "|" method = true) (Nm : freeOf "010" method = true).

Ltac free_pipe :=
  rewrite ?freeOf_app,
    ?(λ k, printed_freeOf "|" data k Hp (or_introl eq_refl)), ?Psd, ?Pbd, ?Pm.

Ltac free_break :=
  rewrite ?freeOf_app,
    ?(λ k, printed_freeOf "010" data k Hn (or_intror eq_refl)), ?Nsd, ?Nbd, ?Nm.

(** Each template, cut at its field separators. *)
Lemma segments_split :
  split "|" <$> segments data serviceDate dob method
  = segmentPieces data serviceDate dob method.
Proof.
  unfold segments, segmentPieces. cbv zeta. cbn [fmap list_fmap].
  repeat match goal with
         | |- split "|" ?line :: ?l = ?pieces :: ?r =>
             rewrite (split_pieces line pieces);
             [ f_equal
             | cbn [join]; rewrite ?str_app_assoc; reflexivity
             | discriminate
             | cbn [forallb]; free_pipe; reflexivity ]
         end.
Qed.

Lemma message_lines :
  split "010" (join (String "010" "") (segments data serviceDate dob method))
  = segments data serviceDate dob method.
Proof.
  apply split_join; [discriminate|].
  unfold segments. cbn [forallb]. free_break. reflexivity.
Qed.

(** The decoder of the page stores, for each of the lines, the object of
    its fields. *)
Lemma message_decoded (segmentType : string) (fields : list string) :
  segmentType :: fields ∈ segmentPieces data serviceDate dob method →
  convertHL7ToJson (join (String "010" "") (segments data serviceDate dob method))
    !! segmentType
  = Some (segmentObjectOf segmentType fields).
Proof.
  unfold convertHL7ToJson. rewrite message_lines.
  rewrite (pdf_decode_pieces _ _ ∅ segments_split).
  unfold segmentPieces. cbv zeta. cbn [foldl].
  intros H.
  repeat (apply elem_of_cons in H as [[= -> ->]|H]; [reflexivity|]).
  by apply elem_of_nil in H.
Qed.

Lemma message_through_json :
  ∃ data', extractDataFromJson
             (convertHL7ToJson
                (join (String "010" "") (segments data serviceDate dob method)))
           = inr data' ∧
    data' !! "serviceDate" = Some "01/01/2025" ∧
    data' !! "providerAddress" = Some "Unknown Provider Address" ∧
    data' !! "diagnosisDescription" = Some "Illness, unspecified" ∧
    data' !! "diagnosis"
      = Some (printed data "diagnosis" ++ "^"
              ++ printed data "diagnosisDescription" ++ "^" ++ method) ∧
    data' !! "patientName"
      = Some (orElse (printed data "patientName") "Unknown Patient") ∧
    data' !! "insurancePlan"
      = Some (orElse (printed data "insurancePlan") "Unknown Plan").
Proof.
  pose proof message_decoded as Hdec.
  unfold segmentPieces in Hdec. cbv zeta in Hdec.
  match type of Hdec with
  | ∀ t fs, _ ∈ [?a; ?b; ?c; ?d; ?e; ?f; ?g] → _ =>
      pose proof (Hdec _ _ (list_elem_of_here _ _)) as Hh;
      pose proof (Hdec _ _ (list_elem_of_further _ _ _ (list_elem_of_here _ _))) as Hpid;
      pose proof (Hdec _ _ (list_elem_of_further _ _ _ (list_elem_of_further _ _ _
                              (list_elem_of_here _ _)))) as Hpv1;
      pose proof (Hdec _ _ (list_elem_of_further _ _ _ (list_elem_of_further _ _ _
                              (list_elem_of_further _ _ _ (list_elem_of_here _ _))))) as Hdg1;
      pose proof (Hdec _ _ (list_elem_of_further _ _ _ (list_elem_of_further _ _ _
                              (list_elem_of_further _ _ _ (list_elem_of_further _ _ _
                              (list_elem_of_here _ _)))))) as Hpr1;
      pose proof (Hdec _ _ (list_elem_of_further _ _ _ (list_elem_of_further _ _ _
                              (list_elem_of_further _ _ _ (list_elem_of_further _ _ _
                              (list_elem_of_further _ _ _ (list_elem_of_here _ _))))))) as Hin1
  end.
  clear Hdec.
  destruct (extractDataFromJson_returns _ _ _ _ _ Hh Hpid Hdg1 Hpr1)
    as (data' & E & _ & Hname & _ & _ & _ & _ & Hdiag & Hdesc & _ & Hdate
        & _ & Haddr & Hplan).
  exists data'. split; [exact E|].
  rewrite Hdate, Haddr, Hdesc, Hdiag, Hname, Hplan, Hpv1, Hin1.
  cbn [mbind option_bind].
  repeat split.
  - f_equal. transitivity (orElse (orElse (orElse (printed data "diagnosis" ++ "^"
              ++ printed data "diagnosisDescription" ++ "^" ++ method) "") "") "00000");
      [reflexivity|]. rewrite !orElse_empty. unfold orElse.
    by destruct (printed data "diagnosis").
  - f_equal. transitivity (orElse (orElse (orElse (printed data "patientName") "") "")
                             "Unknown Patient"); [reflexivity|].
    by rewrite !orElse_empty.
  - f_equal. transitivity (orElse (orElse (orElse (printed data "insurancePlan") "") "")
                             "Unknown Plan"); [reflexivity|].
    by rewrite !orElse_empty.
Qed.

End Templates.

(** X26.  A record that goes from the encoder of the PDF page through its
    decoder and on to the extraction from a JSON file comes back changed.
    When no value of the record holds a field separator or a line break and
    the encoder returns a message, the extraction from the decoded message
    succeeds, and in the record it returns the service date is always
    01/01/2025, the provider address and the diagnosis description are
    always the defaults, the diagnosis is the composite the encoder wrote
    (code, description and coding method), while the patient name and the
    insurance plan are those of the record (the default when empty). *)
Theorem record_through_hl7_and_json (data : gmap string string) (hl7 : string) :
  valuesFreeOf "|" data = true → valuesFreeOf "010" data = true →
  convertToHL7 data = Returned hl7 →
  ∃ method data',
    codingMethod data = Returned method ∧
    extractDataFromJson (convertHL7ToJson hl7) = inr data' ∧
    data' !! "serviceDate" = Some "01/01/2025" ∧
    data' !! "providerAddress" = Some "Unknown Provider Address" ∧
    data' !! "diagnosisDescription" = Some "Illness, unspecified" ∧
    data' !! "diagnosis"
      = Some (printed data "diagnosis" ++ "^"
              ++ printed data "diagnosisDescription" ++ "^" ++ method) ∧
    data' !! "patientName"
      = Some (orElse (printed data "patientName") "Unknown Patient") ∧
    data' !! "insurancePlan"
      = Some (orElse (printed data "insurancePlan") "Unknown Plan").
Proof.
  intros Hp Hn H. unfold convertToHL7 in H.
  destruct (dateField data "serviceDate") as [sd|e] eqn:Esd; [|discriminate H].
  destruct (dateField data "dob") as [bd|e] eqn:Ebd; [|discriminate H].
  destruct (codingMethod data) as [method|e] eqn:Em; [|discriminate H].
  injection H as <-. exists method.
  assert (Hm : freeOf "|" method = true ∧ freeOf "010" method = true)
    by (destruct (codingMethod_values _ _ Em) as [-> | ->]; done).
  destruct Hm as [Pm Nm].
  destruct (message_through_json data sd bd method) as (data' & Hdata');
    try assumption;
    try (eapply dateField_freeOf; [eassumption|reflexivity]).
  by exists data'.
Qed.

Lemma json_record_encodes_witness :
  ∃ hl7, convertToHL7 minimalRecord = Returned hl7.
Proof.
  destruct (json_record_encodes minimalFile minimalRecord) as [_ H];
    [reflexivity|exact H].
Defined.

Lemma record_through_hl7_and_json_witness :
  ∃ data', extractDataFromJson (convertHL7ToJson acceptedMessage) = inr data' ∧
           acceptedRecord !! "serviceDate" = Some "05/16/2025" ∧
           data' !! "serviceDate" = Some "01/01/2025".
Proof.
  destruct (record_through_hl7_and_json acceptedRecord acceptedMessage)
    as (method & data' & _ & E & Hsd & _);
    [reflexivity|reflexivity|reflexivity|].
  exists data'. split; [exact E|]. split; [reflexivity|exact Hsd].
Defined.

End FilePipeline.

(** ** The lines the two JSON encoders emit *)
Section EncoderLines.
Import JS Common Spec Examples.
Context (localeCompare : string → string → Z).

Lemma obxSegments_types (data : Json) :
  recordSafe data = true →
  lineType <$> obxSegments localeCompare data
  = replicate (length (filter (λ key, startsWith "OBX" key = true) (objKeys data)))
              "OBX".
Proof.
  intros Hs. unfold obxSegments.
  rewrite <- (Permutation_length
                (sort_perm (λ a b, localeCompare (obxSortKey data a) (obxSortKey data b))
                   (filter (λ key, startsWith "OBX" key = true) (objKeys data)))).
  fold (obxKeys localeCompare data).
  induction (obxKeys localeCompare data) as [|k ks IH]; [done|].
  rewrite !fmap_cons, IH. simpl. f_equal.
  apply (lineParts _ "OBX" (trimTrailing (obxFields (default ∅ (objGet data k))))).
  apply obxLine_split, recordSafe_default; auto.
Qed.

Lemma standardSegments_types (data : Json) :
  recordSafe data = true →
  lineType <$> CMSConverter.standardSegments data = CMSConverter.hl7Mappings.*1.
Proof.
  intros Hs. unfold CMSConverter.standardSegments.
  assert (H : ∀ x, x ∈ CMSConverter.hl7Mappings → x ∈ CMSConverter.hl7Mappings)
    by done.
  revert H. generalize CMSConverter.hl7Mappings at 1 3 4.
  induction l as [|[name fields] l IH]; intros H; [done|].
  rewrite !fmap_cons, IH by (intros x Hx; apply H; by right). f_equal.
  apply (lineParts _ name
           (trimTrailing (CMSConverter.fieldValue data <$> fields))).
  apply standardLine_split; [done|]. apply H. by left.
Qed.

Lemma definedSegments_types (data : Json) :
  recordSafe data = true →
  lineType <$> DynamicConverter.definedSegments data
  = filter (λ segmentName, is_Some (objGet data segmentName))
           DynamicConverter.segmentDefinitions.*1.
Proof.
  intros Hs. unfold DynamicConverter.definedSegments.
  assert (H : ∀ x, x ∈ DynamicConverter.segmentDefinitions
                   → x ∈ DynamicConverter.segmentDefinitions) by done.
  revert H. generalize DynamicConverter.segmentDefinitions at 1 3 4.
  induction l as [|[name fields] l IH]; intros H; [done|].
  rewrite fmap_cons. cbn [omap list_omap fst].
  specialize (IH (λ x Hx, H x (list_elem_of_further _ _ _ Hx))).
  destruct (objGet data name) as [m|] eqn:E; cbn [mbind option_bind].
  - rewrite filter_cons_True by (rewrite E; eauto).
    rewrite fmap_cons. f_equal; [|exact IH].
    apply (lineParts _ name
             (trimTrailing (DynamicConverter.segmentFieldsOf m fields))).
    apply (definedLine_split data); [apply H; by left|].
    eapply recordSafe_get; eauto.
  - rewrite filter_cons_False by (rewrite E; by intros [? ?]). exact IH.
Qed.

(** X27.  The encoder of src/CMSConverter.tsx always emits the five
    standard lines, in the order MSH, PID, PV1, PR1, IN1, whether or not
    the record has these segments, and after them one OBX line for each key
    of the record that starts with OBX. *)
Theorem mapped_encoder_line_types (data : Json) :
  recordSafe data = true →
  lineType <$> CMSConverter.wireLines (CMSConverter.convertToHL7 localeCompare data)
  = (["MSH"; "PID"; "PV1"; "PR1"; "IN1"]
     ++ replicate (length (filter (λ key, startsWith "OBX" key = true)
                                  (objKeys data))) "OBX")%list.
Proof.
  intros Hs. rewrite cms_encoded_lines by done.
  by rewrite fmap_app, standardSegments_types, obxSegments_types.
Qed.

(** X28.  The encoder of the converter page emits a line for a segment of
    its table only when the record has that segment: the types of the
    lines it emits are the names of the table, in the order of the table,
    that are keys of the record, followed by one OBX for each key of the
    record that starts with OBX. *)
Theorem dynamic_encoder_line_types (data : Json) :
  recordSafe data = true →
  lineType <$> DynamicConverter.wireLines
                 (DynamicConverter.convertToHL7 localeCompare data)
  = (filter (λ segmentName, is_Some (objGet data segmentName))
            DynamicConverter.segmentDefinitions.*1
     ++ replicate (length (filter (λ key, startsWith "OBX" key = true)
                                  (objKeys data))) "OBX")%list.
Proof.
  intros Hs. rewrite encoded_lines by done.
  by rewrite fmap_app, definedSegments_types, obxSegments_types.
Qed.

End EncoderLines.

Section EncoderLinesExamples.
Import JS Common Spec Examples.

Lemma mapped_encoder_line_types_witness :
  lineType <$> CMSConverter.wireLines (CMSConverter.convertToHL7 codeUnitCompare [])
  = ["MSH"; "PID"; "PV1"; "PR1"; "IN1"].
Proof. apply (mapped_encoder_line_types codeUnitCompare []). reflexivity. Defined.

Lemma dynamic_encoder_line_types_witness :
  lineType <$> DynamicConverter.wireLines
                 (DynamicConverter.convertToHL7 codeUnitCompare patientWithObservations)
  = ["PID"; "OBX"; "OBX"].
Proof.
  apply (dynamic_encoder_line_types codeUnitCompare patientWithObservations).
  reflexivity.
Defined.

End EncoderLinesExamples.
(** ** What the decoders give for bare tokens, unmapped positions and known types *)
Section Decoded.
Import JS Common Spec Examples.

Lemma assign_fresh {V} (k : string) (v : V) :
  k ≠ "__proto__" → assign k v (∅ : gmap string V) = {[ k := v ]}.
Proof. intros H. by rewrite assign_other, insert_empty. Qed.

(** No canonical name of a switch is a generic name. *)
Lemma shapeOf_names (t : string) (shape : list (string * nat)) (name : string) :
  shapeOf t = Some shape → name ∈ shape.*1 → startsWith "field" name = false.
Proof.
  assert (Hall : Forall (λ s : list (string * nat),
                    Forall (λ n, startsWith "field" n = false) s.*1)
                   (CMSConverter.obxShape :: CMSConverter.knownSegments.*2))
    by compute_done.
  intros Hs Hn. rewrite Forall_forall in Hall.
  assert (Hin : shape ∈ CMSConverter.obxShape :: CMSConverter.knownSegments.*2).
  { unfold shapeOf in Hs. case_bool_decide.
    - injection Hs as <-. left.
    - right. apply elem_of_list_to_map_2 in Hs.
      apply list_elem_of_fmap. by exists (t, shape). }
  specialize (Hall _ Hin). rewrite Forall_forall in Hall. by apply Hall.
Qed.




(** C9, as the code has it.  A wire line that is a bare type token (no
    separator) is decoded without error by the two decoders, whatever was
    decoded before.  The table-driven decoder of the converter page binds
    the token to an empty field map, whatever its table.  The
    switch-driven decoder of src/CMSConverter.tsx binds it to an empty
    field map when its switch does not know the type, and to the map of
    all the canonical names of the type, each bound to the empty string,
    when it does.  The token [__proto__] adds no entry.  A text that is
    such a token alone, and not blank, is decoded to a record with that
    one entry. *)
Theorem bare_token_decodes (t : string) :
  freeOf "|" t = true →
  (t ≠ "__proto__" →
   ∀ table out, DynamicConverter.decodeLine table out t = <[t := ∅]> out) ∧
  (shapeOf t = None → t ≠ "__proto__" →
   ∀ out, CMSConverter.decodeLine out t = <[t := ∅]> out) ∧
  (∀ shape, shapeOf t = Some shape →
     (∀ out, CMSConverter.decodeLine out t !! t = Some (allEmpty shape)) ∧
     dom (allEmpty shape) = list_to_set shape.*1 ∧
     (∀ name v, allEmpty shape !! name = Some v → v = "")) ∧
  (t = "__proto__" →
   ∀ table out, DynamicConverter.decodeLine table out t = out ∧
                CMSConverter.decodeLine out t = out) ∧
  (freeOf "010" t = true → truthy (trim t) = true →
   (t ≠ "__proto__" → DynamicConverter.convertHL7ToJson t = {[ t := ∅ ]}) ∧
   (shapeOf t = None → t ≠ "__proto__" →
    CMSConverter.convertHL7ToJson t = {[ t := ∅ ]}) ∧
   (∀ shape, shapeOf t = Some shape →
      CMSConverter.convertHL7ToJson t = {[ t := allEmpty shape ]})).
Proof.
  intros Hp.
  assert (Hknown : ∀ shape, shapeOf t = Some shape → t ≠ "__proto__").
  { intros shape Hs. pose proof (shapeOf_key t [] shape Hs) as H.
    by rewrite segmentKeyOf_bare in H. }
  split; [|split; [|split; [|split]]].
  - intros Hk table out. by rewrite dyn_decodeLine_bare, assign_other.
  - intros Hs Hk out. by rewrite cms_decodeLine_bare_unknown, assign_other.
  - intros shape Hs. split; [|split; [|apply allEmpty_values]].
    + intros out.
      pose proof (cms_decodeLine_split out t t [] (split_free _ _ Hp)
                    (shapeOf_key _ _ _ Hs)) as H.
      rewrite segmentKeyOf_bare in H. rewrite H.
      by rewrite (shapeOf_Some _ _ _ Hs), objectOf_nil.
    + unfold allEmpty. rewrite dom_list_to_map_L. f_equal.
      rewrite <- list_fmap_compose. apply list_fmap_ext. by intros ? [??] _.
  - intros -> table out. split.
    + by rewrite dyn_decodeLine_bare.
    + by rewrite cms_decodeLine_bare_unknown.
  - intros Hn Ht.
    assert (Hdyn : DynamicConverter.convertHL7ToJson t = assign t ∅ ∅).
    { unfold DynamicConverter.convertHL7ToJson, DynamicConverter.convertHL7ToJsonWith.
      rewrite dyn_wireLines_bare by done. simpl. by apply dyn_decodeLine_bare. }
    assert (Hcms : CMSConverter.convertHL7ToJson t = CMSConverter.decodeLine ∅ t).
    { unfold CMSConverter.convertHL7ToJson. by rewrite cms_wireLines_bare. }
    split; [|split].
    + intros Hk. by rewrite Hdyn, assign_fresh.
    + intros Hs Hk. by rewrite Hcms, cms_decodeLine_bare_unknown, assign_fresh.
    + intros shape Hs. rewrite Hcms. unfold CMSConverter.decodeLine.
      rewrite split_free by done. rewrite segmentKeyOf_bare, lookup_empty.
      rewrite (shapeOf_Some _ _ _ Hs), objectOf_nil.
      rewrite !assign_other by (by eapply Hknown).
      by rewrite insert_insert_eq, insert_empty.
Qed.

Lemma bare_token_decodes_witness :
  CMSConverter.convertHL7ToJson "PV1"
  = {[ "PV1" := allEmpty [ ("setId", 0); ("patientClass", 1);
                           ("attendingDoctor", 6);
                           ("providerPhoneNumber", 18) ]%nat ]}.
Proof.
  destruct (bare_token_decodes "PV1" eq_refl) as (_ & _ & _ & _ & H).
  destruct (H eq_refl eq_refl) as (_ & _ & H').
  exact (H' [ ("setId", 0); ("patientClass", 1); ("attendingDoctor", 6);
              ("providerPhoneNumber", 18) ]%nat eq_refl).
Defined.

(** C9, the stated claim fails in src/CMSConverter.tsx: the bare token PV1
    is decoded to a field map of four names, not to an empty one. *)
Lemma bare_known_token_binds_all_names :
  freeOf "|" "PV1" = true ∧
  CMSConverter.convertHL7ToJson "PV1" !! "PV1"
  = Some {[ "setId" := ""; "patientClass" := ""; "attendingDoctor" := "";
            "providerPhoneNumber" := "" ]} ∧
  CMSConverter.convertHL7ToJson "PV1" !! "PV1" ≠ Some ∅.
Proof. split; [reflexivity|]. split; [reflexivity|]. compute_done. Qed.

(** C5, as the code has it.  The table-driven decoder, run with the schema
    of the example, decodes the text of the example to the record of the
    example; with a table none of whose canonical names is a generic name,
    as the table of the code is, it stores every field at a wire position
    without table entry under the generic name of its 1-based position.
    The switch-driven decoder of src/CMSConverter.tsx names by the 0-based
    array index: for a type its switch does not know, the field at wire
    position i + 1 is stored under field<i>, and no field under the name
    of the last position; for a type it knows, the fields at positions
    outside the shape are dropped and no generic name is stored. *)
Theorem generic_fallback_names :
  DynamicConverter.convertHL7ToJsonWith exampleSchema exampleWire
  = {[ "MSH" := {[ "sendingApp" := "a"; "field2" := "b" ]};
       "PID" := {[ "patientId" := "x" ]} ]} ∧
  (∀ (table out : gmap string (gmap string string)) line i v,
     (∀ k name, default ∅ (table !! lineType line) !! k = Some name →
                startsWith "field" name = false) →
     lineFields line !! i = Some v → dynLineKey line ≠ "__proto__" →
     default ∅ (table !! lineType line) !! fieldName (i + 1) = None →
     ∃ m, DynamicConverter.decodeLine table out line !! dynLineKey line = Some m ∧
          m !! fieldName (i + 1) = Some v) ∧
  (∀ segmentType k name,
     default ∅ (DynamicConverter.segmentFieldMappings !! segmentType) !! k
     = Some name →
     startsWith "field" name = false) ∧
  (∀ (out : gmap string (gmap string string)) line i v,
     shapeOf (lineType line) = None → lineType line ≠ "__proto__" →
     lineFields line !! i = Some v →
     ∃ m, CMSConverter.decodeLine out line !! lineType line = Some m ∧
          m !! fieldName i = Some v ∧
          m !! fieldName (length (lineFields line)) = None) ∧
  (∀ (out : gmap string (gmap string string)) line shape,
     shapeOf (lineType line) = Some shape →
     ∃ m, CMSConverter.decodeLine out line !! lineKey line = Some m ∧
          dom m = list_to_set shape.*1 ∧
          ∀ n, m !! fieldName n = None).
Proof.
  split; [reflexivity|]. split; [|split; [|split]].
  - intros table out line i v Hnames Hi Hk Hun.
    exists (dynLineData table line).
    split; [by rewrite dyn_decodeLine_eq, lookup_assign_eq|].
    by apply segmentDataOf_unmapped.
  - apply segmentFieldMappings_names.
  - intros out line i v Hs Hk Hi.
    exists (CMSConverter.genericObject (lineFields line)).
    destruct (shapeOf_None _ (lineFields line) Hs) as [Hkey Hobj].
    pose proof (cms_decodeLine_split out line _ _ (split_head_tail line)) as H.
    rewrite Hkey, Hobj in H. split; [by apply H|].
    rewrite !genericObject_lookup. split; [done|].
    by apply lookup_ge_None_2.
  - intros out line shape Hs.
    exists (CMSConverter.objectOf (lineFields line) shape).
    destruct (objectOf_shape (lineFields line) shape
                (shapeOf_NoDup (lineType line) shape Hs)) as [Hd Hn].
    split; [|split; [done|]].
    + unfold lineKey.
      rewrite (cms_decodeLine_split _ _ _ _ (split_head_tail line))
        by (by eapply shapeOf_key).
      by rewrite (shapeOf_Some _ _ _ Hs).
    + intros n. apply not_elem_of_dom. rewrite Hd.
      intros Hin%elem_of_list_to_set.
      apply (shapeOf_names _ _ _ Hs) in Hin.
      by rewrite startsWith_fieldName in Hin.
Qed.

(** C5, the stated claim fails in src/CMSConverter.tsx: for a type its
    switch does not know, the field at wire position 1 is stored under
    field0 and the field at position 2 under field1. *)
Lemma unknown_type_names_from_zero :
  shapeOf "ZZZ" = None ∧
  CMSConverter.convertHL7ToJson "ZZZ|a|b"
  = {[ "ZZZ" := {[ "field0" := "a"; "field1" := "b" ]} ]}.
Proof. split; reflexivity. Qed.



End Decoded.
(** ** The clock in the text form *)
Section Clock.
Import JS Common Spec Examples.
Import FixedConverter.

(** The four lines of the message, when the clock string holds no line
    break. *)
Lemma handleConvertClick_lines (now inputText : string) :
  freeOf "010" now = true →
  ∃ patient insurance visit,
    split "010" (handleConvertClick now inputText)
    = [ "MSH|^~\&|CMS1500App|Hospital|HL7Receiver|HL7Facility|" ++ now
          ++ "||ADT^A01|MSG00001|P|2.5"; patient; insurance; visit ] ∧
    ∀ now', handleConvertClick now' inputText
            = join (String "010" "")
                [ "MSH|^~\&|CMS1500App|Hospital|HL7Receiver|HL7Facility|" ++ now'
                    ++ "||ADT^A01|MSG00001|P|2.5"; patient; insurance; visit ].
Proof.
  intros Hnow. unfold handleConvertClick, toHl7Format.
  set (data := parseCMS1500Text inputText).
  assert (Hget : ∀ k, freeOf "010" (getOr data k) = true).
  { intros k. rewrite getOr_lookup. destruct (data !! k) as [v|] eqn:E; [|done].
    by apply parseCMS1500Text_values in E. }
  assert (Hfirst : ∀ k, freeOf "010" (firstCharOr data k) = true).
  { intros k. unfold firstCharOr. destruct (data !! k) as [[|c v]|] eqn:E; try done.
    apply parseCMS1500Text_values in E. rewrite freeOf_cons in E.
    apply andb_prop in E as [E _]. by rewrite freeOf_cons, E. }
  eexists _, _, _. split; [|reflexivity].
  rewrite split_join; [done|done|].
  simpl forallb. rewrite !freeOf_app, !Hget, !Hfirst, Hnow. reflexivity.
Qed.

(** C8, as the code has it.  The encoder of the text form reads the clock:
    what [handleConvertClick] stores is a function of the text typed in
    and of the clock reading.  Two runs on the same text give the same
    message exactly when the clock reads the same; the clock reading is in
    the header line, and the three lines after it are the same in all
    runs on the same text. *)
Theorem message_depends_on_clock (inputText now1 now2 : string) :
  (handleConvertClick now1 inputText = handleConvertClick now2 inputText
   ↔ now1 = now2) ∧
  (freeOf "010" now1 = true → freeOf "010" now2 = true →
   head (split "010" (handleConvertClick now1 inputText))
   = Some ("MSH|^~\&|CMS1500App|Hospital|HL7Receiver|HL7Facility|" ++ now1
             ++ "||ADT^A01|MSG00001|P|2.5") ∧
   tail (split "010" (handleConvertClick now1 inputText))
   = tail (split "010" (handleConvertClick now2 inputText)) ∧
   length (tail (split "010" (handleConvertClick now1 inputText))) = 3%nat).
Proof.
  split.
  - split; [|by intros ->]. unfold handleConvertClick, toHl7Format.
    set (rest := [_; _; _]). intros H.
    change (join (String "010" "") (?x :: rest)) with
      (x ++ String "010" "" ++ join (String "010" "") rest) in H.
    rewrite !str_app_assoc in H.
    apply (inj (String.app _)) in H. by apply str_app_inv_r in H.
  - intros H1 H2.
    destruct (handleConvertClick_lines now1 inputText H1) as (p & i & v & E1 & Hall).
    destruct (handleConvertClick_lines now2 inputText H2) as (p' & i' & v' & E2 & _).
    rewrite E1. split; [done|]. split; [|done].
    rewrite E2. simpl.
    pose proof (Hall now2) as E. apply (f_equal (split "010")) in E.
    rewrite E2 in E.
    assert (Hrest : forallb (freeOf "010") [p; i; v] = true).
    { pose proof (split_parts_free "010" (handleConvertClick now1 inputText)) as F.
      rewrite E1 in F. inversion_clear F as [|? ? _ F'].
      inversion_clear F' as [|? ? Fp F'']. inversion_clear F'' as [|? ? Fi F'].
      inversion_clear F' as [|? ? Fv _]. simpl. by rewrite Fp, Fi, Fv. }
    rewrite split_join in E; [|done|].
    + by injection E as <- <- <-.
    + simpl forallb. simpl in Hrest. rewrite Hrest.
      rewrite !freeOf_app, H2. reflexivity.
Qed.

End Clock.

Section ClockExamples.
Import JS Common Spec Examples.
Import FixedConverter.

(** C8, the stated claim fails on the encoder of the text form: two runs
    on the same text, a millisecond apart, give different messages. *)
Lemma same_text_two_clock_readings :
  handleConvertClick "2025-05-16T10:00:00.000Z" "pt_name: Smith"
  ≠ handleConvertClick "2025-05-16T10:00:00.001Z" "pt_name: Smith".
Proof. intros H. discriminate H. Qed.

End ClockExamples.
(** ** The quorum of the extraction *)
Section Quorum.
Import JS Common Spec Examples.
Import CMS1500ToHL7Converter.
Context (regexMatch : Pattern → string → option (list string)).




End Quorum.

Section QuorumExamples.
Import JS Common Spec Examples.
Import CMS1500ToHL7Converter.


End QuorumExamples.
(** ** Encoding and decoding on the converter page *)
Section BackAndForth.
Import JS Common Spec Examples.
Context (localeCompare : string → string → Z).




End BackAndForth.

Section BackAndForthExamples.
Import JS Common Spec Examples.



End BackAndForthExamples.
